(** * Gnuk: the OpenPGP card Data Object engine (src/openpgp-do.c)

    A shallow embedding of the data-object engine of Gnuk: the flash data
    pool, the digital signature counter, the password error counters, the
    private key envelope, the data-object table with its access control,
    scan and compaction of the pool, and GET DATA / PUT DATA.

    Bytes, half-words and words are [Z] with the masks of the C code written
    out; pointers into the flash data pool are offsets ([nat]) from its
    (word-aligned) start, [None] standing for [NULL]. *)

From Stdlib Require Import ZArith List Lia Bool.
From stdpp Require Import base option list.
Import ListNotations.
Open Scope Z_scope.

(** ** Constants of gnuk.h *)

Module Nr.
(** Modelled from the spec: the [NR_*] numbers of gnuk.h, which is not among
    the sources.  The spec (section 3) gives [0x01..0x7F] for data objects,
    [0x80..0xBF] and [0xC0..0xC3] for the two halves of the signature
    counter and [0xFF] for the empty tail; the data-object numbers follow
    the order of [do_ptr] in [gpg_do_table], counted from
    [NR_DO__FIRST__]. *)
Definition NR_DO__FIRST__ : Z := 0x01.
Definition NR_DO_SEX : Z := 0x01.
Definition NR_DO_FP_SIG : Z := 0x02.
Definition NR_DO_FP_DEC : Z := 0x03.
Definition NR_DO_FP_AUT : Z := 0x04.
Definition NR_DO_CAFP_1 : Z := 0x05.
Definition NR_DO_CAFP_2 : Z := 0x06.
Definition NR_DO_CAFP_3 : Z := 0x07.
Definition NR_DO_KGTIME_SIG : Z := 0x08.
Definition NR_DO_KGTIME_DEC : Z := 0x09.
Definition NR_DO_KGTIME_AUT : Z := 0x0a.
Definition NR_DO_LOGIN_DATA : Z := 0x0b.
Definition NR_DO_URL : Z := 0x0c.
Definition NR_DO_NAME : Z := 0x0d.
Definition NR_DO_LANGUAGE : Z := 0x0e.
Definition NR_DO_PRVKEY_SIG : Z := 0x0f.
Definition NR_DO_PRVKEY_DEC : Z := 0x10.
Definition NR_DO_PRVKEY_AUT : Z := 0x11.
Definition NR_DO_KEYSTRING_PW1 : Z := 0x12.
Definition NR_DO_KEYSTRING_RC : Z := 0x13.
Definition NR_DO_KEYSTRING_PW3 : Z := 0x14.
Definition NR_DO__LAST__ : Z := 21.
Definition NR_COUNTER_DS : Z := 0x80.
Definition NR_COUNTER_DS_LSB : Z := 0xc0.
Definition NR_BOOL_PW1_LIFETIME : Z := 0xf0.
Definition NR_COUNTER_123 : Z := 0xfe.
Definition NR_EMPTY : Z := 0xff.
End Nr.
Import Nr.

(** Modelled from the spec: the indices of the three password error counters
    (user, reset code, admin), used by [gpg_data_scan] and [rw_pw_status]. *)
Definition PW_ERR_PW1 : Z := 0.
Definition PW_ERR_RC : Z := 1.
Definition PW_ERR_PW3 : Z := 2.

Definition PASSWORD_ERRORS_MAX : Z := 3.
Definition PW_LEN_MAX : Z := 127.
Definition SIZE_FP : nat := 20.
Definition SIZE_KGTIME : nat := 4.

(** Modelled from the spec: sizes of gnuk.h.  The working key [kd] is 128
    bytes of key content, a 32-bit check, a 32-bit random and 8 bytes of
    magic (spec section 3); the private-key record is a 4-byte key address
    followed by four 16-byte fields. *)
Definition KEY_CONTENT_LEN : nat := 128.
Definition KEY_MAGIC_LEN : nat := 8.
Definition ADDITIONAL_DATA_SIZE : nat := 16.
Definition DATA_ENCRYPTION_KEY_SIZE : nat := 16.
Definition SIZEOF_KEY_DATA : nat := 144.
Definition SIZEOF_PRVKEY_DATA : nat := 68.
Definition SIZE_PW_STATUS_BYTES : Z := 7.
Definition NUM_ALL_PRV_KEYS : Z := 3.
Definition KEYSTRING_MD_SIZE : nat := 20.
Definition KEYSTRING_SIZE_PW1 : nat := 21.
Definition KEYSTRING_SIZE_RC : nat := 21.

(** Who unlocks a key.  The three constants are in gnuk.h, which is not
    among the sources, but the source fixes them: [gpg_do_load_prvkey] reads
    the DEK copy at [do_data + 5 + 16 * who] and [gpg_do_chks_prvkey] the one
    at offset [4 + 16 + 16 * (who - 1)] of the record, so the three roles are
    numbered from one. *)
Definition BY_USER : Z := 1.
Definition BY_RESETCODE : Z := 2.
Definition BY_ADMIN : Z := 3.

(** ** Integer types of the C code *)

Definition u8 (x : Z) : Z := Z.land x 0xff.
Definition u16 (x : Z) : Z := Z.land x 0xffff.
Definition u32 (x : Z) : Z := x mod 2 ^ 32.
(** [int8_t]: two's complement wrap-around. *)
Definition i8 (x : Z) : Z := (x + 128) mod 256 - 128.

(** ** Flash memory *)

(** The data pool is an array of bytes.  A read beyond the array finds erased
    flash. *)
Definition rd (m : list Z) (a : nat) : Z := default NR_EMPTY (m !! a).

(** [n] bytes from address [a] on; [d] is what a read beyond the array
    finds. *)
Definition read_bytes (d : Z) (m : list Z) (a n : nat) : list Z :=
  map (fun i => default d (m !! i)) (seq a n).

Definition rd_bytes (m : list Z) (a n : nat) : list Z :=
  read_bytes NR_EMPTY m a n.

(** Programming consecutive bytes; nothing is written beyond the array. *)
Fixpoint flash_program (m : list Z) (a : nat) (bs : list Z) : list Z :=
  match bs with
  | [] => m
  | b :: bs' => flash_program (<[a:=b]> m) (S a) bs'
  end.

(** A half-word is stored little-endian (the spec's note on endianness). *)
Definition hw_bytes (hw : Z) : list Z := [u8 hw; u8 (Z.shiftr hw 8)].

(** Modelled from the spec: [flash_put_data_internal] of flash.c
    ([nv_put_data_internal(addr, u16)]): program one half-word at [p]. *)
Definition flash_put_data_internal (m : list Z) (p : nat) (hw : Z) : list Z :=
  flash_program m p (hw_bytes hw).

(** Array access as C does it, [arr[i]] with [i] an [int]; an index outside of
    the array reads [NULL] and stores nothing. *)
Definition arr_get {A} (l : list (option A)) (i : Z) : option A :=
  if i <? 0 then None else mjoin (l !! Z.to_nat i).
Definition arr_set {A} (l : list A) (i : Z) (x : A) : list A :=
  if i <? 0 then l else <[Z.to_nat i:=x]> l.

(** ** Responses *)

(** Modelled from the spec: the status macros of openpgp.h ([GPG_SUCCESS],
    [GPG_SECURITY_FAILURE], ...), one per error kind of spec section 7. *)
Inductive status_word :=
| GPG_SUCCESS | GPG_MEMORY_FAILURE | GPG_SECURITY_FAILURE | GPG_NO_RECORD
| GPG_ERROR.

(** What is in [res_APDU], [res_APDU_size] bytes long: either the bytes the
    code wrote through [res_p] (with the [90 00] it appends itself), or the
    bare status word of one of the macros. *)
Inductive apdu :=
| RES_DATA (bytes : list Z)
| RES_SW (sw : status_word).

(** ** The state of the card *)

Record state := mkState {
  (* flash: the data pool, its tail, and the key store *)
  data_pool : list Z;
  last_p : nat;
  keystore : list (option (list Z));
  (* variables of openpgp-do.c *)
  digital_signature_counter : Z;
  pw_err_counter_p : list (option nat);
  data_objects_number_of_bytes : Z;
  pw1_lifetime_p : option nat;
  do_ptr : list (option nat);
  num_prv_keys : Z;
  kd : list Z;
  res_p : list Z;
  (* variables of the collaborators *)
  res_APDU : apdu;
  keystring_md_pw3 : list Z;
  auth_admin : bool;
  auth_pso_cds : bool;
  heap_avail : bool;
  random_bytes : list Z
}.

Definition set_data_pool (v : list Z) (s : state) : state :=
  mkState v (last_p s) (keystore s) (digital_signature_counter s)
    (pw_err_counter_p s) (data_objects_number_of_bytes s) (pw1_lifetime_p s)
    (do_ptr s) (num_prv_keys s) (kd s) (res_p s) (res_APDU s)
    (keystring_md_pw3 s) (auth_admin s) (auth_pso_cds s) (heap_avail s)
    (random_bytes s).
Definition set_last_p (v : nat) (s : state) : state :=
  mkState (data_pool s) v (keystore s) (digital_signature_counter s)
    (pw_err_counter_p s) (data_objects_number_of_bytes s) (pw1_lifetime_p s)
    (do_ptr s) (num_prv_keys s) (kd s) (res_p s) (res_APDU s)
    (keystring_md_pw3 s) (auth_admin s) (auth_pso_cds s) (heap_avail s)
    (random_bytes s).
Definition set_keystore (v : list (option (list Z))) (s : state) : state :=
  mkState (data_pool s) (last_p s) v (digital_signature_counter s)
    (pw_err_counter_p s) (data_objects_number_of_bytes s) (pw1_lifetime_p s)
    (do_ptr s) (num_prv_keys s) (kd s) (res_p s) (res_APDU s)
    (keystring_md_pw3 s) (auth_admin s) (auth_pso_cds s) (heap_avail s)
    (random_bytes s).
Definition set_digital_signature_counter (v : Z) (s : state) : state :=
  mkState (data_pool s) (last_p s) (keystore s) v
    (pw_err_counter_p s) (data_objects_number_of_bytes s) (pw1_lifetime_p s)
    (do_ptr s) (num_prv_keys s) (kd s) (res_p s) (res_APDU s)
    (keystring_md_pw3 s) (auth_admin s) (auth_pso_cds s) (heap_avail s)
    (random_bytes s).
Definition set_pw_err_counter_p (v : list (option nat)) (s : state) : state :=
  mkState (data_pool s) (last_p s) (keystore s) (digital_signature_counter s)
    v (data_objects_number_of_bytes s) (pw1_lifetime_p s)
    (do_ptr s) (num_prv_keys s) (kd s) (res_p s) (res_APDU s)
    (keystring_md_pw3 s) (auth_admin s) (auth_pso_cds s) (heap_avail s)
    (random_bytes s).
Definition set_data_objects_number_of_bytes (v : Z) (s : state) : state :=
  mkState (data_pool s) (last_p s) (keystore s) (digital_signature_counter s)
    (pw_err_counter_p s) v (pw1_lifetime_p s)
    (do_ptr s) (num_prv_keys s) (kd s) (res_p s) (res_APDU s)
    (keystring_md_pw3 s) (auth_admin s) (auth_pso_cds s) (heap_avail s)
    (random_bytes s).
Definition set_pw1_lifetime_p (v : option nat) (s : state) : state :=
  mkState (data_pool s) (last_p s) (keystore s) (digital_signature_counter s)
    (pw_err_counter_p s) (data_objects_number_of_bytes s) v
    (do_ptr s) (num_prv_keys s) (kd s) (res_p s) (res_APDU s)
    (keystring_md_pw3 s) (auth_admin s) (auth_pso_cds s) (heap_avail s)
    (random_bytes s).
Definition set_do_ptr (v : list (option nat)) (s : state) : state :=
  mkState (data_pool s) (last_p s) (keystore s) (digital_signature_counter s)
    (pw_err_counter_p s) (data_objects_number_of_bytes s) (pw1_lifetime_p s)
    v (num_prv_keys s) (kd s) (res_p s) (res_APDU s)
    (keystring_md_pw3 s) (auth_admin s) (auth_pso_cds s) (heap_avail s)
    (random_bytes s).
Definition set_num_prv_keys (v : Z) (s : state) : state :=
  mkState (data_pool s) (last_p s) (keystore s) (digital_signature_counter s)
    (pw_err_counter_p s) (data_objects_number_of_bytes s) (pw1_lifetime_p s)
    (do_ptr s) v (kd s) (res_p s) (res_APDU s)
    (keystring_md_pw3 s) (auth_admin s) (auth_pso_cds s) (heap_avail s)
    (random_bytes s).
Definition set_kd (v : list Z) (s : state) : state :=
  mkState (data_pool s) (last_p s) (keystore s) (digital_signature_counter s)
    (pw_err_counter_p s) (data_objects_number_of_bytes s) (pw1_lifetime_p s)
    (do_ptr s) (num_prv_keys s) v (res_p s) (res_APDU s)
    (keystring_md_pw3 s) (auth_admin s) (auth_pso_cds s) (heap_avail s)
    (random_bytes s).
Definition set_res_p (v : list Z) (s : state) : state :=
  mkState (data_pool s) (last_p s) (keystore s) (digital_signature_counter s)
    (pw_err_counter_p s) (data_objects_number_of_bytes s) (pw1_lifetime_p s)
    (do_ptr s) (num_prv_keys s) (kd s) v (res_APDU s)
    (keystring_md_pw3 s) (auth_admin s) (auth_pso_cds s) (heap_avail s)
    (random_bytes s).
Definition set_res_APDU (v : apdu) (s : state) : state :=
  mkState (data_pool s) (last_p s) (keystore s) (digital_signature_counter s)
    (pw_err_counter_p s) (data_objects_number_of_bytes s) (pw1_lifetime_p s)
    (do_ptr s) (num_prv_keys s) (kd s) (res_p s) v
    (keystring_md_pw3 s) (auth_admin s) (auth_pso_cds s) (heap_avail s)
    (random_bytes s).
Definition set_auth_pso_cds (v : bool) (s : state) : state :=
  mkState (data_pool s) (last_p s) (keystore s) (digital_signature_counter s)
    (pw_err_counter_p s) (data_objects_number_of_bytes s) (pw1_lifetime_p s)
    (do_ptr s) (num_prv_keys s) (kd s) (res_p s) (res_APDU s)
    (keystring_md_pw3 s) (auth_admin s) v (heap_avail s)
    (random_bytes s).
Definition set_random_bytes (v : list Z) (s : state) : state :=
  mkState (data_pool s) (last_p s) (keystore s) (digital_signature_counter s)
    (pw_err_counter_p s) (data_objects_number_of_bytes s) (pw1_lifetime_p s)
    (do_ptr s) (num_prv_keys s) (kd s) (res_p s) (res_APDU s)
    (keystring_md_pw3 s) (auth_admin s) (auth_pso_cds s) (heap_avail s)
    v.

(** ** The flash driver (flash.c), as far as openpgp-do.c uses it *)

(** Modelled from the spec: [flash_set_data_pool_last] ([set_tail]). *)
Definition flash_set_data_pool_last (p : nat) (s : state) : state :=
  set_last_p p s.

(** Modelled from the spec: allocation at the tail of the pool.  The pool is
    append-only (spec section 3); [None] when the cell does not fit. *)
Definition flash_data_pool_allocate (size : nat) (s : state)
  : option nat * state :=
  let size := (if Nat.odd size then S size else size) in
  if (last_p s + size <=? length (data_pool s))%nat
  then (Some (last_p s), set_last_p (last_p s + size) s)
  else (None, s).

(** Modelled from the spec: [flash_put_data] appends one half-word cell at
    the tail; without room nothing is written. *)
Definition flash_put_data (hw : Z) (s : state) : state :=
  match flash_data_pool_allocate 2 s with
  | (Some p, s) => set_data_pool (flash_put_data_internal (data_pool s) p hw) s
  | (None, s) => s
  end.

(** Modelled from the spec: [flash_do_write_internal] writes the cell of a
    data object at [p]: the number, the length, the payload, and a pad byte
    (left erased) when the length is odd. *)
Definition do_cell (nr : Z) (data : list Z) : list Z :=
  [u8 nr; u8 (Z.of_nat (length data))] ++ data
  ++ (if Nat.odd (length data) then [NR_EMPTY] else []).

Definition flash_do_write_internal (m : list Z) (p : nat) (nr : Z)
    (data : list Z) : list Z :=
  flash_program m p (do_cell nr data).

(** Modelled from the spec: [flash_do_write] ([nv_append_cell]) appends the
    cell and returns the address of its length byte, the address that
    [gpg_data_scan] and [gpg_data_copy] keep in [do_ptr]; [None] without
    room. *)
Definition flash_do_write (nr : Z) (data : list Z) (s : state)
  : option nat * state :=
  match flash_data_pool_allocate (2 + length data) s with
  | (Some p, s) =>
      (Some (S p),
       set_data_pool (flash_do_write_internal (data_pool s) p nr data) s)
  | (None, s) => (None, s)
  end.

(** Modelled from the spec: [flash_do_release] ([nv_release]) overwrites the
    two-byte header of the cell with [0x0000]; [do_data] is the address of
    the length byte. *)
Definition flash_do_release (do_data : nat) (s : state) : state :=
  set_data_pool (flash_put_data_internal (data_pool s) (do_data - 1) 0) s.

(** Modelled from the spec: [flash_bool_write_internal], [flash_bool_write]
    and [flash_bool_clear]: a two-byte marker whose presence means true. *)
Definition flash_bool_write_internal (m : list Z) (p : nat) (nr : Z) : list Z :=
  flash_put_data_internal m p nr.

Definition flash_bool_write (nr : Z) (s : state) : option nat * state :=
  match flash_data_pool_allocate 2 s with
  | (Some p, s) =>
      (Some p, set_data_pool (flash_bool_write_internal (data_pool s) p nr) s)
  | (None, s) => (None, s)
  end.

(** [flash_bool_clear (&pw1_lifetime_p)] *)
Definition flash_bool_clear_pw1_lifetime (s : state) : state :=
  match pw1_lifetime_p s with
  | None => s
  | Some p =>
      set_pw1_lifetime_p None
        (set_data_pool (flash_put_data_internal (data_pool s) p 0) s)
  end.

(** *** The 1-2-3 counters *)

(** Modelled from the spec: the counter encoders of flash.c (spec section
    4.2).  A counter cell is [NR_COUNTER_123], the index of the counter, and
    a two-byte value in unary: [FF FF] is 0, [FE FF] is 1, [FC FF] is 2,
    [F8 FF] is 3, each increment clearing one more bit; the pointer kept in
    [pw_err_counter_p] is the address of the value.  The counters saturate
    at three (spec section 3). *)
Definition CNT123_MAX : Z := 3.

Definition cnt123_word (m : list Z) (p : nat) : Z :=
  Z.lor (u8 (rd m p)) (Z.shiftl (u8 (rd m (S p))) 8).

Definition cleared_bits (v : Z) : Z :=
  Z.of_nat
    (length (List.filter (fun i => negb (Z.testbit v (Z.of_nat i))) (seq 0 16))).

Definition cnt123_unary (v : Z) : Z := u16 (Z.shiftl 0xffff v).

(** [get_value] counts the cleared bits; no cell is zero. *)
Definition flash_cnt123_get_value (m : list Z) (p : option nat) : Z :=
  match p with
  | None => 0
  | Some p => cleared_bits (cnt123_word m p)
  end.

Definition flash_cnt123_write_internal (m : list Z) (p : nat) (which v : Z)
  : list Z :=
  flash_program m p ([u8 NR_COUNTER_123; u8 which] ++ hw_bytes (cnt123_unary v)).

(** [increment] issues one bit-clearing write, on a new cell when there is
    none, and leaves a saturated counter as it is;
    [flash_cnt123_increment (which, &pw_err_counter_p[which])]. *)
Definition flash_cnt123_increment (which : Z) (s : state) : state :=
  match arr_get (pw_err_counter_p s) which with
  | None =>
      match flash_data_pool_allocate 4 s with
      | (Some p, s) =>
          set_pw_err_counter_p (arr_set (pw_err_counter_p s) which (Some (p + 2)%nat))
            (set_data_pool (flash_cnt123_write_internal (data_pool s) p which 1) s)
      | (None, s) => s
      end
  | Some p =>
      let v := cnt123_word (data_pool s) p in
      if cleared_bits v >=? CNT123_MAX then s
      else
        set_data_pool
          (flash_put_data_internal (data_pool s) p (Z.land v (u16 (Z.shiftl v 1)))) s
  end.

(** [clear] releases the cell; [flash_cnt123_clear (&pw_err_counter_p[which])]. *)
Definition flash_cnt123_clear (which : Z) (s : state) : state :=
  match arr_get (pw_err_counter_p s) which with
  | None => s
  | Some p =>
      set_pw_err_counter_p (arr_set (pw_err_counter_p s) which None)
        (set_data_pool (flash_put_data_internal (data_pool s) (p - 2) 0) s)
  end.

(** ** The digital signature counter *)

Definition dsc_hw_h14 (dsc : Z) : Z :=
  Z.lor (Z.lor NR_COUNTER_DS (Z.shiftr (Z.land dsc 0xfc0000) 18))
        (Z.shiftr (Z.land dsc 0x03fc00) 2).

Definition dsc_hw_l10 (dsc : Z) : Z :=
  Z.lor (Z.lor NR_COUNTER_DS_LSB (Z.shiftr (Z.land dsc 0x0300) 8))
        (Z.shiftl (Z.land dsc 0x00ff) 8).

Definition gpg_write_digital_signature_counter (m : list Z) (p : nat) (dsc : Z)
  : nat * list Z :=
  if Z.shiftr dsc 10 =? 0
  then (* no upper bits *)
    let hw1 := dsc_hw_l10 dsc in
    ((p + 2)%nat, flash_put_data_internal m p hw1)
  else
    let hw0 := dsc_hw_h14 dsc in
    let hw1 := NR_COUNTER_DS_LSB in
    let m := flash_put_data_internal m p hw0 in
    let m := flash_put_data_internal m (p + 2) hw1 in
    ((p + 4)%nat, m).

Definition gpg_increment_digital_signature_counter (s : state) : state :=
  let dsc := Z.land (digital_signature_counter s + 1) 0x00ffffff in
  let s :=
    if Z.land dsc 0x03ff =? 0
    then (* carry occurs from l10 to h14 *)
      let hw0 := dsc_hw_h14 dsc in
      let hw1 := NR_COUNTER_DS_LSB in (* zero *)
      let s := flash_put_data hw0 s in
      flash_put_data hw1 s
    else
      let hw1 := dsc_hw_l10 dsc in
      flash_put_data hw1 s in
  set_digital_signature_counter dsc s.

(** The flash as a power loss leaves it between the two [flash_put_data] of
    the carry branch: the first half-word is written, the second is not (and
    the variables in RAM are gone, to be rebuilt by [gpg_data_scan]). *)
Definition dsc_increment_torn (s : state) : state :=
  let dsc := Z.land (digital_signature_counter s + 1) 0x00ffffff in
  flash_put_data (dsc_hw_h14 dsc) s.

(** ** Password error counters *)

Definition gpg_get_pw_err_counter (which : Z) (s : state) : Z :=
  flash_cnt123_get_value (data_pool s) (arr_get (pw_err_counter_p s) which).

Definition gpg_passwd_locked (which : Z) (s : state) : Z :=
  if gpg_get_pw_err_counter which s >=? PASSWORD_ERRORS_MAX then 1 else 0.

Definition gpg_reset_pw_err_counter (which : Z) (s : state) : state :=
  let s := flash_cnt123_clear which s in
  match arr_get (pw_err_counter_p s) which with
  | Some _ => set_res_APDU (RES_SW GPG_MEMORY_FAILURE) s
  | None => s
  end.

Definition gpg_increment_pw_err_counter (which : Z) (s : state) : state :=
  flash_cnt123_increment which s.

Definition gpg_get_pw1_lifetime (s : state) : Z :=
  match pw1_lifetime_p s with None => 0 | Some _ => 1 end.

(** ** Scanning the data pool *)

(** What the loop of [gpg_data_scan] works on: its locals [p], [dsc_h14_p]
    and [dsc_l10_p], and the three variables of the file that it fills. *)
Record scan_vars := mkScan {
  sv_p : nat;
  sv_dsc_h14_p : option nat;
  sv_dsc_l10_p : option nat;
  sv_pw1_lifetime_p : option nat;
  sv_pw_err_counter_p : list (option nat);
  sv_do_ptr : list (option nat)
}.

(** One turn of the [while] loop; [None] when the byte at [p] is [NR_EMPTY] and
    the loop is left. *)
Definition scan_body (m : list Z) (v : scan_vars) : option scan_vars :=
  let p := sv_p v in
  if rd m p =? NR_EMPTY then None
  else
    let nr := rd m p in
    let p := S p in
    let second_byte := rd m p in
    if (nr =? 0x00) && (second_byte =? 0x00)
    then (* Skip released word *)
      Some (mkScan (S p) (sv_dsc_h14_p v) (sv_dsc_l10_p v) (sv_pw1_lifetime_p v)
              (sv_pw_err_counter_p v) (sv_do_ptr v))
    else if nr <? 0x80 then
      (* It's Data Object *)
      let do_ptr' := arr_set (sv_do_ptr v) (nr - NR_DO__FIRST__) (Some p) in
      let p := (p + Z.to_nat second_byte + 1)%nat in (* second_byte has length *)
      let p := if Nat.odd p then S p else p in
      Some (mkScan p (sv_dsc_h14_p v) (sv_dsc_l10_p v) (sv_pw1_lifetime_p v)
              (sv_pw_err_counter_p v) do_ptr')
    else if (nr >=? 0x80) && (nr <=? 0xbf) then
      (* Encoded data of Digital Signature Counter: upper 14-bit *)
      Some (mkScan (S p) (Some (p - 1)%nat) (sv_dsc_l10_p v) (sv_pw1_lifetime_p v)
              (sv_pw_err_counter_p v) (sv_do_ptr v))
    else if (nr >=? 0xc0) && (nr <=? 0xc3) then
      (* Encoded data of Digital Signature Counter: lower 10-bit *)
      Some (mkScan (S p) (sv_dsc_h14_p v) (Some (p - 1)%nat) (sv_pw1_lifetime_p v)
              (sv_pw_err_counter_p v) (sv_do_ptr v))
    else if nr =? NR_BOOL_PW1_LIFETIME then
      Some (mkScan (S p) (sv_dsc_h14_p v) (sv_dsc_l10_p v) (Some (p - 1)%nat)
              (sv_pw_err_counter_p v) (sv_do_ptr v))
    else if nr =? NR_COUNTER_123 then
      let p := S p in
      let pw_err' :=
        if second_byte <=? PW_ERR_PW3
        then arr_set (sv_pw_err_counter_p v) second_byte (Some p)
        else sv_pw_err_counter_p v in
      Some (mkScan (p + 2)%nat (sv_dsc_h14_p v) (sv_dsc_l10_p v)
              (sv_pw1_lifetime_p v) pw_err' (sv_do_ptr v))
    else
      Some (mkScan p (sv_dsc_h14_p v) (sv_dsc_l10_p v) (sv_pw1_lifetime_p v)
              (sv_pw_err_counter_p v) (sv_do_ptr v)).

(** The loop; every turn advances [p], so the length of the pool bounds the
    number of turns. *)
Fixpoint scan_loop (fuel : nat) (m : list Z) (v : scan_vars) : scan_vars :=
  match fuel with
  | O => v
  | S fuel =>
      match scan_body m v with
      | None => v
      | Some v => scan_loop fuel m v
      end
  end.

Definition do_ptr_live (s : state) (nr : Z) : bool :=
  match arr_get (do_ptr s) (nr - NR_DO__FIRST__) with
  | Some _ => true
  | None => false
  end.

(** The sum of the length bytes of the live data objects; the C variable is a
    [uint16_t]. *)
Definition sum_do_lengths (m : list Z) (ptrs : list (option nat)) : Z :=
  fold_left
    (fun acc i =>
       match arr_get ptrs (Z.of_nat i - NR_DO__FIRST__) with
       | Some q => u16 (acc + rd m q)
       | None => acc
       end)
    (seq (Z.to_nat NR_DO__FIRST__) (Z.to_nat (NR_DO__LAST__ - NR_DO__FIRST__))) 0.

Definition scan_dsc (m : list Z) (dsc_h14_p dsc_l10_p : option nat) : Z :=
  let dsc_l10 :=
    match dsc_l10_p with
    | None => 0
    | Some q => Z.lor (Z.shiftl (rd m q - 0xc0) 8) (rd m (S q))
    end in
  let '(dsc_h14, dsc_l10) :=
    match dsc_h14_p with
    | None => (0, dsc_l10)
    | Some h =>
        let dsc_h14 := Z.lor (Z.shiftl (rd m h - 0x80) 8) (rd m (S h)) in
        match dsc_l10_p with
        | None => (dsc_h14, dsc_l10) (* weird??? *)
        | Some q =>
            if (q <? h)%nat
            then (dsc_h14, 0) (* Possibly, power off during writing dsc_l10 *)
            else (dsc_h14, dsc_l10)
        end
    end in
  u32 (Z.lor (Z.shiftl dsc_h14 10) dsc_l10).

(** The variables as [gpg_data_scan] sets them before the loop. *)
Definition scan_start (p_start : nat) (s : state) : scan_vars :=
  let pw_err := arr_set (pw_err_counter_p s) PW_ERR_PW1 None in
  let pw_err := arr_set pw_err PW_ERR_RC None in
  let pw_err := arr_set pw_err PW_ERR_PW3 None in
  mkScan p_start None None None pw_err (do_ptr s).

Definition gpg_data_scan (p_start : nat) (s : state) : state :=
  (* Traverse DO, counters, etc. in DATA pool *)
  let v := scan_loop (S (length (data_pool s))) (data_pool s)
             (scan_start p_start s) in
  let s := set_pw1_lifetime_p (sv_pw1_lifetime_p v) s in
  let s := set_pw_err_counter_p (sv_pw_err_counter_p v) s in
  let s := set_do_ptr (sv_do_ptr v) s in
  let s := flash_set_data_pool_last (sv_p v) s in
  let n := 0 in
  let n := if do_ptr_live s NR_DO_PRVKEY_SIG then i8 (n + 1) else n in
  let n := if do_ptr_live s NR_DO_PRVKEY_DEC then i8 (n + 1) else n in
  let n := if do_ptr_live s NR_DO_PRVKEY_AUT then i8 (n + 1) else n in
  let s := set_num_prv_keys n s in
  let s := set_data_objects_number_of_bytes
             (sum_do_lengths (data_pool s) (do_ptr s)) s in
  set_digital_signature_counter
    (scan_dsc (data_pool s) (sv_dsc_h14_p v) (sv_dsc_l10_p v)) s.

(** ** Compaction: copying the live state to an erased region *)

Definition copy_pw_err_counter (i : Z) (ps : nat * state) : nat * state :=
  let '(p, s) := ps in
  let v := flash_cnt123_get_value (data_pool s) (arr_get (pw_err_counter_p s) i) in
  if v =? 0 then (p, s)
  else
    let s := set_data_pool (flash_cnt123_write_internal (data_pool s) p i v) s in
    let s := set_pw_err_counter_p
               (arr_set (pw_err_counter_p s) i (Some (p + 2)%nat)) s in
    ((p + 4)%nat, s).

Definition copy_data_object (ps : nat * state) (i : nat) : nat * state :=
  let '(p, s) := ps in
  match arr_get (do_ptr s) (Z.of_nat i - NR_DO__FIRST__) with
  | None => (p, s)
  | Some do_data =>
      let len := rd (data_pool s) do_data in
      let data := rd_bytes (data_pool s) (S do_data) (Z.to_nat len) in
      let s := set_data_pool
                 (flash_do_write_internal (data_pool s) p (Z.of_nat i) data) s in
      let s := set_do_ptr
                 (arr_set (do_ptr s) (Z.of_nat i - NR_DO__FIRST__) (Some (S p))) s in
      let p := (p + 2 + Z.to_nat (Z.land (len + 1) (Z.lnot 1)))%nat in
      let s := set_data_objects_number_of_bytes
                 (u16 (data_objects_number_of_bytes s + len)) s in
      (p, s)
  end.

Definition gpg_data_copy (p_start : nat) (s : state) : state :=
  let '(p, m) :=
    gpg_write_digital_signature_counter (data_pool s) p_start
      (digital_signature_counter s) in
  let s := set_data_pool m s in
  let '(p, s) :=
    match pw1_lifetime_p s with
    | Some _ =>
        let s := set_data_pool
                   (flash_bool_write_internal (data_pool s) p NR_BOOL_PW1_LIFETIME) s in
        let s := set_pw1_lifetime_p (Some p) s in
        ((p + 2)%nat, s)
    | None => (p, s)
    end in
  let ps := copy_pw_err_counter 0 (p, s) in
  let ps := copy_pw_err_counter 1 ps in
  let '(p, s) := copy_pw_err_counter 2 ps in
  let s := set_data_objects_number_of_bytes 0 s in
  let '(p, s) :=
    fold_left copy_data_object
      (seq (Z.to_nat NR_DO__FIRST__) (Z.to_nat (NR_DO__LAST__ - NR_DO__FIRST__)))
      (p, s) in
  flash_set_data_pool_last p s.

(** ** The key store *)

(** Modelled from the spec: the key-slot arena of flash.c (spec section 4.1):
    slots of 384 bytes, 128 of encrypted key followed by 256 of modulus;
    [flash_key_alloc] finds an unused slot, [flash_key_release] marks it
    free, [flash_key_write] fills it.  A key address is the offset of its
    slot in the arena. *)
Definition KEY_SLOT_SIZE : nat := 384.

Definition key_slot_of (key_addr : nat) : option nat :=
  if (key_addr mod KEY_SLOT_SIZE =? 0)%nat
  then Some (key_addr / KEY_SLOT_SIZE)%nat else None.

Fixpoint first_unused (slots : list (option (list Z))) (i : nat) : option nat :=
  match slots with
  | [] => None
  | None :: _ => Some i
  | Some _ :: slots => first_unused slots (S i)
  end.

Definition flash_key_alloc (s : state) : option nat :=
  match first_unused (keystore s) 0 with
  | Some i => Some (i * KEY_SLOT_SIZE)%nat
  | None => None
  end.

Definition flash_key_release (key_addr : nat) (s : state) : state :=
  match key_slot_of key_addr with
  | Some i => set_keystore (<[i:=None]> (keystore s)) s
  | None => s
  end.

Definition flash_key_write (key_addr : nat) (key_data modulus : list Z)
    (s : state) : Z * state :=
  match key_slot_of key_addr with
  | Some i =>
      if (i <? length (keystore s))%nat
      then (0, set_keystore
                 (<[i:=Some (resize KEY_CONTENT_LEN 0 key_data ++ modulus)]>
                    (keystore s)) s)
      else (-1, s)
  | None => (-1, s)
  end.

(** Reading [n] bytes at a key address; a slot that holds nothing reads as
    erased flash. *)
Definition key_read (s : state) (key_addr n : nat) : list Z :=
  match key_slot_of key_addr with
  | Some i =>
      match mjoin (keystore s !! i) with
      | Some bytes => resize n NR_EMPTY bytes
      | None => replicate n NR_EMPTY
      end
  | None => replicate n NR_EMPTY
  end.

(** A pointer or a 32-bit word in memory, little-endian. *)
Definition le32_bytes (x : Z) : list Z :=
  [u8 x; u8 (Z.shiftr x 8); u8 (Z.shiftr x 16); u8 (Z.shiftr x 24)].

Definition le32_value (bs : list Z) : Z :=
  Z.lor (Z.lor (nth 0 bs 0) (Z.shiftl (nth 1 bs 0) 8))
        (Z.lor (Z.shiftl (nth 2 bs 0) 16) (Z.shiftl (nth 3 bs 0) 24)).

(** ** Collaborators *)

(** The primitives the engine calls and the constants of its configuration
    that are not part of openpgp-do.c: SHA-1, AES-128 in CFB128 mode with a
    zero IV, the computation of the modulus, the magic of a key, the initial
    user password, and the numbers put in the AID and in the extended
    capabilities. *)
Class Collaborators := {
  sha1 : list Z -> list Z;
  aes_crypt_cfb128_encrypt : list Z -> list Z -> list Z;
  aes_crypt_cfb128_decrypt : list Z -> list Z -> list Z;
  modulus_calc : list Z -> option (list Z);
  GNUK_MAGIC : list Z;
  OPENPGP_CARD_INITIAL_PW1 : list Z;
  MANUFACTURER_IN_AID : list Z;
  SERIAL_NUMBER_IN_AID : list Z;
  MAX_CMD_APDU_SIZE : Z;
  MAX_RES_APDU_SIZE : Z
}.

(** What the envelope needs of the cipher: decryption undoes encryption
    under the same key, and the cipher keeps the length (CFB is a stream
    mode); the magic fills its field. *)
Class CollaboratorsOk (C : Collaborators) : Prop := {
  aes_decrypt_encrypt :
    forall key data,
      aes_crypt_cfb128_decrypt key (aes_crypt_cfb128_encrypt key data) = data;
  aes_encrypt_length :
    forall key data, length (aes_crypt_cfb128_encrypt key data) = length data;
  aes_decrypt_length :
    forall key data, length (aes_crypt_cfb128_decrypt key data) = length data;
  GNUK_MAGIC_length : length GNUK_MAGIC = KEY_MAGIC_LEN
}.

(** Modelled from the spec: the access-control levels that the table uses
    and [ac_check_status] of ac.c (spec section 4.5): [ALWAYS] is no check,
    [NEVER] always denies, [ADMIN_AUTHORIZED] asks for a verified PW3. *)
Inductive ac_level := AC_ALWAYS | AC_NEVER | AC_ADMIN_AUTHORIZED.

Definition ac_check_status (ac : ac_level) (s : state) : bool :=
  match ac with
  | AC_ALWAYS => true
  | AC_NEVER => false
  | AC_ADMIN_AUTHORIZED => auth_admin s
  end.

(** Modelled from the spec: [ac_reset_pso_cds]. *)
Definition ac_reset_pso_cds (s : state) : state := set_auth_pso_cds false s.

(** Modelled from the spec: the random source; [n] bytes are taken from the
    stream of the state. *)
Definition random_take (n : nat) (s : state) : list Z * state :=
  (resize n 0 (random_bytes s), set_random_bytes (drop n (random_bytes s)) s).

Definition get_random (s : state) : Z * state :=
  let '(bs, s) := random_take 4 s in (le32_value bs, s).

Definition random_bytes_get (s : state) : list Z * state :=
  random_take DATA_ENCRYPTION_KEY_SIZE s.

(** ** Writing the response *)

(** [*res_p++ = b] *)
Definition res_put (b : Z) (s : state) : state :=
  set_res_p (res_p s ++ [u8 b]) s.

(** [memcpy (res_p, data, n); res_p += n] *)
Definition res_put_bytes (bs : list Z) (s : state) : state :=
  set_res_p (res_p s ++ bs) s.

Definition copy_tag (tag : Z) (s : state) : state :=
  if tag <? 0x0100 then res_put (Z.land tag 0xff) s
  else
    let s := res_put (Z.shiftr tag 8) s in
    res_put (Z.land tag 0xff) s.

(** Where the bytes of a data object are: in the program (the fixed
    objects) or in the data pool. *)
Inductive do_src :=
| SRC_ROM (blob : list Z)
| SRC_POOL (p : nat).

Definition src_bytes (s : state) (src : do_src) (off n : nat) : list Z :=
  match src with
  | SRC_ROM blob => read_bytes 0 blob off n
  | SRC_POOL p => rd_bytes (data_pool s) (p + off) n
  end.

Definition src_byte (s : state) (src : do_src) (off : nat) : Z :=
  match src with
  | SRC_ROM blob => nth off blob 0
  | SRC_POOL p => rd (data_pool s) (p + off)
  end.

Definition copy_do_1 (tag : Z) (do_data : do_src) (with_tag : bool)
    (s : state) : state :=
  if with_tag then
    let s := copy_tag tag s in
    let s := if src_byte s do_data 0 >=? 128 then res_put 0x81 s else s in
    let len := Z.to_nat (src_byte s do_data 0 + 1) in
    res_put_bytes (src_bytes s do_data 0 len) s
  else
    let len := Z.to_nat (src_byte s do_data 0) in
    res_put_bytes (src_bytes s do_data 1 len) s.

Definition gpg_do_read_simple (nr : Z) (s : state) : option nat :=
  match arr_get (do_ptr s) (nr - NR_DO__FIRST__) with
  | None => None
  | Some do_data => Some (S do_data)
  end.

(** [gpg_do_write_simple (nr, data, size)]; [None] is a [NULL] data. *)
Definition gpg_do_write_simple (nr : Z) (data : option (list Z)) (s : state)
  : state :=
  let s :=
    match arr_get (do_ptr s) (nr - NR_DO__FIRST__) with
    | Some p => flash_do_release p s
    | None => s
    end in
  match data with
  | Some data =>
      let '(p, s) := flash_do_write nr data s in
      set_do_ptr (arr_set (do_ptr s) (nr - NR_DO__FIRST__) p) s
  | None => set_do_ptr (arr_set (do_ptr s) (nr - NR_DO__FIRST__) None) s
  end.

(** ** The read procedures *)

(** [data = gpg_do_read_simple (nr); memcpy or memset; res_p += size] *)
Definition res_put_do_or_zero (nr : Z) (size : nat) (s : state) : state :=
  match gpg_do_read_simple nr s with
  | Some data => res_put_bytes (rd_bytes (data_pool s) data size) s
  | None => res_put_bytes (replicate size 0) s
  end.

Definition do_fp_all (tag : Z) (with_tag : bool) (s : state) : Z * state :=
  let s := if with_tag
           then res_put (Z.of_nat SIZE_FP * 3) (copy_tag tag s) else s in
  let s := res_put_do_or_zero NR_DO_FP_SIG SIZE_FP s in
  let s := res_put_do_or_zero NR_DO_FP_DEC SIZE_FP s in
  let s := res_put_do_or_zero NR_DO_FP_AUT SIZE_FP s in
  (1, s).

Definition do_cafp_all (tag : Z) (with_tag : bool) (s : state) : Z * state :=
  let s := if with_tag
           then res_put (Z.of_nat SIZE_FP * 3) (copy_tag tag s) else s in
  let s := res_put_do_or_zero NR_DO_CAFP_1 SIZE_FP s in
  let s := res_put_do_or_zero NR_DO_CAFP_2 SIZE_FP s in
  let s := res_put_do_or_zero NR_DO_CAFP_2 SIZE_FP s in
  (1, s).

Definition do_kgtime_all (tag : Z) (with_tag : bool) (s : state) : Z * state :=
  let s := if with_tag
           then res_put (Z.of_nat SIZE_KGTIME * 3) (copy_tag tag s) else s in
  let s := res_put_do_or_zero NR_DO_KGTIME_SIG SIZE_KGTIME s in
  let s := res_put_do_or_zero NR_DO_KGTIME_DEC SIZE_KGTIME s in
  let s := res_put_do_or_zero NR_DO_KGTIME_AUT SIZE_KGTIME s in
  (1, s).

Definition do_ds_count (tag : Z) (with_tag : bool) (s : state) : Z * state :=
  let s := if with_tag then res_put 3 (copy_tag tag s) else s in
  let s := res_put (Z.land (Z.shiftr (digital_signature_counter s) 16) 0xff) s in
  let s := res_put (Z.land (Z.shiftr (digital_signature_counter s) 8) 0xff) s in
  let s := res_put (Z.land (digital_signature_counter s) 0xff) s in
  (1, s).

Definition rw_pw_status (tag : Z) (with_tag : bool) (data : list Z)
    (is_write : bool) (s : state) : Z * state :=
  if is_write then
    (* Only the first byte of DATA is checked *)
    if nth 0 data 0 =? 0 then
      let s := flash_bool_clear_pw1_lifetime s in
      match pw1_lifetime_p s with None => (1, s) | Some _ => (0, s) end
    else
      let '(p, s) := flash_bool_write NR_BOOL_PW1_LIFETIME s in
      let s := set_pw1_lifetime_p p s in
      match p with Some _ => (1, s) | None => (0, s) end
  else
    let s := if with_tag
             then res_put SIZE_PW_STATUS_BYTES (copy_tag tag s) else s in
    let s := res_put (gpg_get_pw1_lifetime s) s in
    let s := res_put PW_LEN_MAX s in
    let s := res_put PW_LEN_MAX s in
    let s := res_put PW_LEN_MAX s in
    let s := res_put (PASSWORD_ERRORS_MAX - gpg_get_pw_err_counter PW_ERR_PW1 s) s in
    let s := res_put (PASSWORD_ERRORS_MAX - gpg_get_pw_err_counter PW_ERR_RC s) s in
    let s := res_put (PASSWORD_ERRORS_MAX - gpg_get_pw_err_counter PW_ERR_PW3 s) s in
    (1, s).

(** Buffers in RAM: reading and writing a run of bytes at an offset. *)
Definition buf_read (buf : list Z) (off n : nat) : list Z :=
  read_bytes 0 buf off n.

Definition buf_write (buf : list Z) (off : nat) (bs : list Z) : list Z :=
  flash_program buf off bs.

Definition memcmp_eq (a b : list Z) : bool :=
  forallb (fun xy => fst xy =? snd xy) (combine a b)
  && (length a =? length b)%nat.

Inductive kind_of_key :=
| GPG_KEY_FOR_SIGNING | GPG_KEY_FOR_DECRYPTION | GPG_KEY_FOR_AUTHENTICATION.

Definition get_do_ptr_nr_for_kk (kk : kind_of_key) : Z :=
  match kk with
  | GPG_KEY_FOR_SIGNING => NR_DO_PRVKEY_SIG
  | GPG_KEY_FOR_DECRYPTION => NR_DO_PRVKEY_DEC
  | GPG_KEY_FOR_AUTHENTICATION => NR_DO_PRVKEY_AUT
  end.

(** Offsets in [struct prvkey_data] and in [struct key_data]. *)
Definition PD_KEY_ADDR : nat := 0.
Definition PD_CRM_ENCRYPTED : nat := 4.
Definition PD_DEK_ENCRYPTED_1 : nat := 20.
Definition PD_DEK_ENCRYPTED_2 : nat := 36.
Definition PD_DEK_ENCRYPTED_3 : nat := 52.
Definition KD_CHECK : nat := 128.
Definition KD_MAGIC : nat := 136.

Fixpoint calc_check32_words (p : list Z) (n : nat) : Z :=
  match n with
  | O => 0
  | S n => u32 (le32_value (take 4 p) + calc_check32_words (drop 4 p) n)
  end.

Definition calc_check32 (p : list Z) (len : nat) : Z :=
  calc_check32_words p (len / 4).

Section Engine.
Context {C : Collaborators}.

(** ** The key envelope *)

(** AES-128: the key is the first 16 bytes at [key_str]; the IV is zero. *)
Definition encrypt (key_str data : list Z) : list Z :=
  aes_crypt_cfb128_encrypt (take 16 key_str) data.

Definition decrypt (key_str data : list Z) : list Z :=
  aes_crypt_cfb128_decrypt (take 16 key_str) data.

(** Return 1 on success, 0 if none, -1 on error. *)
Definition gpg_do_load_prvkey (kk : kind_of_key) (who : Z) (keystring : list Z)
    (s : state) : Z * state :=
  let nr := get_do_ptr_nr_for_kk kk in
  match arr_get (do_ptr s) (nr - NR_DO__FIRST__) with
  | None => (0, s)
  | Some do_data =>
      let key_addr := Z.to_nat (le32_value (rd_bytes (data_pool s) (do_data + 1) 4)) in
      (* the two memcpy fill the whole of kd *)
      let kd0 := key_read s key_addr KEY_CONTENT_LEN
                 ++ rd_bytes (data_pool s) (do_data + 5) ADDITIONAL_DATA_SIZE in
      let dek := rd_bytes (data_pool s)
                   (Z.to_nat (Z.of_nat do_data + 5 + 16 * who))
                   DATA_ENCRYPTION_KEY_SIZE in
      let dek := decrypt keystring dek in
      let kd0 := decrypt dek kd0 in
      let s := set_kd kd0 s in
      if negb (memcmp_eq (buf_read (kd s) KD_MAGIC KEY_MAGIC_LEN)
                 (resize KEY_MAGIC_LEN 0 GNUK_MAGIC))
      then (-1, s)
      else (1, s)
  end.

(** The two branches of [if (do_data)] in [gpg_do_write_prvkey]: with an old
    private key its DEK is kept and PW1 and RC are reset, without one a new
    DEK is drawn.  The result is the record [pd], the DEK, the two
    keystrings [ks_pw1] and [ks_rc], and the state. *)
Definition write_prvkey_dek (do_data : option nat) (s : state)
  : list Z * list Z * option nat * option nat * state :=
  let pd := replicate SIZEOF_PRVKEY_DATA 0 in
  match do_data with
  | Some do_data => (* We have old prvkey *)
      (* Write new prvkey resetting PW1 and RC *)
      let pd := rd_bytes (data_pool s) (do_data + 1) SIZEOF_PRVKEY_DATA in
      let pd := buf_write pd PD_DEK_ENCRYPTED_3
                  (decrypt (keystring_md_pw3 s)
                     (buf_read pd PD_DEK_ENCRYPTED_3 DATA_ENCRYPTION_KEY_SIZE)) in
      let dek := buf_read pd PD_DEK_ENCRYPTED_3 DATA_ENCRYPTION_KEY_SIZE in
      let pd := buf_write pd PD_DEK_ENCRYPTED_1 dek in
      let pd := buf_write pd PD_DEK_ENCRYPTED_2
                  (replicate DATA_ENCRYPTION_KEY_SIZE 0) in
      let s := gpg_do_write_simple NR_DO_KEYSTRING_PW1 None s in
      let s := gpg_do_write_simple NR_DO_KEYSTRING_RC None s in
      let s := flash_key_release
                 (Z.to_nat (le32_value (buf_read pd PD_KEY_ADDR 4))) s in
      let s := flash_do_release do_data s in
      (pd, dek, None, None, s)
  | None =>
      let '(dek, s) := random_bytes_get s in (* 16-byte random bytes *)
      let pd := buf_write pd PD_DEK_ENCRYPTED_1 dek in
      let pd := buf_write pd PD_DEK_ENCRYPTED_2 dek in
      let pd := buf_write pd PD_DEK_ENCRYPTED_3 dek in
      (pd, dek, gpg_do_read_simple NR_DO_KEYSTRING_PW1 s,
       gpg_do_read_simple NR_DO_KEYSTRING_RC s, s)
  end.

(** Filling the record once the key is in the key store: the address, the
    encrypted check, random and magic, and the DEK under each keystring
    ([ac_reset_pso_cds], which the C code calls in between, touches none of
    what is read here). *)
Definition write_prvkey_record (pd : list Z) (key_addr : nat)
    (ks_pw1 ks_rc : option nat) (keystring : list Z) (s : state) : list Z :=
  let pd := buf_write pd PD_KEY_ADDR (le32_bytes (Z.of_nat key_addr)) in
  let pd := buf_write pd PD_CRM_ENCRYPTED
              (buf_read (kd s) KD_CHECK ADDITIONAL_DATA_SIZE) in
  let pd :=
    match ks_pw1 with
    | Some ks_pw1 =>
        buf_write pd PD_DEK_ENCRYPTED_1
          (encrypt (rd_bytes (data_pool s) (ks_pw1 + 1) 16)
             (buf_read pd PD_DEK_ENCRYPTED_1 DATA_ENCRYPTION_KEY_SIZE))
    | None =>
        buf_write pd PD_DEK_ENCRYPTED_1
          (encrypt (sha1 OPENPGP_CARD_INITIAL_PW1)
             (buf_read pd PD_DEK_ENCRYPTED_1 DATA_ENCRYPTION_KEY_SIZE))
    end in
  let pd :=
    match ks_rc with
    | Some ks_rc =>
        buf_write pd PD_DEK_ENCRYPTED_2
          (encrypt (rd_bytes (data_pool s) (ks_rc + 1) 16)
             (buf_read pd PD_DEK_ENCRYPTED_2 DATA_ENCRYPTION_KEY_SIZE))
    | None =>
        buf_write pd PD_DEK_ENCRYPTED_2 (replicate DATA_ENCRYPTION_KEY_SIZE 0)
    end in
  buf_write pd PD_DEK_ENCRYPTED_3
    (encrypt keystring
       (buf_read pd PD_DEK_ENCRYPTED_3 DATA_ENCRYPTION_KEY_SIZE)).

(** All keys are registered: remove contents of keystrings from DO, but
    length. *)
Definition write_prvkey_trim_keystrings (ks_pw1 ks_rc : option nat)
    (s : state) : state :=
  let s :=
    match ks_pw1 with
    | Some ks_pw1 =>
        let ks_pw1_len := rd (data_pool s) ks_pw1 in
        gpg_do_write_simple NR_DO_KEYSTRING_PW1 (Some [ks_pw1_len]) s
    | None => s
    end in
  match ks_rc with
  | Some ks_rc =>
      let ks_rc_len := rd (data_pool s) ks_rc in
      gpg_do_write_simple NR_DO_KEYSTRING_RC (Some [ks_rc_len]) s
  | None => s
  end.

Definition gpg_do_write_prvkey (kk : kind_of_key) (key_data : list Z)
    (keystring : list Z) (s : state) : Z * state :=
  let nr := get_do_ptr_nr_for_kk kk in
  let do_data := arr_get (do_ptr s) (nr - NR_DO__FIRST__) in
  if negb (heap_avail s) then (-1, s)
  else
    match modulus_calc key_data with
    | None => (-1, s)
    | Some modulus =>
    match flash_key_alloc s with
    | None => (-1, s)
    | Some key_addr =>
      let '(random, s) := get_random s in
      let s := set_kd
                 (resize KEY_CONTENT_LEN 0 key_data
                  ++ le32_bytes (calc_check32 key_data KEY_CONTENT_LEN)
                  ++ le32_bytes random
                  ++ resize KEY_MAGIC_LEN 0 GNUK_MAGIC) s in
      let '(pd, dek, ks_pw1, ks_rc, s) := write_prvkey_dek do_data s in
      let s := set_kd (encrypt dek (kd s)) s in
      let '(r, s) := flash_key_write key_addr (kd s) modulus s in
      if r <? 0 then (r, s)
      else
        let s := ac_reset_pso_cds s in
        let pd := write_prvkey_record pd key_addr ks_pw1 ks_rc keystring s in
        let '(p, s) := flash_do_write nr pd s in
        let s := set_do_ptr (arr_set (do_ptr s) (nr - NR_DO__FIRST__) p) s in
        match p with
        | None => (-1, s)
        | Some _ =>
            match do_data with
            | Some _ => (0, s)
            | None =>
                let s := set_num_prv_keys (i8 (num_prv_keys s + 1)) s in
                if num_prv_keys s =? NUM_ALL_PRV_KEYS
                then (0, write_prvkey_trim_keystrings ks_pw1 ks_rc s)
                else (0, s)
            end
        end
    end
    end.

Definition gpg_do_chks_prvkey (kk : kind_of_key) (who_old : Z) (old_ks : list Z)
    (who_new : Z) (new_ks : list Z) (s : state) : Z * state :=
  let nr := get_do_ptr_nr_for_kk kk in
  match arr_get (do_ptr s) (nr - NR_DO__FIRST__) with
  | None => (0, s) (* No private key *)
  | Some do_data =>
      if negb (heap_avail s) then (-1, s)
      else
        let pd := rd_bytes (data_pool s) (do_data + 1) SIZEOF_PRVKEY_DATA in
        let dek_p := 4 + Z.of_nat ADDITIONAL_DATA_SIZE
                     + Z.of_nat DATA_ENCRYPTION_KEY_SIZE * (who_old - 1) in
        let dek := buf_read pd (Z.to_nat dek_p) DATA_ENCRYPTION_KEY_SIZE in
        let dek := decrypt old_ks dek in
        let dek := encrypt new_ks dek in
        let dek_p := dek_p + Z.of_nat DATA_ENCRYPTION_KEY_SIZE * (who_new - who_old) in
        let pd := buf_write pd (Z.to_nat dek_p) dek in
        let '(p, s) := flash_do_write nr pd s in
        let s := set_do_ptr (arr_set (do_ptr s) (nr - NR_DO__FIRST__) p) s in
        let s := flash_do_release do_data s in
        match p with
        | None => (-1, s)
        | Some _ => (1, s)
        end
  end.

(** Modelled from the spec: [gpg_change_keystring] of openpgp.c (spec section
    4.3): it rewraps the DEK copy of every private key; below -2 is a memory
    failure, below 0 a security failure, 0 no private key yet, above 0
    success. *)
Definition gpg_change_keystring (who_old : Z) (old_ks : list Z) (who_new : Z)
    (new_ks : list Z) (s : state) : Z * state :=
  let '(r, s) := gpg_do_load_prvkey GPG_KEY_FOR_SIGNING who_old old_ks s in
  if r <? 0 then (r, s)
  else
    let '(r1, s) :=
      gpg_do_chks_prvkey GPG_KEY_FOR_SIGNING who_old old_ks who_new new_ks s in
    if r1 <? 0 then (-3, s)
    else
      let '(r2, s) :=
        gpg_do_chks_prvkey GPG_KEY_FOR_DECRYPTION who_old old_ks who_new new_ks s in
      if r2 <? 0 then (-3, s)
      else
        let '(r3, s) :=
          gpg_do_chks_prvkey GPG_KEY_FOR_AUTHENTICATION who_old old_ks
            who_new new_ks s in
        if r3 <? 0 then (-3, s)
        else if (0 <? r1) || (0 <? r2) || (0 <? r3) then (1, s) else (0, s).

(** ** The write procedures *)

Definition proc_resetting_code (data : list Z) (s : state) : Z * state :=
  let old_ks := keystring_md_pw3 s in
  let newpw_len := Z.of_nat (length data) in
  let new_ks := sha1 data in
  let new_ks0 := u8 newpw_len :: resize KEYSTRING_MD_SIZE 0 new_ks in
  let '(r, s) := gpg_change_keystring BY_ADMIN old_ks BY_RESETCODE new_ks s in
  if r <? -2 then (0, s)
  else if r <? 0 then (0, s)
  else
    let s :=
      if r =? 0
      then gpg_do_write_simple NR_DO_KEYSTRING_RC
             (Some (take KEYSTRING_SIZE_RC new_ks0)) s
      else gpg_do_write_simple NR_DO_KEYSTRING_RC (Some (take 1 new_ks0)) s in
    let s := gpg_reset_pw_err_counter PW_ERR_RC s in
    (1, s).

Definition proc_key_import (data : list Z) (s : state) : Z * state :=
  let kk :=
    if nth 4 data 0 =? 0xb6 then GPG_KEY_FOR_SIGNING
    else if nth 4 data 0 =? 0xb8 then GPG_KEY_FOR_DECRYPTION
    else (* 0xa4 *) GPG_KEY_FOR_AUTHENTICATION in
  if (length data <=? 22)%nat then
    (* Deletion of the key *)
    let nr := get_do_ptr_nr_for_kk kk in
    let do_data := arr_get (do_ptr s) (nr - NR_DO__FIRST__) in
    (* Delete the key *)
    let s :=
      match do_data with
      | Some do_data =>
          let key_addr :=
            Z.to_nat (le32_value (rd_bytes (data_pool s) (do_data + 1) 4)) in
          let s := flash_key_release key_addr s in
          flash_do_release do_data s
      | None => s
      end in
    let s := set_do_ptr (arr_set (do_ptr s) (nr - NR_DO__FIRST__) None) s in
    let s := set_num_prv_keys (i8 (num_prv_keys s - 1)) s in
    let s :=
      if num_prv_keys s =? 0 then
        (* Delete PW1 and RC if any *)
        let s := gpg_do_write_simple NR_DO_KEYSTRING_PW1 None s in
        gpg_do_write_simple NR_DO_KEYSTRING_RC None s
      else s in
    (1, s)
  else
    (* It should starts with 00 01 00 01 (E) *)
    (* Skip E, 4-byte *)
    let '(r, s) := gpg_do_write_prvkey kk (drop 26 data) (keystring_md_pw3 s) s in
    if r <? 0 then (0, s) else (1, s).

(** ** The table of data objects *)

Definition GPG_DO_AID : Z := 0x004f.
Definition GPG_DO_NAME : Z := 0x005b.
Definition GPG_DO_LOGIN_DATA : Z := 0x005e.
Definition GPG_DO_CH_DATA : Z := 0x0065.
Definition GPG_DO_APP_DATA : Z := 0x006e.
Definition GPG_DO_SS_TEMP : Z := 0x007a.
Definition GPG_DO_DS_COUNT : Z := 0x0093.
Definition GPG_DO_EXTCAP : Z := 0x00c0.
Definition GPG_DO_ALG_SIG : Z := 0x00c1.
Definition GPG_DO_ALG_DEC : Z := 0x00c2.
Definition GPG_DO_ALG_AUT : Z := 0x00c3.
Definition GPG_DO_PW_STATUS : Z := 0x00c4.
Definition GPG_DO_FP_ALL : Z := 0x00c5.
Definition GPG_DO_CAFP_ALL : Z := 0x00c6.
Definition GPG_DO_FP_SIG : Z := 0x00c7.
Definition GPG_DO_FP_DEC : Z := 0x00c8.
Definition GPG_DO_FP_AUT : Z := 0x00c9.
Definition GPG_DO_CAFP_1 : Z := 0x00ca.
Definition GPG_DO_CAFP_2 : Z := 0x00cb.
Definition GPG_DO_CAFP_3 : Z := 0x00cc.
Definition GPG_DO_KGTIME_ALL : Z := 0x00cd.
Definition GPG_DO_KGTIME_SIG : Z := 0x00ce.
Definition GPG_DO_KGTIME_DEC : Z := 0x00cf.
Definition GPG_DO_KGTIME_AUT : Z := 0x00d0.
Definition GPG_DO_RESETTING_CODE : Z := 0x00d3.
Definition GPG_DO_KEY_IMPORT : Z := 0x3fff.
Definition GPG_DO_LANGUAGE : Z := 0x5f2d.
Definition GPG_DO_SEX : Z := 0x5f35.
Definition GPG_DO_URL : Z := 0x5f50.
Definition GPG_DO_HIST_BYTES : Z := 0x5f52.
Definition GPG_DO_CH_CERTIFICATE : Z := 0x7f21.

(** Compile time vars: AID, Historical Bytes (template), Extended
    Capabilities, and Algorithm Attributes *)
Definition openpgpcard_aid : list Z :=
  [16; 0xd2; 0x76; 0x00; 0x01; 0x24; 0x01; 0x02; 0x00]
  ++ MANUFACTURER_IN_AID ++ SERIAL_NUMBER_IN_AID ++ [0x00; 0x00].

Definition historical_bytes : list Z :=
  [10; 0x00; 0x31; 0x80; 0x73; 0x80; 0x01; 0x40; 0x00; 0x90; 0x00].

Definition extended_capabilities : list Z :=
  [10; 0x30; 0; 0x00; 0x00; 0x00; 0x00;
   u8 (Z.shiftr MAX_CMD_APDU_SIZE 8); Z.land MAX_CMD_APDU_SIZE 0xff;
   u8 (Z.shiftr MAX_RES_APDU_SIZE 8); Z.land MAX_RES_APDU_SIZE 0xff].

Definition algorithm_attr : list Z := [6; 0x01; 0x08; 0x00; 0x00; 0x20; 0x00].

Definition do_hist_bytes (tag : Z) (with_tag : bool) (s : state) : Z * state :=
  (1, copy_do_1 tag (SRC_ROM historical_bytes) with_tag s).

Definition do_tag_to_nr (tag : Z) : option Z :=
  if tag =? GPG_DO_SEX then Some NR_DO_SEX
  else if tag =? GPG_DO_FP_SIG then Some NR_DO_FP_SIG
  else if tag =? GPG_DO_FP_DEC then Some NR_DO_FP_DEC
  else if tag =? GPG_DO_FP_AUT then Some NR_DO_FP_AUT
  else if tag =? GPG_DO_CAFP_1 then Some NR_DO_CAFP_1
  else if tag =? GPG_DO_CAFP_2 then Some NR_DO_CAFP_2
  else if tag =? GPG_DO_CAFP_3 then Some NR_DO_CAFP_3
  else if tag =? GPG_DO_KGTIME_SIG then Some NR_DO_KGTIME_SIG
  else if tag =? GPG_DO_KGTIME_DEC then Some NR_DO_KGTIME_DEC
  else if tag =? GPG_DO_KGTIME_AUT then Some NR_DO_KGTIME_AUT
  else if tag =? GPG_DO_LOGIN_DATA then Some NR_DO_LOGIN_DATA
  else if tag =? GPG_DO_URL then Some NR_DO_URL
  else if tag =? GPG_DO_NAME then Some NR_DO_NAME
  else if tag =? GPG_DO_LANGUAGE then Some NR_DO_LANGUAGE
  else None (* fatal () *).

Inductive do_type :=
| DO_FIXED | DO_VAR | DO_CMP_READ | DO_PROC_READ | DO_PROC_WRITE
| DO_PROC_READWRITE.

(** What the [obj] of an entry points to. *)
Inductive do_obj :=
| OBJ_NULL
| OBJ_BLOB (blob : list Z)
| OBJ_DO_PTR (index : Z)
| OBJ_CMP (cmp_data : list Z)
| OBJ_READ (do_func : Z -> bool -> state -> Z * state)
| OBJ_WRITE (proc_func : list Z -> state -> Z * state)
| OBJ_READWRITE (rw_func : Z -> bool -> list Z -> bool -> state -> Z * state).

Record do_table_entry := mkEntry {
  tag : Z;
  do_type_of : do_type;
  ac_read : ac_level;
  ac_write : ac_level;
  obj : do_obj
}.

Definition cmp_ch_data : list Z :=
  [3; GPG_DO_NAME; GPG_DO_LANGUAGE; GPG_DO_SEX].

Definition cmp_app_data : list Z :=
  [10; GPG_DO_AID; GPG_DO_HIST_BYTES; GPG_DO_EXTCAP;
   GPG_DO_ALG_SIG; GPG_DO_ALG_DEC; GPG_DO_ALG_AUT;
   GPG_DO_PW_STATUS;
   GPG_DO_FP_ALL; GPG_DO_CAFP_ALL; GPG_DO_KGTIME_ALL].

Definition cmp_ss_temp : list Z := [1; GPG_DO_DS_COUNT].

Definition gpg_do_table : list do_table_entry :=
  [ (* Variables: Fixed size *)
    mkEntry GPG_DO_SEX DO_VAR AC_ALWAYS AC_ADMIN_AUTHORIZED (OBJ_DO_PTR 0);
    mkEntry GPG_DO_FP_SIG DO_VAR AC_ALWAYS AC_ADMIN_AUTHORIZED (OBJ_DO_PTR 1);
    mkEntry GPG_DO_FP_DEC DO_VAR AC_ALWAYS AC_ADMIN_AUTHORIZED (OBJ_DO_PTR 2);
    mkEntry GPG_DO_FP_AUT DO_VAR AC_ALWAYS AC_ADMIN_AUTHORIZED (OBJ_DO_PTR 3);
    mkEntry GPG_DO_CAFP_1 DO_VAR AC_ALWAYS AC_ADMIN_AUTHORIZED (OBJ_DO_PTR 4);
    mkEntry GPG_DO_CAFP_2 DO_VAR AC_ALWAYS AC_ADMIN_AUTHORIZED (OBJ_DO_PTR 5);
    mkEntry GPG_DO_CAFP_3 DO_VAR AC_ALWAYS AC_ADMIN_AUTHORIZED (OBJ_DO_PTR 6);
    mkEntry GPG_DO_KGTIME_SIG DO_VAR AC_ALWAYS AC_ADMIN_AUTHORIZED (OBJ_DO_PTR 7);
    mkEntry GPG_DO_KGTIME_DEC DO_VAR AC_ALWAYS AC_ADMIN_AUTHORIZED (OBJ_DO_PTR 8);
    mkEntry GPG_DO_KGTIME_AUT DO_VAR AC_ALWAYS AC_ADMIN_AUTHORIZED (OBJ_DO_PTR 9);
    (* Variables: Variable size *)
    mkEntry GPG_DO_LOGIN_DATA DO_VAR AC_ALWAYS AC_ADMIN_AUTHORIZED (OBJ_DO_PTR 10);
    mkEntry GPG_DO_URL DO_VAR AC_ALWAYS AC_ADMIN_AUTHORIZED (OBJ_DO_PTR 11);
    mkEntry GPG_DO_NAME DO_VAR AC_ALWAYS AC_ADMIN_AUTHORIZED (OBJ_DO_PTR 12);
    mkEntry GPG_DO_LANGUAGE DO_VAR AC_ALWAYS AC_ADMIN_AUTHORIZED (OBJ_DO_PTR 13);
    (* Pseudo DO READ: calculated *)
    mkEntry GPG_DO_HIST_BYTES DO_PROC_READ AC_ALWAYS AC_NEVER (OBJ_READ do_hist_bytes);
    mkEntry GPG_DO_FP_ALL DO_PROC_READ AC_ALWAYS AC_NEVER (OBJ_READ do_fp_all);
    mkEntry GPG_DO_CAFP_ALL DO_PROC_READ AC_ALWAYS AC_NEVER (OBJ_READ do_cafp_all);
    mkEntry GPG_DO_KGTIME_ALL DO_PROC_READ AC_ALWAYS AC_NEVER (OBJ_READ do_kgtime_all);
    (* Pseudo DO READ: calculated, not changeable by user *)
    mkEntry GPG_DO_DS_COUNT DO_PROC_READ AC_ALWAYS AC_NEVER (OBJ_READ do_ds_count);
    (* Pseudo DO READ/WRITE: calculated *)
    mkEntry GPG_DO_PW_STATUS DO_PROC_READWRITE AC_ALWAYS AC_ADMIN_AUTHORIZED
      (OBJ_READWRITE rw_pw_status);
    (* Fixed data *)
    mkEntry GPG_DO_AID DO_FIXED AC_ALWAYS AC_NEVER (OBJ_BLOB openpgpcard_aid);
    mkEntry GPG_DO_EXTCAP DO_FIXED AC_ALWAYS AC_NEVER (OBJ_BLOB extended_capabilities);
    mkEntry GPG_DO_ALG_SIG DO_FIXED AC_ALWAYS AC_NEVER (OBJ_BLOB algorithm_attr);
    mkEntry GPG_DO_ALG_DEC DO_FIXED AC_ALWAYS AC_NEVER (OBJ_BLOB algorithm_attr);
    mkEntry GPG_DO_ALG_AUT DO_FIXED AC_ALWAYS AC_NEVER (OBJ_BLOB algorithm_attr);
    (* Compound data: Read access only *)
    mkEntry GPG_DO_CH_DATA DO_CMP_READ AC_ALWAYS AC_NEVER (OBJ_CMP cmp_ch_data);
    mkEntry GPG_DO_APP_DATA DO_CMP_READ AC_ALWAYS AC_NEVER (OBJ_CMP cmp_app_data);
    mkEntry GPG_DO_SS_TEMP DO_CMP_READ AC_ALWAYS AC_NEVER (OBJ_CMP cmp_ss_temp);
    (* Simple data: write access only *)
    mkEntry GPG_DO_RESETTING_CODE DO_PROC_WRITE AC_NEVER AC_ADMIN_AUTHORIZED
      (OBJ_WRITE proc_resetting_code);
    (* Compound data: Write access only *)
    mkEntry GPG_DO_KEY_IMPORT DO_PROC_WRITE AC_NEVER AC_ADMIN_AUTHORIZED
      (OBJ_WRITE proc_key_import);
    (* Card holder certificate: Not supported yet *)
    mkEntry GPG_DO_CH_CERTIFICATE DO_PROC_READWRITE AC_NEVER AC_NEVER OBJ_NULL ].

Definition get_do_entry (tag0 : Z) : option do_table_entry :=
  find (fun e => tag e =? tag0) gpg_do_table.

(** ** GET DATA *)

(** The loop of [copy_do] over the components of a compound object; [copy]
    is [copy_do] itself, one level down.  The result is below zero as soon
    as a component's is. *)
Fixpoint copy_components
    (copy : option do_table_entry -> bool -> state -> option (Z * state))
    (tags : list Z) (s : state) : option (Z * state) :=
  match tags with
  | [] => Some (1, s)
  | tag0 :: tags =>
      match copy (get_do_entry tag0) true s with
      | None => None
      | Some (r, s) =>
          if r <? 0 then Some (-1, s) else copy_components copy tags s
      end
  end.

(** [copy_do] calls itself on the components of a compound object; [depth]
    bounds the nesting, and [None] is a nesting deeper than that.  The result
    is what the C function returns, with the state. *)
Fixpoint copy_do (depth : nat) (do_p : option do_table_entry) (with_tag : bool)
    (s : state) : option (Z * state) :=
  match depth with
  | O => None
  | S depth =>
      match do_p with
      | None => Some (0, s)
      | Some do_p =>
          if negb (ac_check_status (ac_read do_p) s) then Some (-1, s)
          else
            match do_type_of do_p, obj do_p with
            | DO_FIXED, OBJ_BLOB do_data =>
                Some (1, copy_do_1 (tag do_p) (SRC_ROM do_data) with_tag s)
            | DO_FIXED, _ => Some (0, s)
            | DO_VAR, OBJ_DO_PTR i =>
                match arr_get (do_ptr s) i with
                | None => Some (0, s)
                | Some do_data =>
                    Some (1, copy_do_1 (tag do_p) (SRC_POOL do_data) with_tag s)
                end
            | DO_CMP_READ, OBJ_CMP cmp_data =>
                let num_components := Z.to_nat (nth 0 cmp_data 0) in
                let s := copy_tag (tag do_p) s in
                let s := res_put 0x81 s in (* Assume it's less than 256 *)
                let len_p := length (res_p s) in
                let s := res_put 0 s in (* for now *)
                match copy_components (copy_do depth)
                        (take num_components (drop 1 cmp_data)) s with
                | None => None
                | Some (r, s) =>
                    if r <? 0 then Some (-1, s)
                    else
                      Some (1, set_res_p
                                 (<[len_p:=u8 (Z.of_nat (length (res_p s) - len_p))]>
                                    (res_p s)) s)
                end
            | DO_PROC_READ, OBJ_READ do_func => Some (do_func (tag do_p) with_tag s)
            | DO_PROC_READWRITE, OBJ_READWRITE rw_func =>
                Some (rw_func (tag do_p) with_tag [] false s)
            | DO_PROC_WRITE, _ => Some (-1, s)
            | _, _ => Some (0, s) (* no entry of the table comes here *)
            end
      end
  end.

(** No compound object of the table has a compound component
    ([gpg_do_get_data_total] below). *)
Definition COPY_DO_DEPTH : nat := 2.

Definition gpg_do_get_data (tag0 : Z) (s : state) : option state :=
  let do_p := get_do_entry tag0 in
  let s := set_res_p [] s in
  match do_p with
  | Some _ =>
      match copy_do COPY_DO_DEPTH do_p false s with
      | None => None
      | Some (r, s) =>
          if r <? 0
          then (* Overwriting partially written result *)
            Some (set_res_APDU (RES_SW GPG_SECURITY_FAILURE) s)
          else
            let s := res_put 0x90 s in
            let s := res_put 0x00 s in
            Some (set_res_APDU (RES_DATA (res_p s)) s)
      end
  | None => Some (set_res_APDU (RES_SW GPG_NO_RECORD) s)
  end.

(** ** PUT DATA *)

Definition gpg_do_put_data (tag0 : Z) (data : list Z) (s : state) : state :=
  match get_do_entry tag0 with
  | Some do_p =>
      if negb (ac_check_status (ac_write do_p) s)
      then set_res_APDU (RES_SW GPG_SECURITY_FAILURE) s
      else
        match do_type_of do_p, obj do_p with
        | DO_FIXED, _ | DO_CMP_READ, _ | DO_PROC_READ, _ =>
            set_res_APDU (RES_SW GPG_SECURITY_FAILURE) s
        | DO_VAR, OBJ_DO_PTR i =>
            let s :=
              match arr_get (do_ptr s) i with
              | Some do_data => flash_do_release do_data s
              | None => s
              end in
            if (length data =? 0)%nat
            then (* make DO empty *)
              set_do_ptr (arr_set (do_ptr s) i None) s
            else if (255 <? length data)%nat
            then set_res_APDU (RES_SW GPG_MEMORY_FAILURE) s
            else
              match do_tag_to_nr tag0 with
              | None => s (* fatal () *)
              | Some nr =>
                  let '(p, s) := flash_do_write nr data s in
                  let s := set_do_ptr (arr_set (do_ptr s) i p) s in
                  match p with
                  | Some _ => set_res_APDU (RES_SW GPG_SUCCESS) s
                  | None => set_res_APDU (RES_SW GPG_MEMORY_FAILURE) s
                  end
              end
        | DO_PROC_READWRITE, OBJ_READWRITE rw_func =>
            let '(r, s) := rw_func tag0 false data true s in
            if r =? 0 then set_res_APDU (RES_SW GPG_ERROR) s
            else set_res_APDU (RES_SW GPG_SUCCESS) s
        | DO_PROC_WRITE, OBJ_WRITE proc_func =>
            let '(r, s) := proc_func data s in
            if r =? 0 then set_res_APDU (RES_SW GPG_ERROR) s
            else set_res_APDU (RES_SW GPG_SUCCESS) s
        | _, _ => s (* no entry of the table comes here *)
        end
  | None => set_res_APDU (RES_SW GPG_NO_RECORD) s
  end.

End Engine.

(** ** A card to run the model on *)

(** Stand-ins for the collaborators, to evaluate the model on concrete
    inputs: a stream cipher that XORs the data with the repeated key, a
    digest that pads the message to 20 bytes, a modulus of 256 constant
    bytes. *)
Module Stub.
Fixpoint xor_stream (key : list Z) (i : nat) (data : list Z) : list Z :=
  match data with
  | [] => []
  | b :: data => Z.lxor b (nth (i mod 16) key 0) :: xor_stream key (S i) data
  end.

Definition digest (msg : list Z) : list Z :=
  resize 20 0x5a (map (fun b => u8 (b + 0x11)) msg).

Definition collaborators : Collaborators := {|
  sha1 := digest;
  aes_crypt_cfb128_encrypt := fun key data => xor_stream key 0 data;
  aes_crypt_cfb128_decrypt := fun key data => xor_stream key 0 data;
  modulus_calc := fun key_data =>
    match key_data with [] => None | _ => Some (replicate 256 0xab) end;
  GNUK_MAGIC := [0x47; 0x6e; 0x75; 0x6b; 0x20; 0x4b; 0x45; 0x59];
  OPENPGP_CARD_INITIAL_PW1 := [0x31; 0x32; 0x33; 0x34; 0x35; 0x36];
  MANUFACTURER_IN_AID := [0xff; 0xfe];
  SERIAL_NUMBER_IN_AID := [0x00; 0x00; 0x00; 0x01];
  MAX_CMD_APDU_SIZE := 0x00ff;
  MAX_RES_APDU_SIZE := 0x00ff
|}.
End Stub.

(** A card with an erased data pool of [pool_size] bytes and [slots] unused
    key slots, nothing stored and nobody authenticated. *)
Definition blank_card (pool_size slots : nat) : state := {|
  data_pool := replicate pool_size NR_EMPTY;
  last_p := 0%nat;
  keystore := replicate slots None;
  digital_signature_counter := 0;
  pw_err_counter_p := [None; None; None];
  data_objects_number_of_bytes := 0;
  pw1_lifetime_p := None;
  do_ptr := replicate (Z.to_nat NR_DO__LAST__) None;
  num_prv_keys := 0;
  kd := replicate SIZEOF_KEY_DATA 0;
  res_p := [];
  res_APDU := RES_SW GPG_SUCCESS;
  keystring_md_pw3 := replicate KEYSTRING_MD_SIZE 0;
  auth_admin := false;
  auth_pso_cds := false;
  heap_avail := true;
  random_bytes := []
|}.

(** The same card after PW3 has been verified with keystring [ks]. *)
Definition admin_card (pool_size slots : nat) (ks : list Z) : state := {|
  data_pool := replicate pool_size NR_EMPTY;
  last_p := 0%nat;
  keystore := replicate slots None;
  digital_signature_counter := 0;
  pw_err_counter_p := [None; None; None];
  data_objects_number_of_bytes := 0;
  pw1_lifetime_p := None;
  do_ptr := replicate (Z.to_nat NR_DO__LAST__) None;
  num_prv_keys := 0;
  kd := replicate SIZEOF_KEY_DATA 0;
  res_p := [];
  res_APDU := RES_SW GPG_SUCCESS;
  keystring_md_pw3 := ks;
  auth_admin := true;
  auth_pso_cds := false;
  heap_avail := true;
  random_bytes := [7; 1; 8; 2; 8; 1; 8; 2; 8; 4; 5; 9; 0; 4; 5; 2; 3; 5; 3; 6]
|}.

(** ** Predicates of the statements *)

(** The pool has room for a cell of [size] bytes (an odd size is rounded
    up). *)
Definition pool_has_room (size : nat) (s : state) : Prop :=
  (last_p s + (if Nat.odd size then S size else size) <= length (data_pool s))%nat.

(** [do_ptr] has its [NR_DO__LAST__] entries, its pointers point into the
    part of the pool in use, and the addresses of the key store fit a
    pointer. *)
Definition pool_wfb (s : state) : bool :=
  (length (do_ptr s) =? Z.to_nat NR_DO__LAST__)%nat
  && forallb (fun p => match p with
                       | None => true
                       | Some q => (1 <=? q)%nat && (q <? last_p s)%nat
                       end) (do_ptr s)
  && (Z.of_nat (length (keystore s) * KEY_SLOT_SIZE) <=? 2 ^ 32).

Definition pool_wf (s : state) : Prop := pool_wfb s = true.

Definition cell_at (m : list Z) (t : nat) (cell : list Z) : Prop :=
  rd_bytes m t (length cell) = cell.

(** The private key of number [nr] is sealed in [s]: its record [pd] is in
    the cell at [t], to which [do_ptr] points, and the key store holds the
    encrypted key [kd_enc] at [key_addr]. *)
Definition sealed (s : state) (nr : Z) (t : nat) (pd : list Z) (key_addr : nat)
    (kd_enc : list Z) : Prop :=
  arr_get (do_ptr s) (nr - NR_DO__FIRST__) = Some (S t)
  /\ cell_at (data_pool s) t (do_cell nr pd)
  /\ (t + length (do_cell nr pd) <= last_p s)%nat
  /\ key_read s key_addr KEY_CONTENT_LEN = take KEY_CONTENT_LEN kd_enc.

(** The counter of [which] stands at [j]: its cell is in the pool and holds
    [j] in unary. *)
Definition cnt123_at (which j : Z) (s : state) : Prop :=
  exists p, arr_get (pw_err_counter_p s) which = Some p
            /\ (p + 2 <= length (data_pool s))%nat
            /\ cnt123_word (data_pool s) p = cnt123_unary j.

(** Where a scan of the pool from [p_start] ends. *)
Definition scan_end (p_start : nat) (s : state) : nat :=
  sv_p (scan_loop (S (length (data_pool s))) (data_pool s) (scan_start p_start s)).

(** The number of private keys that [do_ptr] holds. *)
Definition live_prv_keys (s : state) : Z :=
  (if do_ptr_live s NR_DO_PRVKEY_SIG then 1 else 0)
  + (if do_ptr_live s NR_DO_PRVKEY_DEC then 1 else 0)
  + (if do_ptr_live s NR_DO_PRVKEY_AUT then 1 else 0).

(** The byte of the Extended Header List that selects the key. *)
Definition kk_byte (kk : kind_of_key) : Z :=
  match kk with
  | GPG_KEY_FOR_SIGNING => 0xb6
  | GPG_KEY_FOR_DECRYPTION => 0xb8
  | GPG_KEY_FOR_AUTHENTICATION => 0xa4
  end.

(** Checking a property of integers on [n] consecutive values from [i]. *)
Fixpoint forall_from (f : Z -> bool) (n : nat) (i : Z) : bool :=
  match n with
  | O => true
  | S n => f i && forall_from f n (i + 1)
  end.

Section Statements.
Context {C : Collaborators}.

Definition is_compound (e : do_table_entry) : bool :=
  match do_type_of e with DO_CMP_READ => true | _ => false end.

(** The components of [e], when it is compound, are not compound. *)
Definition components_simple (e : do_table_entry) : bool :=
  match do_type_of e, obj e with
  | DO_CMP_READ, OBJ_CMP cmp_data =>
      forallb (fun tag0 => match get_do_entry tag0 with
                           | None => true
                           | Some c => negb (is_compound c)
                           end)
        (take (Z.to_nat (nth 0 cmp_data 0)) (drop 1 cmp_data))
  | _, _ => true
  end.

(** The entries of kind [DO_VAR]: the tag finds the entry, the entry points
    to the slot of its number in [do_ptr], anybody reads and the admin
    writes. *)
Definition var_entry_of (e : do_table_entry) (nr : Z) : Prop :=
  do_tag_to_nr (tag e) = Some nr
  /\ get_do_entry (tag e) = Some e
  /\ do_type_of e = DO_VAR
  /\ ac_read e = AC_ALWAYS
  /\ ac_write e = AC_ADMIN_AUTHORIZED
  /\ obj e = OBJ_DO_PTR (nr - NR_DO__FIRST__)
  /\ 1 <= nr <= 14.

(** What [gpg_do_load_prvkey] returns: 0 and nothing done without a key for
    the role, else 1 with the magic in [kd], or -1 with something else
    there. *)
Definition load_prvkey_returns (kk : kind_of_key) (who : Z) (keystring : list Z)
    (s : state) : Prop :=
  let r := gpg_do_load_prvkey kk who keystring s in
  match arr_get (do_ptr s) (get_do_ptr_nr_for_kk kk - NR_DO__FIRST__) with
  | None => r = (0, s)
  | Some _ =>
      (fst r = 1 /\ buf_read (kd (snd r)) KD_MAGIC KEY_MAGIC_LEN = GNUK_MAGIC)
      \/ (fst r = -1 /\ buf_read (kd (snd r)) KD_MAGIC KEY_MAGIC_LEN <> GNUK_MAGIC)
  end.

End Statements.

(** ** Sample cards *)

Definition alice : list Z :=
  [0x61; 0x6C; 0x69; 0x63; 0x65; 0x40; 0x65; 0x78; 0x61; 0x6D; 0x70; 0x6C;
   0x65; 0x2E; 0x74; 0x65; 0x73; 0x74].

Definition entry_login_data : do_table_entry :=
  mkEntry GPG_DO_LOGIN_DATA DO_VAR AC_ALWAYS AC_ADMIN_AUTHORIZED (OBJ_DO_PTR 10).

Definition entry_resetting_code : do_table_entry :=
  mkEntry GPG_DO_RESETTING_CODE DO_PROC_WRITE AC_NEVER AC_ADMIN_AUTHORIZED
    (OBJ_WRITE (proc_resetting_code (C:=Stub.collaborators))).

(** Login data "alice@example.test" put on an empty card. *)
Definition card_login_alice : state :=
  gpg_do_put_data (C:=Stub.collaborators) GPG_DO_LOGIN_DATA alice
    (admin_card 64 3 []).

(** A payload of 256 bytes. *)
Definition long_payload : list Z := replicate 256 0x41.

(** Three different CA fingerprints put on an empty card. *)
Definition card_cafp : state :=
  gpg_do_put_data (C:=Stub.collaborators) GPG_DO_CAFP_3 (replicate 20 0x33)
    (gpg_do_put_data (C:=Stub.collaborators) GPG_DO_CAFP_2 (replicate 20 0x22)
       (gpg_do_put_data (C:=Stub.collaborators) GPG_DO_CAFP_1 (replicate 20 0x11)
          (admin_card 128 3 []))).

(** A card in use, after a boot: login data and a name, PW1 valid for
    several signatures, two wrong user passwords and one wrong admin
    password, 1025 signatures. *)
Definition card_in_use : state :=
  gpg_data_scan 0
    (Nat.iter 1025 gpg_increment_digital_signature_counter
       (gpg_increment_pw_err_counter PW_ERR_PW3
          (gpg_increment_pw_err_counter PW_ERR_PW1
             (gpg_increment_pw_err_counter PW_ERR_PW1
                (gpg_do_put_data (C:=Stub.collaborators) GPG_DO_PW_STATUS [1]
                   (gpg_do_put_data (C:=Stub.collaborators) GPG_DO_NAME
                      [0x41; 0x42; 0x43]
                      (gpg_do_put_data (C:=Stub.collaborators) GPG_DO_LOGIN_DATA
                         alice (admin_card 4096 3 [])))))))).

(** What the claims look at in the state that the scan rebuilds: the
    payloads of two data objects, the PW status bytes (the PW1 lifetime and
    the three error counters), the number of bytes of data objects, and the
    number of private keys. *)
Definition indexed_view (s : state)
  : option apdu * option apdu * option apdu * Z * Z :=
  (res_APDU <$> gpg_do_get_data (C:=Stub.collaborators) GPG_DO_LOGIN_DATA s,
   res_APDU <$> gpg_do_get_data (C:=Stub.collaborators) GPG_DO_NAME s,
   res_APDU <$> gpg_do_get_data (C:=Stub.collaborators) GPG_DO_PW_STATUS s,
   data_objects_number_of_bytes s,
   num_prv_keys s).

(** A card that has signed 1023 times. *)
Definition card_1023_signatures : state :=
  Nat.iter 1023 gpg_increment_digital_signature_counter (blank_card 4096 3).

(** A card whose signature counter is two short of wrapping. *)
Definition card_dsc_fffffe : state :=
  set_digital_signature_counter 0xfffffe (blank_card 64 3).

Definition sample_key : list Z := map Z.of_nat (seq 1 128).
Definition sample_keystring : list Z := map Z.of_nat (seq 100 20).

(** The data of a key import: 26 bytes of header, then the key. *)
Definition key_import_data (kk : kind_of_key) (key_data : list Z) : list Z :=
  [0x4d; 0x82; 0x01; 0x16; kk_byte kk; 0x00; 0x7f; 0x48; 0x08; 0x91; 0x04;
   0x92; 0x81; 0x80; 0x93; 0x81; 0x80; 0x5f; 0x48; 0x82; 0x01; 0x04;
   0x00; 0x01; 0x00; 0x01] ++ key_data.

(** The data of a key deletion: no more than 22 bytes. *)
Definition key_delete_data (kk : kind_of_key) : list Z :=
  [0x4d; 0x82; 0x00; 0x02; kk_byte kk; 0x00].

(** A card with a decryption key, no other key, and a PW1 keystring. *)
Definition card_dec_key : state :=
  gpg_do_write_simple NR_DO_KEYSTRING_PW1 (Some (6 :: replicate 20 0x77))
    (snd (proc_key_import (C:=Stub.collaborators)
            (key_import_data GPG_KEY_FOR_DECRYPTION sample_key)
            (admin_card 256 3 sample_keystring))).

(** A card sealed with a signing key under [sample_keystring]. *)
Definition card_sig_key : Z * state :=
  gpg_do_write_prvkey (C:=Stub.collaborators) GPG_KEY_FOR_SIGNING sample_key
    sample_keystring (admin_card 256 3 sample_keystring).

(** ** Predicates of the further properties *)

Section Responses.
Context {C : Collaborators}.

(** What [copy_do] writes for the object of tag [tag0] as a component of a
    compound object, that is with its tag and its length, into an empty
    response. *)
Definition do_tlv (tag0 : Z) (s : state) : list Z :=
  match copy_do 1 (get_do_entry tag0) true (set_res_p [] s) with
  | Some (_, s') => res_p s'
  | None => []
  end.

(** The tags of the components of a compound object. *)
Definition components (e : do_table_entry) : list Z :=
  match obj e with
  | OBJ_CMP cmp_data => take (Z.to_nat (nth 0 cmp_data 0)) (drop 1 cmp_data)
  | _ => []
  end.

(** The bytes [copy_tag] writes: one byte for a tag below [0x0100], else
    two. *)
Definition tag_bytes (tag0 : Z) : list Z :=
  if tag0 <? 0x0100 then [u8 (Z.land tag0 0xff)]
  else [u8 (Z.shiftr tag0 8); u8 (Z.land tag0 0xff)].

(** The state [copy_do] leaves. *)
Definition copy_do_state (depth : nat) (do_p : option do_table_entry)
    (with_tag : bool) (s : state) : state :=
  match copy_do depth do_p with_tag s with
  | Some (_, s') => s'
  | None => s
  end.

(** Anybody reads the entry. *)
Definition ac_read_always (e : do_table_entry) : bool :=
  match ac_read e with AC_ALWAYS => true | _ => false end.

(** The components of a compound object: each tag is in the table, of an
    object that is not compound and that anybody reads. *)
Definition plain_components (tags : list Z) : bool :=
  forallb (fun tag0 => match get_do_entry tag0 with
                       | None => false
                       | Some c => negb (is_compound c) && ac_read_always c
                       end) tags.

(** The answer of GET DATA to [tag0] is the bytes [x] and 90 00. *)
Definition get_data_answers (tag0 : Z) (s : state) (x : list Z) : Prop :=
  res_APDU <$> gpg_do_get_data tag0 s = Some (RES_DATA (x ++ [0x90; 0x00])).

(** The part of [tag0], stored under the number [nr], in an object that
    gathers three parts of [size] bytes: [size] zero bytes when the part is
    not stored, else what GET DATA answers for it, when that is [size]
    bytes. *)
Definition part_is (tag0 nr : Z) (size : nat) (s : state) (x : list Z) : Prop :=
  (gpg_do_read_simple nr s = None /\ x = replicate size 0)
  \/ (length x = size /\ size <> 0%nat /\ get_data_answers tag0 s x).

(** A writer of the response: it appends to [res_p] bytes that do not
    depend on what is there, and touches nothing else. *)
Definition appends (f : state -> state) : Prop :=
  forall pre s, f (set_res_p pre s)
                = set_res_p (pre ++ res_p (f (set_res_p [] s))) s.

End Responses.

(** ** More sample cards *)



(** The fingerprints of the signing and of the authentication key put on an
    empty card. *)
Definition card_two_fp : state :=
  gpg_do_put_data (C:=Stub.collaborators) GPG_DO_FP_AUT (replicate 20 0x33)
    (gpg_do_put_data (C:=Stub.collaborators) GPG_DO_FP_SIG (replicate 20 0x11)
       (admin_card 128 3 [])).

(** The key generation time of the decryption key put on an empty card. *)
Definition card_one_kgtime : state :=
  gpg_do_put_data (C:=Stub.collaborators) GPG_DO_KGTIME_DEC [0x4d; 0x2f; 0x10; 0x01]
    (admin_card 64 3 []).

Section KeyStatements.
Context {C : Collaborators}.

(** What [gpg_do_load_prvkey] leaves in [kd] for the record [pd] of a
    private key: the key content from the key store and the 16 bytes that
    follow the key address in the record, decrypted with the DEK, which is
    the copy of the role [who] decrypted with the keystring. *)
Definition open_record (pd : list Z) (who : Z) (keystring : list Z) (s : state)
  : list Z :=
  decrypt
    (decrypt keystring
       (buf_read pd (Z.to_nat (4 + 16 * who)) DATA_ENCRYPTION_KEY_SIZE))
    (key_read s (Z.to_nat (le32_value (buf_read pd PD_KEY_ADDR 4))) KEY_CONTENT_LEN
     ++ buf_read pd PD_CRM_ENCRYPTED ADDITIONAL_DATA_SIZE).

(** The keystring under which [gpg_do_write_prvkey] wraps the DEK for the
    user: the digest of the initial PW1 when the role already holds a key
    or no keystring of PW1 is stored, else the 20 bytes of the stored
    keystring that follow its length. *)
Definition user_keystring (kk : kind_of_key) (s : state) : list Z :=
  match arr_get (do_ptr s) (get_do_ptr_nr_for_kk kk - NR_DO__FIRST__) with
  | Some _ => sha1 OPENPGP_CARD_INITIAL_PW1
  | None =>
      match gpg_do_read_simple NR_DO_KEYSTRING_PW1 s with
      | Some ks_pw1 => rd_bytes (data_pool s) (ks_pw1 + 1) KEYSTRING_MD_SIZE
      | None => sha1 OPENPGP_CARD_INITIAL_PW1
      end
  end.

(** Two calls of [gpg_do_load_prvkey] return the same and leave the same
    in [kd]. *)
Definition same_key (r r' : Z * state) : Prop :=
  fst r = fst r' /\ kd (snd r) = kd (snd r').

End KeyStatements.

(** A card with a signing key whose admin keystring is [sample_keystring],
    and a new keystring. *)
Definition new_keystring : list Z := map Z.of_nat (seq 200 20).

(** * SHA-256 (src/sha256.c)

    The file is "Just for little endian architecture": the buffer [wbuf] of
    a context is written byte by byte and read word by word.  It is modelled
    as its bytes, a word being four of them, the lowest first. *)

(** [__builtin_bswap32]: the four bytes of a word in the opposite order. *)
Definition bswap32 (x : Z) : Z :=
  Z.lor (Z.lor (Z.shiftl (Z.land x 0xff) 24)
               (Z.shiftl (Z.land (Z.shiftr x 8) 0xff) 16))
        (Z.lor (Z.shiftl (Z.land (Z.shiftr x 16) 0xff) 8)
               (Z.land (Z.shiftr x 24) 0xff)).

(** The table [sha_cpool] of sha-common.h is defined in a file that is not
    among the sources.  These are the 80 constants of SHA-512 (FIPS 180-4,
    section 4.2.3, the reference of sha512.c), each as two 32-bit words, the
    lower one first: [k512] reads a pair as one 64-bit word of a
    little-endian machine, and [k256] reads the upper word of a pair, the
    constants of SHA-256 being the upper halves of the first 64 constants of
    SHA-512. *)
Definition fips_cpool : list Z :=
  [
   0xd728ae22; 0x428a2f98; 0x23ef65cd; 0x71374491;
   0xec4d3b2f; 0xb5c0fbcf; 0x8189dbbc; 0xe9b5dba5;
   0xf348b538; 0x3956c25b; 0xb605d019; 0x59f111f1;
   0xaf194f9b; 0x923f82a4; 0xda6d8118; 0xab1c5ed5;
   0xa3030242; 0xd807aa98; 0x45706fbe; 0x12835b01;
   0x4ee4b28c; 0x243185be; 0xd5ffb4e2; 0x550c7dc3;
   0xf27b896f; 0x72be5d74; 0x3b1696b1; 0x80deb1fe;
   0x25c71235; 0x9bdc06a7; 0xcf692694; 0xc19bf174;
   0x9ef14ad2; 0xe49b69c1; 0x384f25e3; 0xefbe4786;
   0x8b8cd5b5; 0x0fc19dc6; 0x77ac9c65; 0x240ca1cc;
   0x592b0275; 0x2de92c6f; 0x6ea6e483; 0x4a7484aa;
   0xbd41fbd4; 0x5cb0a9dc; 0x831153b5; 0x76f988da;
   0xee66dfab; 0x983e5152; 0x2db43210; 0xa831c66d;
   0x98fb213f; 0xb00327c8; 0xbeef0ee4; 0xbf597fc7;
   0x3da88fc2; 0xc6e00bf3; 0x930aa725; 0xd5a79147;
   0xe003826f; 0x06ca6351; 0x0a0e6e70; 0x14292967;
   0x46d22ffc; 0x27b70a85; 0x5c26c926; 0x2e1b2138;
   0x5ac42aed; 0x4d2c6dfc; 0x9d95b3df; 0x53380d13;
   0x8baf63de; 0x650a7354; 0x3c77b2a8; 0x766a0abb;
   0x47edaee6; 0x81c2c92e; 0x1482353b; 0x92722c85;
   0x4cf10364; 0xa2bfe8a1; 0xbc423001; 0xa81a664b;
   0xd0f89791; 0xc24b8b70; 0x0654be30; 0xc76c51a3;
   0xd6ef5218; 0xd192e819; 0x5565a910; 0xd6990624;
   0x5771202a; 0xf40e3585; 0x32bbd1b8; 0x106aa070;
   0xb8d2d0c8; 0x19a4c116; 0x5141ab53; 0x1e376c08;
   0xdf8eeb99; 0x2748774c; 0xe19b48a8; 0x34b0bcb5;
   0xc5c95a63; 0x391c0cb3; 0xe3418acb; 0x4ed8aa4a;
   0x7763e373; 0x5b9cca4f; 0xd6b2b8a3; 0x682e6ff3;
   0x5defb2fc; 0x748f82ee; 0x43172f60; 0x78a5636f;
   0xa1f0ab72; 0x84c87814; 0x1a6439ec; 0x8cc70208;
   0x23631e28; 0x90befffa; 0xde82bde9; 0xa4506ceb;
   0xb2c67915; 0xbef9a3f7; 0xe372532b; 0xc67178f2;
   0xea26619c; 0xca273ece; 0x21c0c207; 0xd186b8c7;
   0xcde0eb1e; 0xeada7dd6; 0xee6ed178; 0xf57d4f7f;
   0x72176fba; 0x06f067aa; 0xa2c898a6; 0x0a637dc5;
   0xbef90dae; 0x113f9804; 0x131c471b; 0x1b710b35;
   0x23047d84; 0x28db77f5; 0x40c72493; 0x32caab7b;
   0x15c9bebc; 0x3c9ebe0a; 0x9c100d4c; 0x431d67c4;
   0xcb3e42b6; 0x4cc5d4be; 0xfc657e2a; 0x597f299c;
   0x3ad6faec; 0x5fcb6fab; 0x4a475817; 0x6c44198c ].

Module Sha256.
Section WithPool.
Variable sha_cpool : list Z.

(** sha256.h is not among the sources; [wbuf] has the 16 words that
    [sha256_process] and [sha256_finish] index, so a block is 64 bytes. *)
Definition SHA256_BLOCK_SIZE : nat := 64.
Definition SHA256_MASK : Z := Z.of_nat SHA256_BLOCK_SIZE - 1.

Record sha256_context := mkContext {
  total : list Z;  (* uint32_t total[2] *)
  state : list Z;  (* uint32_t state[8] *)
  wbuf : list Z    (* uint32_t wbuf[16], as its 64 bytes *)
}.

Definition set_total (t : list Z) (ctx : sha256_context) : sha256_context :=
  mkContext t (state ctx) (wbuf ctx).
Definition set_state (st : list Z) (ctx : sha256_context) : sha256_context :=
  mkContext (total ctx) st (wbuf ctx).
Definition set_wbuf (w : list Z) (ctx : sha256_context) : sha256_context :=
  mkContext (total ctx) (state ctx) w.

(** [p[i]] and [p[i] = x] for [uint32_t *p = ctx->wbuf]. *)
Definition wbuf_get (w : list Z) (i : nat) : Z := le32_value (buf_read w (4 * i) 4).
Definition wbuf_set (w : list Z) (i : nat) (x : Z) : list Z :=
  buf_write w (4 * i) (le32_bytes x).

Definition rotr32 (x n : Z) : Z :=
  Z.lor (Z.shiftr x n) (u32 (Z.shiftl x (32 - n))).

Definition ch (x y z : Z) : Z := Z.lxor z (Z.land x (Z.lxor y z)).
Definition maj (x y z : Z) : Z := Z.lor (Z.land x y) (Z.land z (Z.lxor x y)).

Definition s_0 (x : Z) : Z := Z.lxor (Z.lxor (rotr32 x 2) (rotr32 x 13)) (rotr32 x 22).
Definition s_1 (x : Z) : Z := Z.lxor (Z.lxor (rotr32 x 6) (rotr32 x 11)) (rotr32 x 25).
Definition g_0 (x : Z) : Z := Z.lxor (Z.lxor (rotr32 x 7) (rotr32 x 18)) (Z.shiftr x 3).
Definition g_1 (x : Z) : Z := Z.lxor (Z.lxor (rotr32 x 17) (rotr32 x 19)) (Z.shiftr x 10).

(** [k256(idx)] is [sha_cpool[2*(idx)+1]]. *)
Definition k_0 (idx : Z) : Z := nth (Z.to_nat (2 * idx + 1)) sha_cpool 0.

(** round transforms for SHA256 compression functions: [vf(n,i)] is
    [v[(n - i) & 7]]. *)
Definition vf_index (n i : Z) : nat := Z.to_nat (Z.land (n - i) 7).
Definition vf (v : list Z) (n i : Z) : Z := nth (vf_index n i) v 0.
(** [vf(n,i) += x] *)
Definition vf_add (v : list Z) (n i x : Z) : list Z :=
  <[vf_index n i := u32 (vf v n i + x)]> v.

(** [hf(i)]: the new [p[i & 15]], which is also the value of the
    expression. *)
Definition hf (p : list Z) (i : Z) : list Z * Z :=
  let x := u32 (wbuf_get p (Z.to_nat (Z.land i 15))
                + (g_1 (wbuf_get p (Z.to_nat (Z.land (i + 14) 15)))
                   + wbuf_get p (Z.to_nat (Z.land (i + 9) 15))
                   + g_0 (wbuf_get p (Z.to_nat (Z.land (i + 1) 15))))) in
  (wbuf_set p (Z.to_nat (Z.land i 15)) x, x).

Definition v_cycle0 (i : Z) (pv : list Z * list Z) : list Z * list Z :=
  let '(p, v) := pv in
  let p := wbuf_set p (Z.to_nat i) (bswap32 (wbuf_get p (Z.to_nat i))) in
  let v := vf_add v 7 i (wbuf_get p (Z.to_nat i) + k_0 i
                         + s_1 (vf v 4 i) + ch (vf v 4 i) (vf v 5 i) (vf v 6 i)) in
  let v := vf_add v 3 i (vf v 7 i) in
  let v := vf_add v 7 i (s_0 (vf v 0 i) + maj (vf v 0 i) (vf v 1 i) (vf v 2 i)) in
  (p, v).

Definition v_cycle (i j : Z) (pv : list Z * list Z) : list Z * list Z :=
  let '(p, v) := pv in
  let '(p, h) := hf p i in
  let v := vf_add v 7 i (h + k_0 (i + j)
                         + s_1 (vf v 4 i) + ch (vf v 4 i) (vf v 5 i) (vf v 6 i)) in
  let v := vf_add v 3 i (vf v 7 i) in
  let v := vf_add v 7 i (s_0 (vf v 0 i) + maj (vf v 0 i) (vf v 1 i) (vf v 2 i)) in
  (p, v).

(** The sixteen turns [v_cycle0 (0) ... v_cycle0 (15)], then for [i] = 16,
    32 and 48 the sixteen turns [v_cycle (0, i) ... v_cycle (15, i)]; with
    [HASH_OPTIMIZE_SIZE] the same turns are written as two loops. *)
Definition sha256_process (ctx : sha256_context) : sha256_context :=
  let p := wbuf ctx in
  let v := state ctx in
  let pv := fold_left (fun pv i => v_cycle0 (Z.of_nat i) pv) (seq 0 16) (p, v) in
  let '(p, v) :=
    fold_left
      (fun pv i => fold_left (fun pv j => v_cycle (Z.of_nat j) i pv) (seq 0 16) pv)
      [16; 32; 48] pv in
  mkContext (total ctx)
    (map (fun i => u32 (nth i (state ctx) 0 + nth i v 0)) (seq 0 8))
    p.

(** The [while] loop of [sha256_update] and the [memcpy] after it.  A turn
    takes at least one byte of the input, so the length of the input bounds
    the number of turns. *)
Fixpoint update_loop (fuel : nat) (ctx : sha256_context) (input : list Z)
    (left : nat) : sha256_context :=
  let fill := (SHA256_BLOCK_SIZE - left)%nat in
  if (fill <=? length input)%nat then
    match fuel with
    | O => ctx
    | S fuel =>
        let ctx := set_wbuf (buf_write (wbuf ctx) left (take fill input)) ctx in
        let ctx := sha256_process ctx in
        update_loop fuel ctx (drop fill input) 0
    end
  else set_wbuf (buf_write (wbuf ctx) left input) ctx.

(** [ilen] is the length of [input], an [unsigned int]. *)
Definition sha256_update (ctx : sha256_context) (input : list Z)
  : sha256_context :=
  let ilen := Z.of_nat (length input) in
  let left := Z.land (nth 0 (total ctx) 0) SHA256_MASK in
  let total0 := u32 (nth 0 (total ctx) 0 + ilen) in
  let total1 :=
    if total0 <? ilen then u32 (nth 1 (total ctx) 0 + 1) else nth 1 (total ctx) 0 in
  let ctx := set_total [total0; total1] ctx in
  update_loop (length input) ctx input (Z.to_nat left).

Definition memcpy_output_bswap32 (p : list Z) : list Z :=
  snd (fold_left
         (fun qd i =>
            let '(q, dst) := qd in
            let q := if Z.land i 3 =? 0
                     then bswap32 (nth (Z.to_nat (Z.shiftr i 2)) p 0) else q in
            (q, dst ++ [u8 (Z.shiftr q (Z.land i 3 * 8))]))
         (map Z.of_nat (seq 0 32)) (0, [])).

(** [sha256_finish]: the digest, and the context that [memset] has
    cleared. *)
Definition sha256_finish (ctx : sha256_context) : list Z * sha256_context :=
  let last := Z.land (nth 0 (total ctx) 0) SHA256_MASK in
  let i := Z.to_nat (Z.shiftr last 2) in
  let sh := 8 * Z.land (Z.lnot last) 3 in
  let w := wbuf ctx in
  let w := wbuf_set w i (bswap32 (wbuf_get w i)) in
  let w := wbuf_set w i (Z.land (wbuf_get w i) (u32 (Z.shiftl 0xffffff80 sh))) in
  let w := wbuf_set w i (Z.lor (wbuf_get w i) (u32 (Z.shiftl 0x00000080 sh))) in
  let w := wbuf_set w i (bswap32 (wbuf_get w i)) in
  let ctx := set_wbuf w ctx in
  let '(ctx, last) :=
    if Z.of_nat SHA256_BLOCK_SIZE - 9 <? last then
      let ctx := if last <? 60 then set_wbuf (wbuf_set (wbuf ctx) 15 0) ctx
                 else ctx in
      (sha256_process ctx, 0)
    else (ctx, Z.shiftr last 2 + 1) in
  let ctx :=
    fold_left (fun ctx j => set_wbuf (wbuf_set (wbuf ctx) j 0) ctx)
      (seq (Z.to_nat last) (14 - Z.to_nat last)) ctx in
  let ctx :=
    set_wbuf (wbuf_set (wbuf ctx) 14
                (bswap32 (Z.lor (Z.shiftr (nth 0 (total ctx) 0) 29)
                                (u32 (Z.shiftl (nth 1 (total ctx) 0) 3))))) ctx in
  let ctx :=
    set_wbuf (wbuf_set (wbuf ctx) 15
                (bswap32 (u32 (Z.shiftl (nth 0 (total ctx) 0) 3)))) ctx in
  let ctx := sha256_process ctx in
  (memcpy_output_bswap32 (state ctx),
   mkContext [0; 0] (replicate 8 0) (replicate SHA256_BLOCK_SIZE 0)).

Definition initial_state : list Z :=
  [0x6a09e667; 0xbb67ae85; 0x3c6ef372; 0xa54ff53a;
   0x510e527f; 0x9b05688c; 0x1f83d9ab; 0x5be0cd19].

Definition sha256_start (ctx : sha256_context) : sha256_context :=
  set_state initial_state (set_total [0; 0] ctx).

(** [sha256 (input, ilen, output)]; [ctx] is what the stack holds where the
    context is. *)
Definition sha256 (ctx : sha256_context) (input : list Z) : list Z :=
  let ctx := sha256_start ctx in
  let ctx := sha256_update ctx input in
  fst (sha256_finish ctx).

End WithPool.
End Sha256.

(** The inputs of sha_test.c. *)
Definition test_abc : list Z := [0x61; 0x62; 0x63].

(** "abcdbcdecdefdefgefghfghighijhijkijkljklmklmnlmnomnopnopq" *)
Definition test_abcdbcde : list Z :=
  [0x61; 0x62; 0x63; 0x64; 0x62; 0x63; 0x64; 0x65; 0x63; 0x64; 0x65; 0x66;
   0x64; 0x65; 0x66; 0x67; 0x65; 0x66; 0x67; 0x68; 0x66; 0x67; 0x68; 0x69;
   0x67; 0x68; 0x69; 0x6a; 0x68; 0x69; 0x6a; 0x6b; 0x69; 0x6a; 0x6b; 0x6c;
   0x6a; 0x6b; 0x6c; 0x6d; 0x6b; 0x6c; 0x6d; 0x6e; 0x6c; 0x6d; 0x6e; 0x6f;
   0x6d; 0x6e; 0x6f; 0x70; 0x6e; 0x6f; 0x70; 0x71].

Definition junk_context256 : Sha256.sha256_context :=
  Sha256.mkContext [0xdead; 0xbeef] (replicate 8 0x5a5a5a5a) (replicate 64 0xa5).

(** A context as the C type has it: [total[0]] is a 32-bit word. *)
Definition context256_ok (ctx : Sha256.sha256_context) : Prop :=
  0 <= nth 0 (Sha256.total ctx) 0 < 2 ^ 32.

(** * Compaction and the scan after it *)



(** The cells that [gpg_data_scan] tells apart. *)
Inductive cell :=
| CellDo (nr : Z) (data : list Z)
| CellH14 (hw : Z)
| CellL10 (hw : Z)
| CellBool
| CellCnt (which v : Z).

Definition cell_bytes (c : cell) : list Z :=
  match c with
  | CellDo nr data => do_cell nr data
  | CellH14 hw => hw_bytes hw
  | CellL10 hw => hw_bytes hw
  | CellBool => hw_bytes NR_BOOL_PW1_LIFETIME
  | CellCnt which v => [u8 NR_COUNTER_123; u8 which] ++ hw_bytes (cnt123_unary v)
  end.

Definition cells_bytes (cs : list cell) : list Z := concat (map cell_bytes cs).

Definition cell_ok (c : cell) : Prop :=
  match c with
  | CellDo nr data => 1 <= nr < 0x80 /\ (length data <= 255)%nat
  | CellH14 hw => 0x80 <= u8 hw <= 0xbf
  | CellL10 hw => 0xc0 <= u8 hw <= 0xc3
  | CellBool => True
  | CellCnt which v => 0 <= which <= PW_ERR_PW3
  end.

(** What a turn of the loop of [gpg_data_scan] does with the cell at
    [sv_p v]. *)
Definition scan_cell (v : scan_vars) (c : cell) : scan_vars :=
  let p := sv_p v in
  match c with
  | CellDo nr data =>
      mkScan (p + length (do_cell nr data)) (sv_dsc_h14_p v) (sv_dsc_l10_p v)
        (sv_pw1_lifetime_p v) (sv_pw_err_counter_p v)
        (arr_set (sv_do_ptr v) (nr - NR_DO__FIRST__) (Some (S p)))
  | CellH14 _ =>
      mkScan (p + 2) (Some p) (sv_dsc_l10_p v) (sv_pw1_lifetime_p v)
        (sv_pw_err_counter_p v) (sv_do_ptr v)
  | CellL10 _ =>
      mkScan (p + 2) (sv_dsc_h14_p v) (Some p) (sv_pw1_lifetime_p v)
        (sv_pw_err_counter_p v) (sv_do_ptr v)
  | CellBool =>
      mkScan (p + 2) (sv_dsc_h14_p v) (sv_dsc_l10_p v) (Some p)
        (sv_pw_err_counter_p v) (sv_do_ptr v)
  | CellCnt which _ =>
      mkScan (p + 4) (sv_dsc_h14_p v) (sv_dsc_l10_p v) (sv_pw1_lifetime_p v)
        (arr_set (sv_pw_err_counter_p v) which (Some (p + 2)%nat)) (sv_do_ptr v)
  end.









Definition same_ptrs (v v' : scan_vars) : Prop :=
  sv_p v = sv_p v' /\ sv_pw1_lifetime_p v = sv_pw1_lifetime_p v'
  /\ sv_pw_err_counter_p v = sv_pw_err_counter_p v'
  /\ sv_do_ptr v = sv_do_ptr v'.




(** A card with some data objects, a PW1 lifetime, wrong PW1 and PW3
    entries and five signatures. *)
Definition card_five_signatures : state :=
  gpg_data_scan 0
    (Nat.iter 5 gpg_increment_digital_signature_counter
       (gpg_increment_pw_err_counter PW_ERR_PW3
          (gpg_increment_pw_err_counter PW_ERR_PW1
             (gpg_do_put_data (C:=Stub.collaborators) GPG_DO_PW_STATUS [1]
                (gpg_do_put_data (C:=Stub.collaborators) GPG_DO_NAME
                   [0x41; 0x42; 0x43]
                   (gpg_do_put_data (C:=Stub.collaborators) GPG_DO_LOGIN_DATA
                      alice (admin_card 512 3 []))))))).



(** The pool holds bytes. *)
Definition pool_bytes (s : state) : bool :=
  forallb (fun b => (0 <=? b) && (b <=? 255)) (data_pool s).

(** A card with a signing key whose pool has no room for a second record of
    a private key. *)
Definition card_sig_key_full : state :=
  snd (gpg_do_write_prvkey (C:=Stub.collaborators) GPG_KEY_FOR_SIGNING sample_key
         sample_keystring (admin_card 128 3 sample_keystring)).

(** Login data of 60 bytes: more than what is left of a pool of 64 bytes
    that holds "alice@example.test". *)
Definition long_name : list Z := replicate 60 0x61.

(** * Proofs *)

(** * Flash memory: reading what was programmed *)

Lemma length_flash_program (m : list Z) a bs :
  length (flash_program m a bs) = length m.
Proof.
  revert m a. induction bs as [|b bs IH]; intros m a; simpl; [done|].
  rewrite IH. apply length_insert.
Qed.

Lemma flash_program_lookup (m : list Z) a bs j :
  flash_program m a bs !! j =
  if decide ((a <= j < a + length bs)%nat /\ (j < length m)%nat)
  then bs !! (j - a)%nat else m !! j.
Proof.
  revert m a. induction bs as [|b bs IH]; intros m a; simpl.
  - case_decide; [lia|done].
  - rewrite IH, length_insert.
    destruct (decide (j = a)) as [->|Hne].
    + rewrite decide_False by lia.
      case_decide.
      * rewrite Nat.sub_diag. simpl. apply list_lookup_insert_eq. lia.
      * rewrite list_insert_ge by lia. done.
    + rewrite list_lookup_insert_ne by done.
      case_decide; case_decide; try lia; try done.
      replace (j - a)%nat with (S (j - S a)) by lia. done.
Qed.

Lemma rd_flash_program_out (m : list Z) a bs j :
  (j < a \/ a + length bs <= j)%nat ->
  rd (flash_program m a bs) j = rd m j.
Proof.
  intros H. unfold rd. rewrite flash_program_lookup.
  rewrite decide_False by lia. done.
Qed.

Lemma rd_flash_program_in (m : list Z) a bs i b :
  (a + length bs <= length m)%nat -> bs !! i = Some b ->
  rd (flash_program m a bs) (a + i) = b.
Proof.
  intros Hfit Hi. unfold rd. rewrite flash_program_lookup.
  apply lookup_lt_Some in Hi as Hlt.
  rewrite decide_True by lia.
  replace (a + i - a)%nat with i by lia. by rewrite Hi.
Qed.

Lemma read_bytes_length d m a n : length (read_bytes d m a n) = n.
Proof. unfold read_bytes. by rewrite length_map, length_seq. Qed.

Lemma read_bytes_lookup d m a n i :
  read_bytes d m a n !! i
  = if decide (i < n)%nat then Some (default d (m !! (a + i)%nat)) else None.
Proof.
  unfold read_bytes. rewrite list_lookup_fmap.
  case_decide.
  - by rewrite lookup_seq_lt.
  - by rewrite lookup_seq_ge by lia.
Qed.

Lemma read_bytes_ext d m m' a n :
  (forall j, (a <= j < a + n)%nat -> m' !! j = m !! j) ->
  read_bytes d m' a n = read_bytes d m a n.
Proof.
  intros H. unfold read_bytes. apply map_ext_in. intros j Hj.
  apply in_seq in Hj. rewrite H by lia. done.
Qed.

Lemma read_bytes_program_out d (m : list Z) a bs a' n :
  (a' + n <= a \/ a + length bs <= a')%nat ->
  read_bytes d (flash_program m a bs) a' n = read_bytes d m a' n.
Proof.
  intros H. apply read_bytes_ext. intros j Hj.
  rewrite flash_program_lookup. rewrite decide_False by lia. done.
Qed.

(** Reading back a run of the bytes that were programmed. *)
Lemma read_bytes_program_in d (m : list Z) a bs off n :
  (a + length bs <= length m)%nat -> (off + n <= length bs)%nat ->
  read_bytes d (flash_program m a bs) (a + off) n = take n (drop off bs).
Proof.
  intros Hfit Hn. apply list_eq. intros i.
  rewrite read_bytes_lookup.
  case_decide as Hi.
  - rewrite lookup_take_lt by done. rewrite lookup_drop.
    rewrite flash_program_lookup. rewrite decide_True by lia.
    replace (a + off + i - a)%nat with (off + i)%nat by lia.
    destruct (bs !! (off + i)%nat) as [b|] eqn:Hb; [done|].
    apply lookup_ge_None in Hb. lia.
  - symmetry. apply lookup_ge_None. rewrite length_take, length_drop. lia.
Qed.

Lemma read_bytes_in_range d (m : list Z) a n :
  (a + n <= length m)%nat -> read_bytes d m a n = take n (drop a m).
Proof.
  intros Hfit. apply list_eq. intros i.
  rewrite read_bytes_lookup.
  case_decide as Hi.
  - rewrite lookup_take_lt by done. rewrite lookup_drop.
    destruct (m !! (a + i)%nat) as [b|] eqn:Hb; [done|].
    apply lookup_ge_None in Hb. lia.
  - symmetry. apply lookup_ge_None. rewrite length_take, length_drop. lia.
Qed.

Lemma rd_bytes_length m a n : length (rd_bytes m a n) = n.
Proof. apply read_bytes_length. Qed.

Lemma rd_bytes_flash_program_out (m : list Z) a bs a' n :
  (a' + n <= a \/ a + length bs <= a')%nat ->
  rd_bytes (flash_program m a bs) a' n = rd_bytes m a' n.
Proof. apply read_bytes_program_out. Qed.

Lemma rd_bytes_flash_program_in (m : list Z) a bs off n :
  (a + length bs <= length m)%nat -> (off + n <= length bs)%nat ->
  rd_bytes (flash_program m a bs) (a + off) n = take n (drop off bs).
Proof. apply read_bytes_program_in. Qed.

Lemma rd_bytes_flash_program (m : list Z) a bs :
  (a + length bs <= length m)%nat ->
  rd_bytes (flash_program m a bs) a (length bs) = bs.
Proof.
  intros Hfit.
  replace a with (a + 0)%nat at 2 by lia.
  rewrite rd_bytes_flash_program_in by (simpl; lia).
  simpl. by rewrite firstn_all.
Qed.

(** Buffers in RAM *)
Lemma length_buf_write buf off bs : length (buf_write buf off bs) = length buf.
Proof. apply length_flash_program. Qed.

Lemma buf_read_length buf off n : length (buf_read buf off n) = n.
Proof. apply read_bytes_length. Qed.

Lemma buf_read_write_out buf off bs off' n :
  (off' + n <= off \/ off + length bs <= off')%nat ->
  buf_read (buf_write buf off bs) off' n = buf_read buf off' n.
Proof. apply read_bytes_program_out. Qed.

Lemma buf_read_write buf off bs :
  (off + length bs <= length buf)%nat ->
  buf_read (buf_write buf off bs) off (length bs) = bs.
Proof.
  intros Hfit. unfold buf_read, buf_write.
  replace off with (off + 0)%nat at 2 by lia.
  rewrite read_bytes_program_in by (simpl; lia).
  simpl. by rewrite firstn_all.
Qed.

#[global] Arguments flash_program : simpl never.
#[global] Arguments rd_bytes : simpl never.
#[global] Arguments read_bytes : simpl never.
#[global] Arguments buf_read : simpl never.
#[global] Arguments buf_write : simpl never.

(** * Arrays of pointers *)

Lemma length_arr_set {A} (l : list A) i x : length (arr_set l i x) = length l.
Proof. unfold arr_set. destruct (i <? 0); [done|apply length_insert]. Qed.

Lemma arr_get_set_eq {A} (l : list (option A)) i x :
  0 <= i -> (Z.to_nat i < length l)%nat -> arr_get (arr_set l i x) i = x.
Proof.
  intros Hi Hlt. unfold arr_get, arr_set.
  destruct (Z.ltb_spec i 0); [lia|].
  by rewrite list_lookup_insert_eq.
Qed.

Lemma arr_get_set_ne {A} (l : list (option A)) i j x :
  i <> j -> arr_get (arr_set l i x) j = arr_get l j.
Proof.
  intros Hne. unfold arr_get, arr_set.
  destruct (Z.ltb_spec j 0); [done|].
  destruct (Z.ltb_spec i 0); [done|].
  rewrite list_lookup_insert_ne by lia. done.
Qed.

Lemma arr_get_set_None {A} (l : list (option A)) i :
  arr_get (arr_set l i None) i = None.
Proof.
  unfold arr_get, arr_set.
  destruct (Z.ltb_spec i 0); [done|].
  destruct (decide (Z.to_nat i < length l)%nat).
  - by rewrite list_lookup_insert_eq.
  - rewrite list_insert_ge by lia.
    rewrite (proj2 (lookup_ge_None l (Z.to_nat i))) by lia. done.
Qed.

(** * Words in memory *)

Lemma testbit_u8 y n : 0 <= n -> Z.testbit (u8 y) n = Z.testbit y n && (n <? 8).
Proof.
  intros Hn. unfold u8. rewrite Z.land_spec.
  change 0xff with (Z.ones 8). by rewrite Z.testbit_ones_nonneg by lia.
Qed.

Lemma testbit_byte_at x k n :
  0 <= n -> 0 <= k ->
  Z.testbit (Z.shiftl (u8 (Z.shiftr x k)) k) n
  = Z.testbit x n && (k <=? n) && (n <? k + 8).
Proof.
  intros Hn Hk. rewrite Z.shiftl_spec by done.
  destruct (Z.leb_spec k n).
  - rewrite testbit_u8, Z.shiftr_spec by lia.
    replace (n - k + k) with n by lia.
    rewrite andb_true_r. f_equal.
    destruct (Z.ltb_spec (n - k) 8); destruct (Z.ltb_spec n (k + 8)); lia || done.
  - rewrite Z.testbit_neg_r by lia. by rewrite andb_false_r.
Qed.

Lemma le32_value_bytes x : 0 <= x < 2 ^ 32 -> le32_value (le32_bytes x) = x.
Proof.
  intros Hx. unfold le32_value, le32_bytes. simpl nth.
  apply Z.bits_inj'. intros n Hn.
  rewrite !Z.lor_spec, !testbit_byte_at, testbit_u8 by lia.
  destruct (Z.ltb_spec n 32) as [Hlt|Hge].
  - destruct (Z.testbit x n); simpl; [|done].
    destruct (Z.ltb_spec n 8); destruct (Z.leb_spec 8 n);
      destruct (Z.ltb_spec n (8 + 8)); destruct (Z.leb_spec 16 n);
      destruct (Z.ltb_spec n (16 + 8)); destruct (Z.leb_spec 24 n);
      destruct (Z.ltb_spec n (24 + 8)); simpl; lia || done.
  - assert (Hbit : Z.testbit x n = false).
    { rewrite <- (Z.mod_small x (2 ^ 32)) by lia.
      apply Z.mod_pow2_bits_high. lia. }
    rewrite Hbit. done.
Qed.

Lemma length_le32_bytes x : length (le32_bytes x) = 4%nat.
Proof. done. Qed.

Lemma memcmp_eq_refl a : memcmp_eq a a = true.
Proof.
  unfold memcmp_eq. rewrite Nat.eqb_refl, andb_true_r.
  induction a as [|x a IH]; simpl; [done|].
  by rewrite Z.eqb_refl.
Qed.

Lemma memcmp_eq_true a b : memcmp_eq a b = true -> a = b.
Proof.
  unfold memcmp_eq. intros H. apply andb_prop in H as [Hall Hlen].
  apply Nat.eqb_eq in Hlen.
  revert b Hall Hlen. induction a as [|x a IH]; intros [|y b] Hall Hlen;
    simpl in *; try done.
  apply andb_prop in Hall as [Hxy Hall]. apply Z.eqb_eq in Hxy. subst y.
  f_equal. apply IH; [done|lia].
Qed.

(** A run of bytes inside a run that was read. *)
Lemma read_bytes_sub d m a n off k :
  (off + k <= n)%nat ->
  read_bytes d m (a + off) k = take k (drop off (read_bytes d m a n)).
Proof.
  intros Hk. apply list_eq. intros i.
  rewrite read_bytes_lookup.
  case_decide as Hi.
  - rewrite lookup_take_lt by done. rewrite lookup_drop, read_bytes_lookup.
    rewrite decide_True by lia. by rewrite Nat.add_assoc.
  - symmetry. apply lookup_ge_None.
    rewrite length_take, length_drop, read_bytes_length. lia.
Qed.

Lemma land_ffffff x : Z.land x 0x00ffffff = x mod 2 ^ 24.
Proof. change 0x00ffffff with (Z.ones 24). apply Z.land_ones. lia. Qed.

Lemma u8_mod x : u8 x = x mod 256.
Proof. unfold u8. change 0xff with (Z.ones 8). apply Z.land_ones. lia. Qed.

Lemma u8_small x : 0 <= x <= 255 -> u8 x = x.
Proof. intros Hx. rewrite u8_mod. apply Z.mod_small. lia. Qed.

(** * Cells of data objects *)

Lemma length_do_cell nr data :
  length (do_cell nr data)
  = (if Nat.odd (2 + length data) then S (2 + length data) else (2 + length data)%nat).
Proof.
  unfold do_cell. rewrite !length_app. simpl.
  change (Nat.odd (S (S (length data)))) with (Nat.odd (length data)).
  destruct (Nat.odd (length data)); simpl; lia.
Qed.

(** What [flash_do_write] leaves when there is room: the cell at the old
    tail and the pointer to its length byte. *)
Lemma flash_do_write_room nr data s :
  pool_has_room (2 + length data) s ->
  flash_do_write nr data s
  = (Some (S (last_p s)),
     set_data_pool (flash_program (data_pool s) (last_p s) (do_cell nr data))
       (set_last_p (last_p s + length (do_cell nr data)) s)).
Proof.
  intros Hroom. unfold flash_do_write, flash_data_pool_allocate.
  unfold pool_has_room in Hroom. rewrite length_do_cell.
  rewrite (proj2 (Nat.leb_le _ _)) by done. done.
Qed.

Lemma rd_do_cell_length m t nr data :
  (t + length (do_cell nr data) <= length m)%nat ->
  rd (flash_program m t (do_cell nr data)) (S t) = u8 (Z.of_nat (length data)).
Proof.
  intros Hfit. replace (S t) with (t + 1)%nat by lia.
  by apply rd_flash_program_in.
Qed.

Lemma rd_do_cell_data m t nr data :
  (t + length (do_cell nr data) <= length m)%nat ->
  rd_bytes (flash_program m t (do_cell nr data)) (S t + 1) (length data) = data.
Proof.
  intros Hfit. replace (S t + 1)%nat with (t + 2)%nat by lia.
  rewrite rd_bytes_flash_program_in; [|done|].
  - unfold do_cell. simpl. rewrite drop_0. by rewrite take_app_length.
  - rewrite length_do_cell. destruct (Nat.odd _); lia.
Qed.

#[global] Arguments do_cell : simpl never.

(** * GET DATA returns *)

Section GetDataTotal.
Context {C : Collaborators}.

Lemma copy_do_simple_total depth e with_tag s :
  is_compound e = false ->
  is_Some (copy_do (S depth) (Some e) with_tag s).
Proof.
  intros Hc. destruct e as [t ty ar aw o]. unfold is_compound in Hc. simpl in Hc.
  cbn [copy_do ac_read do_type_of obj tag].
  destruct (negb (ac_check_status ar s)); [eauto|].
  destruct ty; try discriminate; destruct o; eauto;
    destruct (arr_get (do_ptr s) index); eauto.
Qed.

Lemma copy_components_total depth tags s :
  forallb (fun tag0 => match get_do_entry tag0 with
                       | None => true
                       | Some c => negb (is_compound c)
                       end) tags = true ->
  is_Some (copy_components (copy_do (S depth)) tags s).
Proof.
  revert s. induction tags as [|tag0 tags IH]; intros s Hall; [by eexists|].
  simpl in Hall. apply andb_prop in Hall as [H0 Hall].
  cbn [copy_components].
  destruct (get_do_entry tag0) as [c|].
  - destruct (copy_do_simple_total depth c true s) as [[r s1] ->].
    { by destruct (is_compound c). }
    destruct (r <? 0); [by eexists|]. by apply IH.
  - cbn [copy_do]. cbn [Z.ltb Z.compare]. by apply IH.
Qed.

Lemma table_components_simple :
  forallb components_simple gpg_do_table = true.
Proof. vm_compute. reflexivity. Qed.

Lemma copy_do_total depth e with_tag s :
  In e gpg_do_table ->
  is_Some (copy_do (S (S depth)) (Some e) with_tag s).
Proof.
  intros Hin.
  destruct (is_compound e) eqn:Hc; [|by apply copy_do_simple_total].
  pose proof table_components_simple as Hall.
  rewrite forallb_forall in Hall. specialize (Hall e Hin).
  destruct e as [t ty ar aw o]. unfold is_compound in Hc. simpl in Hc.
  unfold components_simple in Hall. simpl in Hall.
  remember (S depth) as d eqn:Hd.
  cbn [copy_do ac_read do_type_of obj tag].
  destruct (negb (ac_check_status ar s)); [by eexists|].
  destruct ty; try discriminate. destruct o; try by eexists.
  subst d.
  match goal with
  | |- context [copy_components ?f ?l ?s0] =>
      destruct (copy_components_total depth l s0 Hall) as [[r s1] ->]
  end.
  destruct (r <? 0); by eexists.
Qed.

(** [COPY_DO_DEPTH] is enough: GET DATA answers for every tag and state. *)
Lemma gpg_do_get_data_total tag0 s : is_Some (gpg_do_get_data tag0 s).
Proof.
  unfold gpg_do_get_data, COPY_DO_DEPTH.
  destruct (get_do_entry tag0) as [e|] eqn:He; [|by eexists].
  apply find_some in He as [Hin _].
  destruct (copy_do_total 0 e false (set_res_p [] s) Hin) as [[r s1] ->].
  destruct (r <? 0); by eexists.
Qed.

End GetDataTotal.

(** * GET DATA and PUT DATA on the variable data objects *)

Section VarObjects.
Context {C : Collaborators}.

Lemma var_entry e :
  In e gpg_do_table -> do_type_of e = DO_VAR -> exists nr, var_entry_of e nr.
Proof.
  intros Hin Hty. unfold gpg_do_table in Hin.
  repeat (destruct Hin as [<-|Hin];
          [first [discriminate Hty
                 | eexists; split; [reflexivity|];
                   repeat split; first [reflexivity | vm_compute; discriminate]]|]).
  destruct Hin.
Qed.

Lemma get_data_var e nr s :
  var_entry_of e nr ->
  res_APDU <$> gpg_do_get_data (tag e) s
  = Some (RES_DATA
            (match arr_get (do_ptr s) (nr - NR_DO__FIRST__) with
             | None => []
             | Some p => rd_bytes (data_pool s) (p + 1)
                           (Z.to_nat (rd (data_pool s) p))
             end ++ [0x90; 0x00])).
Proof.
  intros (_ & Hget & Hty & Har & _ & Hobj & _).
  unfold gpg_do_get_data. rewrite Hget. simpl. rewrite Har, Hty, Hobj. simpl.
  destruct (arr_get (do_ptr s) (nr - NR_DO__FIRST__)) as [p|]; simpl; [|done].
  unfold copy_do_1. simpl. rewrite Nat.add_0_r.
  rewrite <- app_assoc. done.
Qed.

Lemma put_data_var e nr data s :
  var_entry_of e nr ->
  auth_admin s = true ->
  gpg_do_put_data (tag e) data s =
  let i := nr - NR_DO__FIRST__ in
  let s :=
    match arr_get (do_ptr s) i with
    | Some do_data => flash_do_release do_data s
    | None => s
    end in
  if (length data =? 0)%nat then set_do_ptr (arr_set (do_ptr s) i None) s
  else if (255 <? length data)%nat
       then set_res_APDU (RES_SW GPG_MEMORY_FAILURE) s
       else
         let '(p, s) := flash_do_write nr data s in
         let s := set_do_ptr (arr_set (do_ptr s) i p) s in
         match p with
         | Some _ => set_res_APDU (RES_SW GPG_SUCCESS) s
         | None => set_res_APDU (RES_SW GPG_MEMORY_FAILURE) s
         end.
Proof.
  intros (Hnr & Hget & Hty & _ & Haw & Hobj & _) Hauth.
  unfold gpg_do_put_data.
  rewrite Hget, Hnr, Haw, Hty, Hobj. simpl. rewrite Hauth. simpl.
  done.
Qed.

Lemma flash_do_release_fields p s :
  do_ptr (flash_do_release p s) = do_ptr s
  /\ last_p (flash_do_release p s) = last_p s
  /\ length (data_pool (flash_do_release p s)) = length (data_pool s)
  /\ auth_admin (flash_do_release p s) = auth_admin s.
Proof.
  unfold flash_do_release, flash_put_data_internal. simpl.
  by rewrite length_flash_program.
Qed.

(** Claim C1, amended: for every data object of kind VAR and every payload
    [x] of at most 255 bytes, PUT DATA of [x] by the admin on a card with
    room for the cell, then GET DATA of the same tag, answers the bytes of
    [x] followed by the status word 90 00; neither the tag nor a length byte
    precedes them. *)
Theorem put_get_var_payload (e : do_table_entry) (x : list Z) (s : state) :
  In e gpg_do_table -> do_type_of e = DO_VAR ->
  (length x <= 255)%nat ->
  auth_admin s = true ->
  length (do_ptr s) = Z.to_nat NR_DO__LAST__ ->
  (x = [] \/ pool_has_room (2 + length x) s) ->
  res_APDU <$> gpg_do_get_data (tag e) (gpg_do_put_data (tag e) x s)
  = Some (RES_DATA (x ++ [0x90; 0x00])).
Proof.
  intros Hin Hty Hlen Hauth Hptrs Hroom.
  destruct (var_entry e Hin Hty) as (nr & He).
  rewrite (get_data_var e nr) by done.
  rewrite (put_data_var e nr) by done.
  destruct He as (_ & _ & _ & _ & _ & _ & Hrange).
  cbv zeta.
  set (s1 := match arr_get (do_ptr s) (nr - NR_DO__FIRST__) with
             | Some do_data => flash_do_release do_data s
             | None => s
             end).
  assert (Hs1 : do_ptr s1 = do_ptr s /\ last_p s1 = last_p s
                /\ length (data_pool s1) = length (data_pool s)).
  { unfold s1. destruct (arr_get _ _); [|done].
    pose proof (flash_do_release_fields n s). tauto. }
  destruct Hs1 as (Hp1 & Hl1 & Hm1).
  assert (Hidx : 0 <= nr - NR_DO__FIRST__
                 /\ (Z.to_nat (nr - NR_DO__FIRST__) < length (do_ptr s1))%nat).
  { rewrite Hp1, Hptrs. unfold NR_DO__FIRST__, NR_DO__LAST__. lia. }
  destruct (Nat.eqb_spec (length x) 0) as [Hx0|Hx0].
  - simpl. rewrite arr_get_set_None.
    apply length_zero_iff_nil in Hx0. by subst x.
  - destruct Hroom as [->|Hroom]; [done|].
    rewrite (proj2 (Nat.ltb_ge _ _)) by lia.
    rewrite flash_do_write_room
      by (unfold pool_has_room in *; rewrite Hl1, Hm1; done).
    simpl. rewrite arr_get_set_eq by tauto.
    assert (Hfit : (last_p s1 + length (do_cell nr x) <= length (data_pool s1))%nat).
    { rewrite length_do_cell, Hl1, Hm1. exact Hroom. }
    rewrite rd_do_cell_length by done.
    rewrite u8_small by lia. rewrite Nat2Z.id.
    rewrite rd_do_cell_data by done. done.
Qed.
End VarObjects.

(** The witness of C1: login data on an empty card. *)
Lemma put_get_var_payload_witness :
  res_APDU <$> gpg_do_get_data (C:=Stub.collaborators) GPG_DO_LOGIN_DATA card_login_alice
  = Some (RES_DATA (alice ++ [0x90; 0x00])).
Proof.
  apply (put_get_var_payload (C:=Stub.collaborators) entry_login_data alice
           (admin_card 64 3 [])).
  - unfold gpg_do_table. do 10 right. left. reflexivity.
  - reflexivity.
  - vm_compute. lia.
  - reflexivity.
  - reflexivity.
  - right. unfold pool_has_room. vm_compute. lia.
Defined.

(** Claim C1 as stated fails: the response to GET DATA of the login data
    "alice@example.test" is not [5E 12], the data and [90 00]. *)
Lemma put_get_login_data_no_header :
  res_APDU <$> gpg_do_get_data (C:=Stub.collaborators) GPG_DO_LOGIN_DATA card_login_alice
  <> Some (RES_DATA ([0x5e; 0x12] ++ alice ++ [0x90; 0x00])).
Proof. vm_compute. discriminate. Qed.

(** * The scan *)

Lemma rd_lookup_eq m m' j : m' !! j = m !! j -> rd m' j = rd m j.
Proof. unfold rd. by intros ->. Qed.

Ltac scan_cases H :=
  unfold scan_body in H;
  repeat match type of H with
         | context [Z.eqb ?a ?b] => destruct (Z.eqb_spec a b)
         | context [Z.ltb ?a ?b] => destruct (Z.ltb_spec a b)
         | context [Z.leb ?a ?b] => destruct (Z.leb_spec a b)
         | context [Z.geb ?a ?b] => destruct (Z.geb_spec a b)
         | context [Nat.odd ?a] => destruct (Nat.odd a)
         end;
  simpl in H; try discriminate H;
  injection H as H.

Lemma scan_body_progress m v v' :
  scan_body m v = Some v' -> (sv_p v < sv_p v')%nat.
Proof. intros H. scan_cases H; subst v'; simpl; lia. Qed.

Lemma scan_body_l10 m v v' :
  scan_body m v = Some v' ->
  (forall q, sv_dsc_l10_p v = Some q -> (q < sv_p v)%nat) ->
  (forall q, sv_dsc_l10_p v' = Some q -> (q < sv_p v')%nat).
Proof.
  intros H Hv q. scan_cases H; subst v'; simpl; intros Hq;
    try (apply Hv in Hq; lia); injection Hq as <-; lia.
Qed.

Ltac scan_tests :=
  repeat match goal with
         | |- context [Z.eqb ?a ?b] => destruct (Z.eqb_spec a b)
         | |- context [Z.ltb ?a ?b] => destruct (Z.ltb_spec a b)
         | |- context [Z.leb ?a ?b] => destruct (Z.leb_spec a b)
         | |- context [Z.geb ?a ?b] => destruct (Z.geb_spec a b)
         end.

(** A turn of the loop reads the byte at [p] and, unless it only steps over
    that byte, the next one: it is the same on a pool that differs only from
    where the turn ends. *)
Lemma scan_body_agree m m' v v' e :
  scan_body m v = Some v' -> (sv_p v' <= e)%nat ->
  (forall j, (j < e)%nat -> m' !! j = m !! j) ->
  scan_body m' v = Some v'.
Proof.
  intros H He Hm. pose proof (scan_body_progress _ _ _ H) as Hp.
  assert (H0 : rd m' (sv_p v) = rd m (sv_p v)) by (apply rd_lookup_eq, Hm; lia).
  destruct (decide (S (sv_p v) < e)%nat) as [Hlt|Hge].
  - assert (H1 : rd m' (S (sv_p v)) = rd m (S (sv_p v))) by (apply rd_lookup_eq, Hm; lia).
    unfold scan_body in *. rewrite H0, H1. exact H.
  - assert (Hv' : sv_p v' = S (sv_p v)) by lia.
    unfold scan_body in *. rewrite H0.
    clear H0 Hm Hp He Hge. revert H.
    generalize (rd m (sv_p v)) (rd m (S (sv_p v))) (rd m' (S (sv_p v))).
    intros nr b b'.
    scan_tests; simpl; try discriminate; try lia;
      intros Hbody; injection Hbody as Hbody; subst v'; simpl in Hv'; try lia;
      try destruct (Nat.odd _); try lia; try reflexivity.
Qed.

Lemma scan_loop_monotone fuel m v : (sv_p v <= sv_p (scan_loop fuel m v))%nat.
Proof.
  revert v. induction fuel as [|fuel IH]; intros v; simpl; [done|].
  destruct (scan_body m v) as [v1|] eqn:Hb; [|done].
  apply scan_body_progress in Hb. specialize (IH v1). lia.
Qed.

(** The scan of a pool that differs only from where the scan of [m] ends
    goes through the same turns up to there. *)
Lemma scan_loop_prefix fuel m m' v :
  (forall j, (j < sv_p (scan_loop fuel m v))%nat -> m' !! j = m !! j) ->
  exists n, (n + sv_p v <= sv_p (scan_loop fuel m v))%nat
            /\ forall k, scan_loop (n + k) m' v = scan_loop k m' (scan_loop fuel m v).
Proof.
  revert v. induction fuel as [|fuel IH]; intros v Hm; simpl in *.
  - exists 0%nat. split; [lia|done].
  - destruct (scan_body m v) as [v1|] eqn:Hb.
    + destruct (IH v1 Hm) as (n & Hn & Hk).
      exists (S n). split.
      * apply scan_body_progress in Hb. lia.
      * intros k. simpl.
        rewrite (scan_body_agree m m' v v1 _ Hb (scan_loop_monotone fuel m v1) Hm).
        apply Hk.
    + exists 0%nat. split; [lia|done].
Qed.

(** With the length of the pool as fuel the loop is left at an empty byte. *)
Lemma scan_loop_stops fuel m v :
  (length m < sv_p v + fuel)%nat -> scan_body m (scan_loop fuel m v) = None.
Proof.
  revert v. induction fuel as [|fuel IH]; intros v Hlen; simpl.
  - unfold scan_body, rd. rewrite (proj2 (lookup_ge_None m (sv_p v))) by lia.
    done.
  - destruct (scan_body m v) as [v1|] eqn:Hb; [|done].
    apply IH. apply scan_body_progress in Hb. lia.
Qed.

Lemma scan_loop_l10 fuel m v :
  (forall q, sv_dsc_l10_p v = Some q -> (q < sv_p v)%nat) ->
  (forall q, sv_dsc_l10_p (scan_loop fuel m v) = Some q ->
     (q < sv_p (scan_loop fuel m v))%nat).
Proof.
  revert v. induction fuel as [|fuel IH]; intros v Hv; simpl; [done|].
  destruct (scan_body m v) as [v1|] eqn:Hb; [|done].
  apply IH. by apply (scan_body_l10 m v).
Qed.

Lemma scan_body_h14 m v :
  0x80 <= rd m (sv_p v) <= 0xbf ->
  scan_body m v
  = Some (mkScan (S (S (sv_p v))) (Some (sv_p v)) (sv_dsc_l10_p v)
            (sv_pw1_lifetime_p v) (sv_pw_err_counter_p v) (sv_do_ptr v)).
Proof.
  intros Hb. unfold scan_body. revert Hb.
  generalize (rd m (sv_p v)) (rd m (S (sv_p v))). intros b0 b1 Hb.
  unfold NR_EMPTY, NR_BOOL_PW1_LIFETIME, NR_COUNTER_123.
  scan_tests; simpl; try lia; by rewrite Nat.sub_0_r.
Qed.

(** * The torn carry of the signature counter *)


Lemma forall_from_spec f n i k :
  forall_from f n i = true -> i <= k < i + Z.of_nat n -> f k = true.
Proof.
  revert i. induction n as [|n IH]; intros i Hall Hk; [lia|].
  simpl in Hall. apply andb_prop in Hall as [Hi Hall].
  destruct (decide (k = i)) as [->|Hne]; [done|].
  apply (IH (i + 1)); [done|lia].
Qed.

(** The half-word of the upper 14 bits, as the scan reads it back; checked
    on each of the 2^14 values. *)
Lemma dsc_h14_cell dsc :
  0 <= dsc < 2 ^ 24 -> Z.land dsc 0x03ff = 0 ->
  0x80 <= u8 (dsc_hw_h14 dsc) <= 0xbf
  /\ u32 (Z.lor (Z.shiftl (Z.lor (Z.shiftl (u8 (dsc_hw_h14 dsc) - 0x80) 8)
                             (u8 (Z.shiftr (dsc_hw_h14 dsc) 8))) 10) 0) = dsc.
Proof.
  intros Hrange Hlow.
  assert (Hall : forall_from
            (fun h =>
               let d := 1024 * h in
               let hw0 := dsc_hw_h14 d in
               (0x80 <=? u8 hw0) && (u8 hw0 <=? 0xbf)
               && (u32 (Z.lor (Z.shiftl (Z.lor (Z.shiftl (u8 hw0 - 0x80) 8)
                                           (u8 (Z.shiftr hw0 8))) 10) 0)
                   =? d))
            (Z.to_nat 16384) 0 = true) by (vm_compute; reflexivity).
  change 0x03ff with (Z.ones 10) in Hlow. rewrite Z.land_ones in Hlow by lia.
  change (2 ^ 10) with 1024 in Hlow.
  assert (Hd : dsc = 1024 * (dsc / 1024)) by (pose proof (Z.div_mod dsc 1024); lia).
  apply (forall_from_spec _ _ _ (dsc / 1024)) in Hall.
  - cbv beta zeta in Hall. rewrite <- Hd in Hall.
    apply andb_prop in Hall as [Hin H3]. apply andb_prop in Hin as [H1 H2].
    apply Z.leb_le in H1, H2. apply Z.eqb_eq in H3. done.
  - split; [apply Z.div_pos; lia|].
    assert (dsc / 1024 < 16384) by (apply Z.div_lt_upper_bound; lia). lia.
Qed.

Lemma gpg_data_scan_dsc p_start s :
  digital_signature_counter (gpg_data_scan p_start s)
  = scan_dsc (data_pool s)
      (sv_dsc_h14_p (scan_loop (S (length (data_pool s))) (data_pool s)
                       (scan_start p_start s)))
      (sv_dsc_l10_p (scan_loop (S (length (data_pool s))) (data_pool s)
                       (scan_start p_start s))).
Proof. reflexivity. Qed.

(** Claim C2: when the low ten bits of the signature counter carry, the
    increment writes the cell of the upper 14 bits before the cell of the
    lower 10 bits; if power is lost between the two writes, the next scan
    finds the old cell of the lower bits before the new cell of the upper
    bits, takes the lower bits as zero, and rebuilds the value the completed
    increment would have stored (the count plus one, modulo 2^24), which is
    above the count before the increment. *)
Theorem dsc_torn_carry_over_counts (s : state) :
  let c := digital_signature_counter s in
  let dsc := Z.land (c + 1) 0x00ffffff in
  Z.land dsc 0x03ff = 0 ->
  scan_end 0 s = last_p s ->
  (last_p s + 2 <= length (data_pool s))%nat ->
  rd (data_pool s) (last_p s + 2) = NR_EMPTY ->
  gpg_increment_digital_signature_counter s
  = set_digital_signature_counter dsc
      (flash_put_data NR_COUNTER_DS_LSB (dsc_increment_torn s))
  /\ digital_signature_counter (gpg_data_scan 0 (dsc_increment_torn s)) = dsc
  /\ dsc = (c + 1) mod 2 ^ 24
  /\ (0 <= c -> c + 1 < 2 ^ 24 ->
      c < digital_signature_counter (gpg_data_scan 0 (dsc_increment_torn s))).
Proof.
  intros c dsc Hcarry Htail Hroom Herased.
  assert (Hdsc : dsc = (c + 1) mod 2 ^ 24) by apply land_ffffff.
  assert (Hrange : 0 <= dsc < 2 ^ 24) by (rewrite Hdsc; apply Z.mod_pos_bound; lia).
  destruct (dsc_h14_cell dsc Hrange Hcarry) as (Hb0 & Hval).
  set (m := data_pool s) in *. set (e := last_p s) in *.
  set (m' := flash_put_data_internal m e (dsc_hw_h14 dsc)).
  assert (Htorn : dsc_increment_torn s
                  = set_data_pool m' (set_last_p (e + 2) s)).
  { unfold dsc_increment_torn, flash_put_data, flash_data_pool_allocate.
    simpl. fold e m. rewrite (proj2 (Nat.leb_le _ _)) by done. done. }
  assert (Hscan : digital_signature_counter (gpg_data_scan 0 (dsc_increment_torn s)) = dsc).
  { rewrite Htorn, gpg_data_scan_dsc.
    change (data_pool (set_data_pool m' (set_last_p (e + 2) s))) with m'.
    change (scan_start 0 (set_data_pool m' (set_last_p (e + 2) s)))
      with (scan_start 0 s).
    assert (Hlen : length m' = length m) by apply length_flash_program.
    assert (Hagree : forall j, (j < e)%nat -> m' !! j = m !! j).
    { intros j Hj. unfold m', flash_put_data_internal.
      rewrite flash_program_lookup. rewrite decide_False by lia. done. }
    unfold scan_end in Htail. fold m in Htail.
    set (w := scan_loop (S (length m)) m (scan_start 0 s)) in *.
    destruct (scan_loop_prefix (S (length m)) m m' (scan_start 0 s))
      as (n & Hn & Hk).
    { fold w. rewrite Htail. exact Hagree. }
    fold w in Hn, Hk. rewrite Htail in Hn. simpl in Hn.
    rewrite Hlen.
    replace (S (length m)) with (n + S (S (length m - n - 1)))%nat by lia.
    rewrite Hk.
    assert (Hl10 : forall q, sv_dsc_l10_p w = Some q -> (q < e)%nat).
    { intros q Hq. rewrite <- Htail.
      apply (scan_loop_l10 (S (length m)) m (scan_start 0 s)); [|exact Hq].
      intros q' Hq'. discriminate Hq'. }
    assert (Hr0 : rd m' e = u8 (dsc_hw_h14 dsc)).
    { unfold m', flash_put_data_internal. replace e with (e + 0)%nat at 2 by lia.
      apply rd_flash_program_in; [simpl; lia|done]. }
    assert (Hr1 : rd m' (S e) = u8 (Z.shiftr (dsc_hw_h14 dsc) 8)).
    { unfold m', flash_put_data_internal. replace (S e) with (e + 1)%nat by lia.
      apply rd_flash_program_in; [simpl; lia|done]. }
    assert (Hr2 : rd m' (S (S e)) = NR_EMPTY).
    { unfold m', flash_put_data_internal.
      rewrite rd_flash_program_out by (simpl; lia).
      replace (S (S e)) with (e + 2)%nat by lia. done. }
    assert (Hstep : scan_body m' w
                    = Some (mkScan (S (S e)) (Some e) (sv_dsc_l10_p w)
                              (sv_pw1_lifetime_p w) (sv_pw_err_counter_p w)
                              (sv_do_ptr w))).
    { rewrite scan_body_h14; rewrite Htail; [done|]. by rewrite Hr0. }
    simpl scan_loop. rewrite Hstep.
    assert (Hstop : scan_body m' (mkScan (S (S e)) (Some e) (sv_dsc_l10_p w)
                              (sv_pw1_lifetime_p w) (sv_pw_err_counter_p w)
                              (sv_do_ptr w)) = None).
    { unfold scan_body. simpl. by rewrite Hr2. }
    rewrite Hstop. simpl.
    unfold scan_dsc. rewrite Hr0, Hr1.
    destruct (sv_dsc_l10_p w) as [q|] eqn:Hq.
    - rewrite (proj2 (Nat.ltb_lt q e)) by (by apply Hl10). exact Hval.
    - exact Hval. }
  split; [|split; [done|split; [done|]]].
  - unfold gpg_increment_digital_signature_counter. fold c dsc.
    rewrite Hcarry. reflexivity.
  - intros Hc0 Hc. rewrite Hscan, Hdsc, Z.mod_small; lia.
Qed.

(** The witness of C2: the 1024th signature, torn. *)
Lemma dsc_torn_carry_witness :
  digital_signature_counter
    (gpg_data_scan 0 (dsc_increment_torn card_1023_signatures)) = 1024.
Proof.
  refine (proj1 (proj2 (dsc_torn_carry_over_counts card_1023_signatures _ _ _ _))).
  - vm_compute. reflexivity.
  - vm_compute. reflexivity.
  - vm_compute. lia.
  - vm_compute. reflexivity.
Defined.

(** * The key envelope *)

Lemma pool_wf_spec s :
  pool_wf s ->
  length (do_ptr s) = Z.to_nat NR_DO__LAST__
  /\ (forall i q, arr_get (do_ptr s) i = Some q -> (1 <= q < last_p s)%nat)
  /\ Z.of_nat (length (keystore s) * KEY_SLOT_SIZE) <= 2 ^ 32.
Proof.
  unfold pool_wf, pool_wfb. intros H.
  apply andb_prop in H as [H Hslots]. apply andb_prop in H as [Hlen Hall].
  apply Nat.eqb_eq in Hlen. apply Z.leb_le in Hslots.
  split; [done|split; [|done]].
  intros i q Hq. unfold arr_get in Hq.
  destruct (i <? 0); [done|].
  destruct (do_ptr s !! Z.to_nat i) as [p|] eqn:Hp; [|done].
  simpl in Hq. subst p.
  rewrite forallb_forall in Hall.
  apply (list_elem_of_lookup_2 (do_ptr s)) in Hp.
  apply list_elem_of_In, Hall in Hp.
  apply andb_prop in Hp as [H1 H2].
  apply Nat.leb_le in H1. apply Nat.ltb_lt in H2. lia.
Qed.

Lemma write_simple_frame nr data s a n :
  (forall q, arr_get (do_ptr s) (nr - NR_DO__FIRST__) = Some q -> (1 <= q < a)%nat) ->
  (a + n <= last_p s)%nat ->
  let s' := gpg_do_write_simple nr data s in
  rd_bytes (data_pool s') a n = rd_bytes (data_pool s) a n
  /\ keystore s' = keystore s
  /\ (last_p s <= last_p s')%nat
  /\ (forall j, j <> nr - NR_DO__FIRST__ ->
        arr_get (do_ptr s') j = arr_get (do_ptr s) j).
Proof.
  intros Hq Htail s'. unfold s', gpg_do_write_simple.
  set (s1 := match arr_get (do_ptr s) (nr - NR_DO__FIRST__) with
             | Some p => flash_do_release p s
             | None => s
             end).
  assert (Hs1 : rd_bytes (data_pool s1) a n = rd_bytes (data_pool s) a n
                /\ keystore s1 = keystore s /\ last_p s1 = last_p s
                /\ do_ptr s1 = do_ptr s).
  { unfold s1. destruct (arr_get (do_ptr s) _) as [q|]; [|done].
    specialize (Hq q eq_refl). unfold flash_do_release, flash_put_data_internal.
    simpl. split; [|done]. apply rd_bytes_flash_program_out. simpl. lia. }
  destruct Hs1 as (Hm1 & Hk1 & Hl1 & Hp1).
  destruct data as [data|].
  - unfold flash_do_write, flash_data_pool_allocate.
    destruct (_ <=? _)%nat; simpl.
    + rewrite Hk1, Hl1, Hp1. split; [|split; [done|split; [lia|]]].
      * unfold flash_do_write_internal.
        rewrite rd_bytes_flash_program_out by lia. done.
      * intros j Hj. by apply arr_get_set_ne.
    + rewrite Hk1, Hl1, Hp1. split; [done|split; [done|split; [lia|]]].
      intros j Hj. by apply arr_get_set_ne.
  - simpl. rewrite Hk1, Hl1, Hp1. split; [done|split; [done|split; [lia|]]].
    intros j Hj. by apply arr_get_set_ne.
Qed.

Lemma key_read_frame s s' key_addr n :
  keystore s' = keystore s -> key_read s' key_addr n = key_read s key_addr n.
Proof. intros H. unfold key_read. by rewrite H. Qed.

Lemma sealed_write_simple nr' data s nr t pd key_addr kd_enc :
  nr' <> nr ->
  (forall q, arr_get (do_ptr s) (nr' - NR_DO__FIRST__) = Some q -> (1 <= q < t)%nat) ->
  sealed s nr t pd key_addr kd_enc ->
  sealed (gpg_do_write_simple nr' data s) nr t pd key_addr kd_enc.
Proof.
  intros Hne Hq (Hptr & Hcell & Htail & Hkey).
  destruct (write_simple_frame nr' data s t (length (do_cell nr pd)) Hq Htail)
    as (Hm & Hk & Hl & Hp).
  split; [|split; [|split]].
  - rewrite Hp by lia. done.
  - unfold cell_at in *. by rewrite Hm.
  - lia.
  - by rewrite (key_read_frame s).
Qed.

Section Envelope.
Context {C : Collaborators} {Hok : CollaboratorsOk C}.

Lemma decrypt_encrypt key_str data : decrypt key_str (encrypt key_str data) = data.
Proof. apply aes_decrypt_encrypt. Qed.

Lemma length_encrypt key_str data : length (encrypt key_str data) = length data.
Proof. apply aes_encrypt_length. Qed.

Lemma length_decrypt key_str data : length (decrypt key_str data) = length data.
Proof. apply aes_decrypt_length. Qed.

(** Unsealing a sealed key with the keystring that wraps its DEK in the
    third copy. *)
Lemma load_sealed kk t pd key_addr kd_enc dek kd0 keystring s :
  sealed s (get_do_ptr_nr_for_kk kk) t pd key_addr kd_enc ->
  length pd = SIZEOF_PRVKEY_DATA ->
  buf_read pd PD_KEY_ADDR 4 = le32_bytes (Z.of_nat key_addr) ->
  Z.of_nat key_addr < 2 ^ 32 ->
  buf_read pd PD_CRM_ENCRYPTED ADDITIONAL_DATA_SIZE
  = buf_read kd_enc KD_CHECK ADDITIONAL_DATA_SIZE ->
  buf_read pd PD_DEK_ENCRYPTED_3 DATA_ENCRYPTION_KEY_SIZE = encrypt keystring dek ->
  kd_enc = encrypt dek kd0 ->
  length kd0 = SIZEOF_KEY_DATA ->
  buf_read kd0 KD_MAGIC KEY_MAGIC_LEN = resize KEY_MAGIC_LEN 0 GNUK_MAGIC ->
  gpg_do_load_prvkey kk BY_ADMIN keystring s = (1, set_kd kd0 s).
Proof.
  intros (Hptr & Hcell & Htail & Hkey) Hlen Haddr Hlt Hcrm Hdek Henc Hkd0 Hmagic.
  unfold gpg_do_load_prvkey. rewrite Hptr.
  set (nr := get_do_ptr_nr_for_kk kk) in *.
  assert (Hcl : length (do_cell nr pd) = 70%nat).
  { rewrite length_do_cell, Hlen. reflexivity. }
  assert (Hsub : forall off k, (off + k <= SIZEOF_PRVKEY_DATA)%nat ->
            rd_bytes (data_pool s) (S t + 1 + off) k = buf_read pd off k).
  { intros off k Hk. unfold rd_bytes.
    replace (S t + 1 + off)%nat with (t + (2 + off))%nat by lia.
    rewrite (read_bytes_sub _ _ t 70) by (unfold SIZEOF_PRVKEY_DATA in Hk; lia).
    unfold cell_at, rd_bytes in Hcell. rewrite Hcl in Hcell. rewrite Hcell.
    unfold do_cell. simpl drop.
    unfold buf_read. rewrite read_bytes_in_range by lia.
    rewrite drop_app_le by lia. rewrite take_app_le; [done|].
    rewrite length_drop. lia. }
  pose proof (Hsub 0%nat 4%nat) as H0. rewrite Nat.add_0_r in H0.
  rewrite H0 by (unfold SIZEOF_PRVKEY_DATA; lia).
  replace (S t + 5)%nat with (S t + 1 + 4)%nat by lia.
  rewrite (Hsub 4%nat ADDITIONAL_DATA_SIZE) by (unfold SIZEOF_PRVKEY_DATA, ADDITIONAL_DATA_SIZE; lia).
  replace (Z.to_nat (Z.of_nat (S t) + 5 + 16 * BY_ADMIN)) with (S t + 1 + 52)%nat
    by (unfold BY_ADMIN; lia).
  rewrite (Hsub 52%nat DATA_ENCRYPTION_KEY_SIZE)
    by (unfold SIZEOF_PRVKEY_DATA, DATA_ENCRYPTION_KEY_SIZE; lia).
  unfold PD_KEY_ADDR, PD_CRM_ENCRYPTED, PD_DEK_ENCRYPTED_3 in Haddr, Hcrm, Hdek.
  rewrite Haddr, le32_value_bytes by lia. rewrite Nat2Z.id.
  rewrite Hkey, Hcrm, Hdek, decrypt_encrypt.
  assert (Hke : length kd_enc = SIZEOF_KEY_DATA) by (by rewrite Henc, length_encrypt).
  assert (Hwhole : take KEY_CONTENT_LEN kd_enc
                     ++ buf_read kd_enc KD_CHECK ADDITIONAL_DATA_SIZE = kd_enc).
  { unfold buf_read. rewrite read_bytes_in_range by (rewrite Hke; done).
    rewrite (take_ge (drop _ _)) by (rewrite length_drop, Hke; done).
    apply take_drop. }
  rewrite Hwhole, Henc, decrypt_encrypt. simpl kd.
  rewrite Hmagic, memcmp_eq_refl. done.
Qed.

Lemma write_simple_null_frame nr s :
  let s' := gpg_do_write_simple nr None s in
  last_p s' = last_p s
  /\ length (data_pool s') = length (data_pool s)
  /\ keystore s' = keystore s
  /\ length (do_ptr s') = length (do_ptr s)
  /\ kd s' = kd s
  /\ num_prv_keys s' = num_prv_keys s.
Proof.
  unfold gpg_do_write_simple.
  destruct (arr_get (do_ptr s) (nr - NR_DO__FIRST__)); simpl;
    unfold flash_put_data_internal;
    rewrite ?length_flash_program, ?length_arr_set; done.
Qed.

#[local] Arguments gpg_do_write_simple : simpl never.
#[local] Arguments flash_do_release : simpl never.
#[local] Arguments flash_key_release : simpl never.

Lemma write_prvkey_dek_spec do_data s pd dek ks_pw1 ks_rc s1 :
  write_prvkey_dek do_data s = (pd, dek, ks_pw1, ks_rc, s1) ->
  length pd = SIZEOF_PRVKEY_DATA
  /\ buf_read pd PD_DEK_ENCRYPTED_3 DATA_ENCRYPTION_KEY_SIZE = dek
  /\ kd s1 = kd s
  /\ last_p s1 = last_p s
  /\ length (data_pool s1) = length (data_pool s)
  /\ length (keystore s1) = length (keystore s)
  /\ length (do_ptr s1) = length (do_ptr s)
  /\ num_prv_keys s1 = num_prv_keys s
  /\ (do_data = None -> do_ptr s1 = do_ptr s).
Proof.
  intros H. unfold write_prvkey_dek in H.
  destruct do_data as [do_data|].
  - injection H as <- <- <- <- <-.
    set (pd0 := rd_bytes (data_pool s) (do_data + 1) SIZEOF_PRVKEY_DATA).
    set (d := decrypt (keystring_md_pw3 s)
                (buf_read pd0 PD_DEK_ENCRYPTED_3 DATA_ENCRYPTION_KEY_SIZE)).
    assert (Hd : length d = DATA_ENCRYPTION_KEY_SIZE).
    { unfold d. by rewrite length_decrypt, buf_read_length. }
    assert (Hpd0 : length pd0 = SIZEOF_PRVKEY_DATA) by apply rd_bytes_length.
    split; [|split].
    + by rewrite !length_buf_write.
    + rewrite !buf_read_write_out
        by (rewrite ?buf_read_length, ?length_replicate; vm_compute; lia).
      done.
    + set (s2 := gpg_do_write_simple NR_DO_KEYSTRING_PW1 None s).
      set (s3 := gpg_do_write_simple NR_DO_KEYSTRING_RC None s2).
      destruct (write_simple_null_frame NR_DO_KEYSTRING_PW1 s)
        as (Ha1 & Ha2 & Ha3 & Ha4 & Ha5 & Ha6).
      destruct (write_simple_null_frame NR_DO_KEYSTRING_RC s2)
        as (Hb1 & Hb2 & Hb3 & Hb4 & Hb5 & Hb6).
      fold s2 in Ha1, Ha2, Ha3, Ha4, Ha5, Ha6.
      fold s3 in Hb1, Hb2, Hb3, Hb4, Hb5, Hb6.
      clearbody s2 s3.
      unfold flash_do_release, flash_key_release, flash_put_data_internal.
      destruct (key_slot_of _); simpl;
        rewrite ?length_flash_program, ?length_insert;
        repeat split; try congruence; done.
  - unfold random_bytes_get, random_take in H.
    injection H as <- <- <- <- <-.
    set (dek := resize DATA_ENCRYPTION_KEY_SIZE 0 (random_bytes s)).
    assert (Hd : length dek = DATA_ENCRYPTION_KEY_SIZE) by apply length_resize.
    split; [|split].
    + rewrite !length_buf_write. reflexivity.
    + rewrite <- Hd at 1. apply buf_read_write.
      rewrite !length_buf_write, Hd. vm_compute. lia.
    + repeat split; done.
Qed.

Lemma write_prvkey_record_spec pd dek key_addr ks_pw1 ks_rc keystring s :
  length pd = SIZEOF_PRVKEY_DATA ->
  buf_read pd PD_DEK_ENCRYPTED_3 DATA_ENCRYPTION_KEY_SIZE = dek ->
  let pd' := write_prvkey_record pd key_addr ks_pw1 ks_rc keystring s in
  length pd' = SIZEOF_PRVKEY_DATA
  /\ buf_read pd' PD_KEY_ADDR 4 = le32_bytes (Z.of_nat key_addr)
  /\ buf_read pd' PD_CRM_ENCRYPTED ADDITIONAL_DATA_SIZE
     = buf_read (kd s) KD_CHECK ADDITIONAL_DATA_SIZE
  /\ buf_read pd' PD_DEK_ENCRYPTED_3 DATA_ENCRYPTION_KEY_SIZE
     = encrypt keystring dek.
Proof.
  intros Hlen Hdek pd'. unfold pd', write_prvkey_record.
  set (pd1 := buf_write pd PD_KEY_ADDR (le32_bytes (Z.of_nat key_addr))).
  set (pd2 := buf_write pd1 PD_CRM_ENCRYPTED
                (buf_read (kd s) KD_CHECK ADDITIONAL_DATA_SIZE)).
  set (pd3 := match ks_pw1 with
              | Some k => buf_write pd2 PD_DEK_ENCRYPTED_1 _
              | None => buf_write pd2 PD_DEK_ENCRYPTED_1 _
              end).
  set (pd4 := match ks_rc with
              | Some k => buf_write pd3 PD_DEK_ENCRYPTED_2 _
              | None => buf_write pd3 PD_DEK_ENCRYPTED_2 _
              end).
  assert (H1 : length pd1 = SIZEOF_PRVKEY_DATA) by (unfold pd1; by rewrite length_buf_write).
  assert (H2 : length pd2 = SIZEOF_PRVKEY_DATA) by (unfold pd2; by rewrite length_buf_write).
  assert (H3 : length pd3 = SIZEOF_PRVKEY_DATA)
    by (unfold pd3; destruct ks_pw1; by rewrite length_buf_write).
  assert (H4 : length pd4 = SIZEOF_PRVKEY_DATA)
    by (unfold pd4; destruct ks_rc; by rewrite length_buf_write).
  assert (R3 : forall off n, (off + n <= PD_DEK_ENCRYPTED_1 \/ PD_DEK_ENCRYPTED_2 <= off)%nat ->
                 buf_read pd3 off n = buf_read pd2 off n).
  { intros off n Ho. unfold pd3. destruct ks_pw1;
      (rewrite buf_read_write_out; [done|]);
      rewrite length_encrypt, buf_read_length;
      unfold PD_DEK_ENCRYPTED_1, PD_DEK_ENCRYPTED_2, DATA_ENCRYPTION_KEY_SIZE in *; lia. }
  assert (R4 : forall off n, (off + n <= PD_DEK_ENCRYPTED_2 \/ PD_DEK_ENCRYPTED_3 <= off)%nat ->
                 buf_read pd4 off n = buf_read pd3 off n).
  { intros off n Ho. unfold pd4. destruct ks_rc;
      (rewrite buf_read_write_out; [done|]);
      rewrite ?length_encrypt, ?buf_read_length, ?length_replicate;
      unfold PD_DEK_ENCRYPTED_2, PD_DEK_ENCRYPTED_3, DATA_ENCRYPTION_KEY_SIZE in *; lia. }
  assert (Hd4 : buf_read pd4 PD_DEK_ENCRYPTED_3 DATA_ENCRYPTION_KEY_SIZE = dek).
  { rewrite R4, R3 by (vm_compute; lia).
    unfold pd2, pd1. rewrite !buf_read_write_out; [done| |];
      rewrite ?buf_read_length, ?length_le32_bytes; vm_compute; lia. }
  rewrite Hd4.
  assert (He : length (encrypt keystring dek) = DATA_ENCRYPTION_KEY_SIZE).
  { rewrite length_encrypt, <- Hd4. apply buf_read_length. }
  split; [by rewrite length_buf_write|split; [|split]].
  - rewrite buf_read_write_out by (rewrite He; vm_compute; lia).
    rewrite R4, R3 by (vm_compute; lia).
    unfold pd2. rewrite buf_read_write_out
      by (rewrite buf_read_length; vm_compute; lia).
    unfold pd1. apply (buf_read_write pd PD_KEY_ADDR (le32_bytes _)).
    rewrite Hlen. vm_compute. lia.
  - rewrite buf_read_write_out by (rewrite He; vm_compute; lia).
    rewrite R4, R3 by (vm_compute; lia).
    unfold pd2.
    rewrite <- (buf_read_length (kd s) KD_CHECK ADDITIONAL_DATA_SIZE) at 1.
    apply buf_read_write. rewrite buf_read_length, H1. vm_compute. lia.
  - rewrite <- He at 1. apply buf_read_write. rewrite He, H4. vm_compute. lia.
Qed.

Lemma kd_plain_spec key_data check random :
  length key_data = KEY_CONTENT_LEN ->
  let kd0 := resize KEY_CONTENT_LEN 0 key_data ++ le32_bytes check
             ++ le32_bytes random ++ resize KEY_MAGIC_LEN 0 GNUK_MAGIC in
  length kd0 = SIZEOF_KEY_DATA
  /\ take KEY_CONTENT_LEN kd0 = key_data
  /\ buf_read kd0 KD_MAGIC KEY_MAGIC_LEN = resize KEY_MAGIC_LEN 0 GNUK_MAGIC.
Proof.
  intros Hlen kd0. unfold kd0.
  rewrite (resize_all_alt key_data) by done.
  split; [|split].
  - rewrite !length_app, length_resize, Hlen. reflexivity.
  - by apply take_app_length'.
  - unfold buf_read. rewrite read_bytes_in_range
      by (rewrite !length_app, length_resize, Hlen; vm_compute; lia).
    rewrite !app_assoc.
    rewrite drop_app_length'
      by (rewrite !length_app, Hlen; reflexivity).
    apply take_ge. by rewrite length_resize.
Qed.

Lemma flash_key_write_ok key_addr key_data modulus s r s' :
  flash_key_write key_addr key_data modulus s = (r, s') -> 0 <= r ->
  r = 0
  /\ s' = set_keystore
            (<[(key_addr / KEY_SLOT_SIZE)%nat :=
                 Some (resize KEY_CONTENT_LEN 0 key_data ++ modulus)]> (keystore s)) s
  /\ key_slot_of key_addr = Some (key_addr / KEY_SLOT_SIZE)%nat
  /\ (key_addr / KEY_SLOT_SIZE < length (keystore s))%nat
  /\ (key_addr < length (keystore s) * KEY_SLOT_SIZE)%nat.
Proof.
  unfold flash_key_write, key_slot_of. intros H Hr.
  destruct (Nat.eqb_spec (key_addr mod KEY_SLOT_SIZE) 0) as [Hmod|];
    [|injection H as <- <-; lia].
  destruct (Nat.ltb_spec (key_addr / KEY_SLOT_SIZE) (length (keystore s)));
    [|injection H as <- <-; lia].
  injection H as <- <-. repeat split; try done.
  pose proof (Nat.div_mod_eq key_addr KEY_SLOT_SIZE) as Hdm.
  rewrite Hmod in Hdm. unfold KEY_SLOT_SIZE in *. lia.
Qed.

Lemma key_read_written s i key_addr kd_enc modulus :
  key_slot_of key_addr = Some i ->
  keystore s !! i = Some (Some (resize KEY_CONTENT_LEN 0 kd_enc ++ modulus)) ->
  (KEY_CONTENT_LEN <= length kd_enc)%nat ->
  key_read s key_addr KEY_CONTENT_LEN = take KEY_CONTENT_LEN kd_enc.
Proof.
  intros Hslot Hlook Hlen. unfold key_read. rewrite Hslot, Hlook. simpl.
  rewrite resize_le by (rewrite length_app, length_resize; lia).
  rewrite take_app_le by (by rewrite length_resize).
  rewrite take_resize_eq. by apply resize_le.
Qed.

Lemma sealed_trim_keystrings ks_pw1 ks_rc s nr t pd key_addr kd_enc :
  NR_DO_KEYSTRING_PW1 <> nr -> NR_DO_KEYSTRING_RC <> nr ->
  (forall q, arr_get (do_ptr s) (NR_DO_KEYSTRING_PW1 - NR_DO__FIRST__) = Some q ->
     (1 <= q < t)%nat) ->
  (forall q, arr_get (do_ptr s) (NR_DO_KEYSTRING_RC - NR_DO__FIRST__) = Some q ->
     (1 <= q < t)%nat) ->
  sealed s nr t pd key_addr kd_enc ->
  sealed (write_prvkey_trim_keystrings ks_pw1 ks_rc s) nr t pd key_addr kd_enc.
Proof.
  intros Hne1 Hne2 Hq1 Hq2 Hsealed. unfold write_prvkey_trim_keystrings.
  set (s1 := match ks_pw1 with
             | Some k => gpg_do_write_simple NR_DO_KEYSTRING_PW1 _ s
             | None => s
             end).
  assert (H1 : sealed s1 nr t pd key_addr kd_enc
               /\ forall q, arr_get (do_ptr s1) (NR_DO_KEYSTRING_RC - NR_DO__FIRST__) = Some q ->
                    (1 <= q < t)%nat).
  { unfold s1. destruct ks_pw1 as [k|]; [|done]. split.
    - by apply sealed_write_simple.
    - intros q Hq. apply Hq2. rewrite <- Hq. symmetry.
      destruct Hsealed as (_ & _ & Htail & _).
      apply (write_simple_frame NR_DO_KEYSTRING_PW1 _ s t (length (do_cell nr pd)));
        [done|done|discriminate]. }
  destruct H1 as [Hs1 Hq2']. clearbody s1.
  destruct ks_rc as [k|]; [|done].
  by apply sealed_write_simple.
Qed.

Lemma load_prvkey_result kk who keystring s :
  load_prvkey_returns kk who keystring s.
Proof.
  unfold load_prvkey_returns, gpg_do_load_prvkey.
  destruct (arr_get (do_ptr s) (get_do_ptr_nr_for_kk kk - NR_DO__FIRST__))
    as [do_data|]; [|done].
  rewrite (resize_all_alt GNUK_MAGIC) by (symmetry; apply GNUK_MAGIC_length).
  cbv zeta. cbn [kd set_kd].
  match goal with
  | |- context [memcmp_eq ?a ?b] => destruct (memcmp_eq a b) eqn:Hcmp
  end; cbn [negb fst snd kd set_kd].
  - left. split; [done|]. by apply memcmp_eq_true.
  - right. split; [done|]. intros Heq. rewrite Heq, memcmp_eq_refl in Hcmp.
    discriminate.
Qed.

(** Claim C3, amended: for every key role and every 128-byte key, when
    [gpg_do_write_prvkey] seals the key under an admin keystring (and returns
    0), [gpg_do_load_prvkey] with that keystring and [who = 3] (the roles
    are numbered 1 = PW1, 2 = RC, 3 = PW3) returns 1, recovers the key data
    and finds the magic; and [gpg_do_load_prvkey] returns 0 when there is no
    key for the role, else 1 with the magic in place or -1 with a mismatch. *)
Theorem seal_then_unseal_by_admin (kk : kind_of_key) (key_data keystring : list Z)
    (s s' : state) :
  length key_data = KEY_CONTENT_LEN ->
  pool_wf s ->
  gpg_do_write_prvkey kk key_data keystring s = (0, s') ->
  (exists s'',
     gpg_do_load_prvkey kk BY_ADMIN keystring s' = (1, s'')
     /\ take KEY_CONTENT_LEN (kd s'') = key_data
     /\ buf_read (kd s'') KD_MAGIC KEY_MAGIC_LEN = GNUK_MAGIC)
  /\ (forall who ks s0, load_prvkey_returns kk who ks s0).
Proof.
  intros Hlen Hwfb H. apply pool_wf_spec in Hwfb as (Hptrs & Hwf & Hslots).
  split; [|intros who ks s0; apply load_prvkey_result].
  unfold gpg_do_write_prvkey in H.
  set (nr := get_do_ptr_nr_for_kk kk) in *.
  assert (Hnr : 15 <= nr <= 17) by (unfold nr; destruct kk; vm_compute; split; discriminate).
  destruct (negb (heap_avail s)); [discriminate|].
  destruct (modulus_calc key_data) as [modulus|]; [|discriminate].
  destruct (flash_key_alloc s) as [key_addr|]; [|discriminate].
  unfold get_random, random_take in H. cbv beta iota zeta in H.
  set (random := le32_value (resize 4 0 (random_bytes s))) in H.
  set (s0 := set_random_bytes (drop 4 (random_bytes s)) s) in H.
  set (kd0 := resize KEY_CONTENT_LEN 0 key_data
              ++ le32_bytes (calc_check32 key_data KEY_CONTENT_LEN)
              ++ le32_bytes random ++ resize KEY_MAGIC_LEN 0 GNUK_MAGIC) in H.
  destruct (kd_plain_spec key_data (calc_check32 key_data KEY_CONTENT_LEN) random Hlen)
    as (Hkd0 & Hdata & Hmagic). fold kd0 in Hkd0, Hdata, Hmagic.
  destruct (write_prvkey_dek _ (set_kd kd0 s0))
    as [[[[pd dek] ks_pw1] ks_rc] s1] eqn:Hdek.
  apply write_prvkey_dek_spec in Hdek
    as (Hpd & Hpd_dek & Hkd1 & Hl1 & Hm1 & Hk1 & Hp1 & Hn1 & Hnew).
  simpl in Hkd1, Hl1, Hm1, Hk1, Hp1, Hn1, Hnew.
  set (kd_enc := encrypt dek (kd s1)) in H.
  assert (Hkd_enc : kd_enc = encrypt dek kd0) by (unfold kd_enc; by rewrite Hkd1).
  change (kd (set_kd kd_enc s1)) with kd_enc in H.
  destruct (flash_key_write key_addr kd_enc modulus (set_kd kd_enc s1))
    as [r s3] eqn:Hkw.
  destruct (Z.ltb_spec r 0) as [Hr|Hr]; [injection H as -> _; lia|].
  apply flash_key_write_ok in Hkw as (-> & -> & Hslot & Hidx & Haddr); [|done].
  simpl in Hidx, Haddr.
  set (s4 := ac_reset_pso_cds _) in H.
  destruct (write_prvkey_record_spec pd dek key_addr ks_pw1 ks_rc keystring s4 Hpd Hpd_dek)
    as (Hpd' & Haddr' & Hcrm' & Hdek').
  set (pd' := write_prvkey_record pd key_addr ks_pw1 ks_rc keystring s4) in *.
  change (kd s4) with kd_enc in Hcrm'.
  unfold flash_do_write, flash_data_pool_allocate in H.
  change (last_p s4) with (last_p s1) in H.
  change (data_pool s4) with (data_pool s1) in H.
  rewrite Hpd' in H.
  change (Nat.odd (2 + SIZEOF_PRVKEY_DATA)) with false in H. cbv iota in H.
  destruct (Nat.leb_spec (last_p s1 + (2 + SIZEOF_PRVKEY_DATA)) (length (data_pool s1)))
    as [Hroom|]; [|discriminate].
  cbv beta iota zeta in H.
  set (t := last_p s1) in *.
  set (s6 := set_do_ptr _ _) in H.
  assert (Hcl : length (do_cell nr pd') = 70%nat)
    by (rewrite length_do_cell, Hpd'; reflexivity).
  assert (Hsealed : sealed s6 nr t pd' key_addr kd_enc).
  { unfold sealed, s6. simpl. split; [|split; [|split]].
    - apply arr_get_set_eq; [unfold NR_DO__FIRST__; lia|].
      rewrite Hp1, Hptrs. unfold NR_DO__FIRST__, NR_DO__LAST__. lia.
    - unfold cell_at, flash_do_write_internal.
      apply rd_bytes_flash_program.
      unfold SIZEOF_PRVKEY_DATA in Hroom. lia.
    - rewrite length_app, Hpd'. simpl. unfold SIZEOF_PRVKEY_DATA. lia.
    - apply (key_read_written _ (key_addr / KEY_SLOT_SIZE)%nat _ _ modulus);
        [done| |].
      + simpl. by rewrite list_lookup_insert_eq.
      + rewrite Hkd_enc, length_encrypt, Hkd0. vm_compute. lia. }
  assert (Hload : forall sf, sealed sf nr t pd' key_addr kd_enc ->
            gpg_do_load_prvkey kk BY_ADMIN keystring sf = (1, set_kd kd0 sf)).
  { intros sf Hsf.
    apply (load_sealed kk t pd' key_addr kd_enc dek kd0); try done.
    rewrite Hk1 in Haddr. simpl in Haddr. lia. }
  assert (Hdone : forall sf, sealed sf nr t pd' key_addr kd_enc ->
            exists s'', gpg_do_load_prvkey kk BY_ADMIN keystring sf = (1, s'')
              /\ take KEY_CONTENT_LEN (kd s'') = key_data
              /\ buf_read (kd s'') KD_MAGIC KEY_MAGIC_LEN = GNUK_MAGIC).
  { intros sf Hsf. exists (set_kd kd0 sf). split; [by apply Hload|].
    simpl. split; [done|]. rewrite Hmagic.
    apply resize_all_alt. symmetry. apply GNUK_MAGIC_length. }
  destruct (arr_get (do_ptr s) (nr - NR_DO__FIRST__)) as [old|] eqn:Hold.
  - injection H as <-. by apply Hdone.
  - specialize (Hnew eq_refl).
    set (s7 := set_num_prv_keys _ s6) in H.
    assert (Hs7 : sealed s7 nr t pd' key_addr kd_enc) by exact Hsealed.
    assert (Hq : forall j q, j <> nr - NR_DO__FIRST__ ->
              arr_get (do_ptr s7) j = Some q -> (1 <= q < t)%nat).
    { intros j q Hj Hq. unfold s7, s6 in Hq. simpl in Hq.
      rewrite arr_get_set_ne in Hq by done. rewrite Hnew in Hq.
      apply Hwf in Hq. rewrite Hl1. done. }
    destruct (num_prv_keys s7 =? NUM_ALL_PRV_KEYS).
    + injection H as <-. apply Hdone.
      apply sealed_trim_keystrings; try done.
      * unfold NR_DO_KEYSTRING_PW1. lia.
      * unfold NR_DO_KEYSTRING_RC. lia.
      * intros q. apply Hq. unfold NR_DO_KEYSTRING_PW1, NR_DO__FIRST__. lia.
      * intros q. apply Hq. unfold NR_DO_KEYSTRING_RC, NR_DO__FIRST__. lia.
    + injection H as <-. by apply Hdone.
Qed.

End Envelope.

(** * The stand-in cipher *)

Lemma xor_stream_involutive key i data :
  Stub.xor_stream key i (Stub.xor_stream key i data) = data.
Proof.
  revert i. induction data as [|b data IH]; intros i; simpl; [done|].
  rewrite IH. f_equal.
  rewrite Z.lxor_assoc, Z.lxor_nilpotent, Z.lxor_0_r. done.
Qed.

Lemma xor_stream_length key i data :
  length (Stub.xor_stream key i data) = length data.
Proof.
  revert i. induction data as [|b data IH]; intros i; simpl; [done|].
  by rewrite IH.
Qed.

Lemma stub_collaborators_ok : CollaboratorsOk Stub.collaborators.
Proof.
  split; simpl.
  - intros. apply xor_stream_involutive.
  - intros. apply xor_stream_length.
  - intros. apply xor_stream_length.
  - done.
Qed.
(** The witness of C3: a signing key sealed on an empty card. *)
Lemma seal_then_unseal_witness :
  exists s'',
    gpg_do_load_prvkey (C:=Stub.collaborators) GPG_KEY_FOR_SIGNING BY_ADMIN
      sample_keystring (snd card_sig_key) = (1, s'')
    /\ take KEY_CONTENT_LEN (kd s'') = sample_key
    /\ buf_read (kd s'') KD_MAGIC KEY_MAGIC_LEN
       = GNUK_MAGIC (Collaborators:=Stub.collaborators).
Proof.
  apply (seal_then_unseal_by_admin (C:=Stub.collaborators)
           (Hok:=stub_collaborators_ok)
           GPG_KEY_FOR_SIGNING sample_key sample_keystring
           (admin_card 256 3 sample_keystring)).
  - reflexivity.
  - vm_compute. reflexivity.
  - vm_compute. reflexivity.
Defined.

(** Claim C3 as stated fails: with the role index 2, which the spec gives
    to the admin, the key sealed under the admin keystring does not unseal;
    [gpg_do_load_prvkey] reads the copy of the DEK for the reset code and
    returns -1. *)
Lemma unseal_at_index_2_fails :
  fst card_sig_key = 0
  /\ fst (gpg_do_load_prvkey (C:=Stub.collaborators) GPG_KEY_FOR_SIGNING 2
            sample_keystring (snd card_sig_key)) = -1
  /\ take KEY_CONTENT_LEN
       (kd (snd (gpg_do_load_prvkey (C:=Stub.collaborators) GPG_KEY_FOR_SIGNING 2
                   sample_keystring (snd card_sig_key)))) <> sample_key.
Proof. split; [|split]; vm_compute; (reflexivity || discriminate). Qed.

(** * The digital signature counter *)

Lemma dsc_after_increment s :
  digital_signature_counter (gpg_increment_digital_signature_counter s)
  = (digital_signature_counter s + 1) mod 2 ^ 24.
Proof.
  unfold gpg_increment_digital_signature_counter. simpl. apply land_ffffff.
Qed.

Lemma dsc_after_increments n s :
  0 <= digital_signature_counter s < 2 ^ 24 ->
  digital_signature_counter (Nat.iter n gpg_increment_digital_signature_counter s)
  = (digital_signature_counter s + Z.of_nat n) mod 2 ^ 24.
Proof.
  intros Hc. induction n as [|n IH].
  - simpl. rewrite Z.add_0_r, Z.mod_small; lia.
  - rewrite Nat.iter_succ, dsc_after_increment, IH.
    rewrite Zplus_mod_idemp_l. f_equal. lia.
Qed.

Lemma ds_count_bytes c :
  0 <= c < 2 ^ 24 ->
  [u8 (Z.land (Z.shiftr c 16) 0xff); u8 (Z.land (Z.shiftr c 8) 0xff);
   u8 (Z.land c 0xff)]
  = [c / 65536; (c / 256) mod 256; c mod 256].
Proof.
  intros Hc. fold (u8 (Z.shiftr c 16)) (u8 (Z.shiftr c 8)) (u8 c).
  rewrite !u8_mod, !Z.shiftr_div_pow2 by lia.
  rewrite !Zmod_mod.
  change (2 ^ 16) with 65536. change (2 ^ 8) with 256.
  rewrite (Z.mod_small (c / 65536)); [done|].
  split; [apply Z.div_pos; lia|]. apply Z.div_lt_upper_bound; lia.
Qed.

Section DsCount.
Context {C : Collaborators}.

Lemma get_data_ds_count s :
  res_APDU <$> gpg_do_get_data GPG_DO_DS_COUNT s
  = Some (RES_DATA
            [u8 (Z.land (Z.shiftr (digital_signature_counter s) 16) 0xff);
             u8 (Z.land (Z.shiftr (digital_signature_counter s) 8) 0xff);
             u8 (Z.land (digital_signature_counter s) 0xff);
             0x90; 0x00]).
Proof. reflexivity. Qed.

(** Claim C4: from a counter value [c0] below 2^24, after [n] increments
    the signature counter is [(c0 + n) mod 2^24], and GET DATA of the
    DS-counter tag answers that value in three bytes, most significant
    first, and 90 00. *)
Theorem dsc_counts_modulo_2_24 (c0 : Z) (n : nat) (s : state) :
  0 <= c0 < 2 ^ 24 ->
  digital_signature_counter s = c0 ->
  let s' := Nat.iter n gpg_increment_digital_signature_counter s in
  let c := (c0 + Z.of_nat n) mod 2 ^ 24 in
  digital_signature_counter s' = c
  /\ res_APDU <$> gpg_do_get_data GPG_DO_DS_COUNT s'
     = Some (RES_DATA [c / 65536; (c / 256) mod 256; c mod 256; 0x90; 0x00]).
Proof.
  intros Hc Hs s' c.
  assert (Hc' : digital_signature_counter s' = c).
  { unfold s', c. rewrite dsc_after_increments by (rewrite Hs; done).
    by rewrite Hs. }
  split; [done|].
  rewrite get_data_ds_count, Hc'.
  assert (Hr : 0 <= c < 2 ^ 24) by (apply Z.mod_pos_bound; lia).
  pose proof (ds_count_bytes c Hr) as Hb.
  injection Hb as -> -> ->. done.
Qed.
End DsCount.

(** The witness of C4: three signatures across the wrap. *)
Lemma dsc_counts_witness :
  digital_signature_counter
    (Nat.iter 3 gpg_increment_digital_signature_counter card_dsc_fffffe) = 1
  /\ res_APDU <$> gpg_do_get_data (C:=Stub.collaborators) GPG_DO_DS_COUNT
        (Nat.iter 3 gpg_increment_digital_signature_counter card_dsc_fffffe)
     = Some (RES_DATA [0; 0; 1; 0x90; 0x00]).
Proof.
  refine (dsc_counts_modulo_2_24 (C:=Stub.collaborators) 0xfffffe 3
            card_dsc_fffffe _ _).
  - lia.
  - reflexivity.
Defined.

(** * Password error counters *)

Lemma cnt123_word_put m p v :
  (p + 2 <= length m)%nat ->
  cnt123_word (flash_put_data_internal m p v) p
  = Z.lor (u8 (u8 v)) (Z.shiftl (u8 (u8 (Z.shiftr v 8))) 8).
Proof.
  intros Hp. unfold cnt123_word, flash_put_data_internal.
  replace p with (p + 0)%nat at 2 by lia.
  rewrite (rd_flash_program_in _ _ _ 0%nat (u8 v)) by (simpl; done || lia).
  replace (S p) with (p + 1)%nat by lia.
  rewrite (rd_flash_program_in _ _ _ 1%nat (u8 (Z.shiftr v 8))) by (simpl; done || lia).
  done.
Qed.

Lemma cnt123_first which s :
  0 <= which <= 2 ->
  length (pw_err_counter_p s) = 3%nat ->
  arr_get (pw_err_counter_p s) which = None ->
  (last_p s + 4 <= length (data_pool s))%nat ->
  cnt123_at which 1 (gpg_increment_pw_err_counter which s).
Proof.
  intros Hw Hlen Hnone Hroom.
  unfold gpg_increment_pw_err_counter, flash_cnt123_increment.
  rewrite Hnone. unfold flash_data_pool_allocate. simpl.
  rewrite (proj2 (Nat.leb_le _ _)) by lia. simpl.
  exists (last_p s + 2)%nat. split; [|split].
  - apply arr_get_set_eq; lia.
  - simpl. unfold flash_cnt123_write_internal. rewrite length_flash_program. lia.
  - simpl. unfold cnt123_word, flash_cnt123_write_internal.
    rewrite (rd_flash_program_in _ _ _ 2%nat 0xfe) by (simpl; done || lia).
    replace (S (last_p s + 2)) with (last_p s + 3)%nat by lia.
    rewrite (rd_flash_program_in _ _ _ 3%nat 0xff) by (simpl; done || lia).
    reflexivity.
Qed.

Lemma cnt123_value which j s :
  0 <= j <= 16 -> cnt123_at which j s -> gpg_get_pw_err_counter which s = j.
Proof.
  intros Hj (p & Hp & _ & Hw).
  unfold gpg_get_pw_err_counter, flash_cnt123_get_value. rewrite Hp, Hw.
  assert (H : forallb (fun i => cleared_bits (cnt123_unary (Z.of_nat i)) =? Z.of_nat i)
                (seq 0 17) = true) by (vm_compute; reflexivity).
  rewrite forallb_forall in H.
  specialize (H (Z.to_nat j)). rewrite Z2Nat.id in H by lia.
  apply Z.eqb_eq, H, in_seq. lia.
Qed.

Lemma cnt123_next which j s :
  1 <= j < 3 -> cnt123_at which j s ->
  cnt123_at which (j + 1) (gpg_increment_pw_err_counter which s).
Proof.
  intros Hj (p & Hp & Hfit & Hw).
  unfold gpg_increment_pw_err_counter, flash_cnt123_increment.
  rewrite Hp, Hw.
  assert (Hcases : j = 1 \/ j = 2) by lia.
  assert (Hsat : (cleared_bits (cnt123_unary j) >=? CNT123_MAX) = false)
    by (destruct Hcases as [-> | ->]; reflexivity).
  rewrite Hsat.
  exists p. simpl. split; [done|split].
  - unfold flash_put_data_internal. rewrite length_flash_program. done.
  - rewrite cnt123_word_put by done.
    destruct Hcases as [-> | ->]; reflexivity.
Qed.

Lemma cnt123_saturated which s :
  cnt123_at which 3 s -> gpg_increment_pw_err_counter which s = s.
Proof.
  intros (p & Hp & Hfit & Hw).
  unfold gpg_increment_pw_err_counter, flash_cnt123_increment.
  rewrite Hp, Hw. reflexivity.
Qed.

Lemma cnt123_after which k s :
  0 <= which <= 2 ->
  length (pw_err_counter_p s) = 3%nat ->
  arr_get (pw_err_counter_p s) which = None ->
  (last_p s + 4 <= length (data_pool s))%nat ->
  cnt123_at which (Z.min (Z.of_nat (S k)) 3)
    (Nat.iter (S k) (gpg_increment_pw_err_counter which) s).
Proof.
  intros Hw Hlen Hnone Hroom. induction k as [|k IH].
  - simpl. by apply cnt123_first.
  - rewrite Nat.iter_succ.
    destruct (decide (S k < 3)%nat) as [Hlt|Hge].
    + rewrite Z.min_l in IH by lia.
      replace (Z.min (Z.of_nat (S (S k))) 3) with (Z.of_nat (S k) + 1) by lia.
      apply cnt123_next; [lia|done].
    + rewrite Z.min_r in IH by lia. rewrite Z.min_r by lia.
      rewrite cnt123_saturated by done. done.
Qed.

Lemma pw_err_counter_reset which s :
  gpg_get_pw_err_counter which (gpg_reset_pw_err_counter which s) = 0.
Proof.
  unfold gpg_reset_pw_err_counter, flash_cnt123_clear.
  destruct (arr_get (pw_err_counter_p s) which) as [p|] eqn:Hp; simpl.
  - rewrite arr_get_set_None. unfold gpg_get_pw_err_counter. simpl.
    by rewrite arr_get_set_None.
  - rewrite Hp. unfold gpg_get_pw_err_counter. by rewrite Hp.
Qed.

(** Claim C5: for each of the three password error counters, from a
    cleared counter (and room in the pool for its cell), after [k]
    increments the counter reads [min (k, 3)]; [gpg_passwd_locked] returns 1
    exactly when [k] has reached 3; and [gpg_reset_pw_err_counter] brings the
    counter back to 0. *)
Theorem pw_err_counter_saturates (w : Z) (k : nat) (s : state) :
  0 <= w <= 2 ->
  length (pw_err_counter_p s) = 3%nat ->
  arr_get (pw_err_counter_p s) w = None ->
  (last_p s + 4 <= length (data_pool s))%nat ->
  let s' := Nat.iter k (gpg_increment_pw_err_counter w) s in
  gpg_get_pw_err_counter w s' = Z.min (Z.of_nat k) 3
  /\ gpg_passwd_locked w s' = (if 3 <=? Z.of_nat k then 1 else 0)
  /\ gpg_get_pw_err_counter w (gpg_reset_pw_err_counter w s') = 0.
Proof.
  intros Hw Hlen Hnone Hroom s'.
  assert (Hv : gpg_get_pw_err_counter w s' = Z.min (Z.of_nat k) 3).
  { unfold s'. destruct k as [|k].
    - simpl. unfold gpg_get_pw_err_counter. by rewrite Hnone.
    - apply cnt123_value; [lia|]. by apply cnt123_after. }
  split; [done|split].
  - unfold gpg_passwd_locked. rewrite Hv. unfold PASSWORD_ERRORS_MAX.
    destruct (Z.leb_spec 3 (Z.of_nat k)); destruct (Z.geb_spec (Z.min (Z.of_nat k) 3) 3);
      lia || done.
  - apply pw_err_counter_reset.
Qed.

(** The witness of C5: five wrong user passwords. *)
Lemma pw_err_counter_witness :
  gpg_get_pw_err_counter PW_ERR_PW1
    (Nat.iter 5 (gpg_increment_pw_err_counter PW_ERR_PW1) (blank_card 64 3)) = 3
  /\ gpg_passwd_locked PW_ERR_PW1
       (Nat.iter 5 (gpg_increment_pw_err_counter PW_ERR_PW1) (blank_card 64 3)) = 1
  /\ gpg_get_pw_err_counter PW_ERR_PW1
       (gpg_reset_pw_err_counter PW_ERR_PW1
          (Nat.iter 5 (gpg_increment_pw_err_counter PW_ERR_PW1) (blank_card 64 3)))
     = 0.
Proof.
  refine (pw_err_counter_saturates PW_ERR_PW1 5 (blank_card 64 3) _ _ _ _).
  - unfold PW_ERR_PW1. lia.
  - reflexivity.
  - reflexivity.
  - vm_compute. lia.
Defined.

(** * The computed reads and the compaction, run on sample cards *)

(** Claim C6, at a failing input: with three different CA fingerprints
    stored, GET DATA of the tag of all CA fingerprints answers the first,
    the second and the second again; the third, which GET DATA of its own
    tag returns, is not in the answer. *)
Lemma cafp_all_repeats_second :
  res_APDU <$> gpg_do_get_data (C:=Stub.collaborators) GPG_DO_CAFP_ALL card_cafp
  = Some (RES_DATA (replicate 20 0x11 ++ replicate 20 0x22 ++ replicate 20 0x22
                    ++ [0x90; 0x00]))
  /\ res_APDU <$> gpg_do_get_data (C:=Stub.collaborators) GPG_DO_CAFP_3 card_cafp
     = Some (RES_DATA (replicate 20 0x33 ++ [0x90; 0x00])).
Proof. split; vm_compute; reflexivity. Qed.

(** Claim C7, at a failing input: on a card in use that has signed 1025
    times, compaction into an erased region and a scan of that region
    rebuild the same payloads, PW status bytes and number of bytes, but
    leave the signature counter at 1024:
    [gpg_write_digital_signature_counter] writes the cell of the lower ten
    bits as zero next to a cell of upper bits. *)
Lemma compaction_drops_dsc_low_bits :
  digital_signature_counter card_in_use = 1025
  /\ indexed_view (gpg_data_scan 2200 (gpg_data_copy 2200 card_in_use))
     = indexed_view card_in_use
  /\ digital_signature_counter
       (gpg_data_scan 2200 (gpg_data_copy 2200 card_in_use)) = 1024.
Proof. split; [|split]; vm_compute; reflexivity. Qed.

(** * Access control of GET DATA *)

Section ReadNever.
Context {C : Collaborators}.

Lemma read_never_tags :
  map tag (List.filter (fun e => match ac_read e with AC_NEVER => true | _ => false end)
             gpg_do_table)
  = [GPG_DO_RESETTING_CODE; GPG_DO_KEY_IMPORT; GPG_DO_CH_CERTIFICATE].
Proof. reflexivity. Qed.
(** Claim C8: for every entry of the table whose read access is NEVER
    (the resetting code, the key import and the cardholder certificate),
    GET DATA of its tag answers the security failure status, whatever the
    state of the card. *)
Theorem read_never_security_failure (e : do_table_entry) (s : state) :
  In e gpg_do_table -> ac_read e = AC_NEVER ->
  res_APDU <$> gpg_do_get_data (tag e) s = Some (RES_SW GPG_SECURITY_FAILURE).
Proof.
  intros Hin Hac. unfold gpg_do_table in Hin.
  repeat (destruct Hin as [<-|Hin]; [first [discriminate Hac | reflexivity]|]).
  destruct Hin.
Qed.

End ReadNever.

(** The witness of C8: reading the resetting code. *)
Lemma read_never_witness :
  res_APDU <$> gpg_do_get_data (C:=Stub.collaborators) GPG_DO_RESETTING_CODE
                 (admin_card 64 3 [])
  = Some (RES_SW GPG_SECURITY_FAILURE).
Proof.
  apply (read_never_security_failure (C:=Stub.collaborators)
           entry_resetting_code (admin_card 64 3 [])).
  - unfold gpg_do_table. do 28 right. left. reflexivity.
  - reflexivity.
Defined.

(** * Deleting a private key *)

Lemma write_simple_null_fields nr s :
  do_ptr (gpg_do_write_simple nr None s)
  = arr_set (do_ptr s) (nr - NR_DO__FIRST__) None
  /\ num_prv_keys (gpg_do_write_simple nr None s) = num_prv_keys s.
Proof.
  unfold gpg_do_write_simple.
  destruct (arr_get (do_ptr s) (nr - NR_DO__FIRST__)); done.
Qed.

Lemma do_ptr_live_set_ne s s' nr i x :
  do_ptr s' = arr_set (do_ptr s) i x -> i <> nr - NR_DO__FIRST__ ->
  do_ptr_live s' nr = do_ptr_live s nr.
Proof.
  intros Hs Hne. unfold do_ptr_live. rewrite Hs.
  by rewrite arr_get_set_ne.
Qed.

Lemma do_ptr_live_set_dead s s' nr :
  do_ptr s' = arr_set (do_ptr s) (nr - NR_DO__FIRST__) None ->
  do_ptr_live s nr = false ->
  forall nr', do_ptr_live s' nr' = do_ptr_live s nr'.
Proof.
  intros Hs Hdead nr'. unfold do_ptr_live in *. rewrite Hs.
  destruct (decide (nr - NR_DO__FIRST__ = nr' - NR_DO__FIRST__)) as [Heq|Hne].
  - rewrite <- Heq, arr_get_set_None.
    destruct (arr_get (do_ptr s) (nr - NR_DO__FIRST__)); done.
  - by rewrite arr_get_set_ne.
Qed.

Section KeyImport.
Context {C : Collaborators}.

(** Claim C9: a key import of at most 22 bytes for a role that holds no
    private key still decrements [num_prv_keys]: from a state where
    [num_prv_keys] is the number of private keys held, it leaves that number
    unchanged and [num_prv_keys] one below it, which is -1 when no key is
    held, and 0 when one other key is held, in which case the PW1 and RC
    keystrings are erased. *)
Theorem key_import_delete_absent_key (kk : kind_of_key) (data : list Z)
    (s : state) :
  nth 4 data 0 = kk_byte kk ->
  (length data <= 22)%nat ->
  do_ptr_live s (get_do_ptr_nr_for_kk kk) = false ->
  num_prv_keys s = live_prv_keys s ->
  let s' := snd (proc_key_import data s) in
  fst (proc_key_import data s) = 1
  /\ live_prv_keys s' = live_prv_keys s
  /\ num_prv_keys s' = live_prv_keys s' - 1
  /\ (live_prv_keys s = 0 -> num_prv_keys s' = -1)
  /\ (live_prv_keys s = 1 ->
      num_prv_keys s' = 0
      /\ gpg_do_read_simple NR_DO_KEYSTRING_PW1 s' = None
      /\ gpg_do_read_simple NR_DO_KEYSTRING_RC s' = None).
Proof.
  intros Hbyte Hlen Hdead Hnum s'.
  assert (Hkk : (if nth 4 data 0 =? 0xb6 then GPG_KEY_FOR_SIGNING
                 else if nth 4 data 0 =? 0xb8 then GPG_KEY_FOR_DECRYPTION
                 else GPG_KEY_FOR_AUTHENTICATION) = kk)
    by (rewrite Hbyte; destruct kk; reflexivity).
  assert (Hnone : arr_get (do_ptr s) (get_do_ptr_nr_for_kk kk - NR_DO__FIRST__) = None).
  { unfold do_ptr_live in Hdead. destruct (arr_get _ _); done. }
  set (s1 := set_num_prv_keys (i8 (num_prv_keys s - 1))
               (set_do_ptr (arr_set (do_ptr s)
                  (get_do_ptr_nr_for_kk kk - NR_DO__FIRST__) None) s)).
  assert (Hlive1 : forall nr, do_ptr_live s1 nr = do_ptr_live s nr).
  { apply (do_ptr_live_set_dead s s1 (get_do_ptr_nr_for_kk kk)); done. }
  assert (Hrange : 0 <= live_prv_keys s <= 2).
  { unfold live_prv_keys. destruct kk; simpl in Hdead; rewrite Hdead;
      repeat destruct (do_ptr_live s _); lia. }
  assert (Hn1 : num_prv_keys s1 = live_prv_keys s - 1).
  { simpl. rewrite Hnum. unfold i8.
    replace (live_prv_keys s - 1 + 128) with (live_prv_keys s + 127) by lia.
    rewrite Z.mod_small; lia. }
  assert (Hs' : s' = if num_prv_keys s1 =? 0
                     then gpg_do_write_simple NR_DO_KEYSTRING_RC None
                            (gpg_do_write_simple NR_DO_KEYSTRING_PW1 None s1)
                     else s1).
  { unfold s', proc_key_import. rewrite Hkk, (proj2 (Nat.leb_le _ _)) by done.
    rewrite Hnone. unfold s1. simpl.
    destruct (i8 (num_prv_keys s - 1) =? 0); reflexivity. }
  set (s2 := gpg_do_write_simple NR_DO_KEYSTRING_PW1 None s1) in *.
  set (s3 := gpg_do_write_simple NR_DO_KEYSTRING_RC None s2) in *.
  destruct (write_simple_null_fields NR_DO_KEYSTRING_PW1 s1) as [Hp2 Hn2].
  destruct (write_simple_null_fields NR_DO_KEYSTRING_RC s2) as [Hp3 Hn3].
  fold s2 in Hp2, Hn2. fold s3 in Hp3, Hn3.
  assert (Hlive3 : forall nr, In nr [NR_DO_PRVKEY_SIG; NR_DO_PRVKEY_DEC; NR_DO_PRVKEY_AUT] ->
                     do_ptr_live s3 nr = do_ptr_live s nr).
  { intros nr Hin. rewrite <- Hlive1.
    rewrite (do_ptr_live_set_ne s2 s3 nr _ _ Hp3),
            (do_ptr_live_set_ne s1 s2 nr _ _ Hp2); [done| |];
      simpl in Hin; destruct Hin as [<-|[<-|[<-|[]]]]; discriminate. }
  assert (Hlive' : live_prv_keys s' = live_prv_keys s).
  { rewrite Hs'. unfold live_prv_keys.
    destruct (num_prv_keys s1 =? 0).
    - rewrite !Hlive3 by (simpl; tauto). done.
    - by rewrite !Hlive1. }
  assert (Hnum' : num_prv_keys s' = live_prv_keys s - 1).
  { rewrite Hs'. destruct (num_prv_keys s1 =? 0); [|done].
    by rewrite Hn3, Hn2. }
  split; [|split; [done|split; [lia|split; [lia|]]]].
  - unfold proc_key_import. by rewrite (proj2 (Nat.leb_le _ _)) by done.
  - intros H1. split; [lia|].
    rewrite Hs', Hn1, H1. simpl.
    unfold gpg_do_read_simple. rewrite Hp3.
    rewrite arr_get_set_None, arr_get_set_ne by discriminate.
    rewrite Hp2, arr_get_set_None. done.
Qed.
End KeyImport.

(** The witness of C9: deleting the absent signing key of a card that
    holds a decryption key. *)
Lemma key_import_delete_witness :
  num_prv_keys (snd (proc_key_import (C:=Stub.collaborators)
                       (key_delete_data GPG_KEY_FOR_SIGNING) card_dec_key)) = 0
  /\ do_ptr_live (snd (proc_key_import (C:=Stub.collaborators)
                         (key_delete_data GPG_KEY_FOR_SIGNING) card_dec_key))
       NR_DO_PRVKEY_DEC = true
  /\ gpg_do_read_simple NR_DO_KEYSTRING_PW1 card_dec_key <> None
  /\ gpg_do_read_simple NR_DO_KEYSTRING_PW1
       (snd (proc_key_import (C:=Stub.collaborators)
               (key_delete_data GPG_KEY_FOR_SIGNING) card_dec_key)) = None.
Proof.
  pose proof (key_import_delete_absent_key (C:=Stub.collaborators)
                GPG_KEY_FOR_SIGNING (key_delete_data GPG_KEY_FOR_SIGNING)
                card_dec_key) as H.
  destruct H as (_ & _ & _ & _ & H).
  - reflexivity.
  - vm_compute. lia.
  - vm_compute. reflexivity.
  - vm_compute. reflexivity.
  - destruct H as (H0 & H1 & _); [vm_compute; reflexivity|].
    split; [exact H0|]. split; [vm_compute; reflexivity|].
    split; [vm_compute; discriminate|exact H1].
Defined.

(** * PUT DATA of a payload that is too long *)

Lemma rd_bytes_released m p :
  (1 <= p < length m)%nat ->
  rd_bytes (flash_put_data_internal m (p - 1) 0) (p - 1) 2 = [0; 0].
Proof.
  intros Hp. unfold flash_put_data_internal.
  apply (rd_bytes_flash_program m (p - 1) (hw_bytes 0)). simpl. lia.
Qed.

Lemma rd_released m p :
  (1 <= p < length m)%nat -> rd (flash_put_data_internal m (p - 1) 0) p = 0.
Proof.
  intros Hp. unfold flash_put_data_internal.
  replace p with (p - 1 + 1)%nat at 2 by lia.
  apply rd_flash_program_in; [simpl; lia|done].
Qed.

Section PutTooLong.
Context {C : Collaborators}.

(** Claim C10: PUT DATA by the admin of more than 255 bytes on a data
    object of kind VAR that holds a value answers the memory failure status
    after the old cell has been released: the header of the cell is
    zeroed, the pointer in [do_ptr] still points to it, and GET DATA of the
    tag, which returned the value before, now returns the empty contents of
    the released cell. *)
Theorem put_var_too_long_loses_value (e : do_table_entry) (nr : Z)
    (data : list Z) (p : nat) (s : state) :
  In e gpg_do_table -> do_type_of e = DO_VAR ->
  do_tag_to_nr (tag e) = Some nr ->
  (255 < length data)%nat ->
  auth_admin s = true ->
  arr_get (do_ptr s) (nr - NR_DO__FIRST__) = Some p ->
  (1 <= p < length (data_pool s))%nat ->
  let s' := gpg_do_put_data (tag e) data s in
  res_APDU s' = RES_SW GPG_MEMORY_FAILURE
  /\ arr_get (do_ptr s') (nr - NR_DO__FIRST__) = Some p
  /\ rd_bytes (data_pool s') (p - 1) 2 = [0; 0]
  /\ res_APDU <$> gpg_do_get_data (tag e) s
     = Some (RES_DATA (rd_bytes (data_pool s) (p + 1)
                         (Z.to_nat (rd (data_pool s) p)) ++ [0x90; 0x00]))
  /\ res_APDU <$> gpg_do_get_data (tag e) s' = Some (RES_DATA [0x90; 0x00]).
Proof.
  intros Hin Hty Hnr Hlen Hauth Hptr Hp s'.
  destruct (var_entry e Hin Hty) as (nr' & He).
  assert (nr' = nr) as -> by (destruct He as [He _]; congruence).
  assert (Hs' : s' = set_res_APDU (RES_SW GPG_MEMORY_FAILURE) (flash_do_release p s)).
  { unfold s'. rewrite (put_data_var e nr) by done. cbv zeta. rewrite Hptr.
    rewrite (proj2 (Nat.eqb_neq _ _)) by lia.
    by rewrite (proj2 (Nat.ltb_lt _ _)) by lia. }
  rewrite !(get_data_var e nr) by done.
  rewrite Hs'. simpl. rewrite Hptr.
  split; [done|split; [done|split; [by apply rd_bytes_released|split; [done|]]]].
  rewrite rd_released by done. done.
Qed.
End PutTooLong.

(** The witness of C10: 256 bytes put on the login data of [card_login_alice]. *)
Lemma put_var_too_long_witness :
  res_APDU (gpg_do_put_data (C:=Stub.collaborators) GPG_DO_LOGIN_DATA long_payload
              card_login_alice) = RES_SW GPG_MEMORY_FAILURE
  /\ res_APDU <$> gpg_do_get_data (C:=Stub.collaborators) GPG_DO_LOGIN_DATA
                    card_login_alice
     = Some (RES_DATA (alice ++ [0x90; 0x00]))
  /\ res_APDU <$> gpg_do_get_data (C:=Stub.collaborators) GPG_DO_LOGIN_DATA
                    (gpg_do_put_data (C:=Stub.collaborators) GPG_DO_LOGIN_DATA
                       long_payload card_login_alice)
     = Some (RES_DATA [0x90; 0x00]).
Proof.
  pose proof (put_var_too_long_loses_value (C:=Stub.collaborators)
                entry_login_data NR_DO_LOGIN_DATA long_payload 1%nat
                card_login_alice) as H.
  destruct H as (H1 & _ & _ & H2 & H3).
  - unfold gpg_do_table. do 10 right. left. reflexivity.
  - reflexivity.
  - reflexivity.
  - vm_compute. lia.
  - reflexivity.
  - vm_compute. reflexivity.
  - vm_compute. lia.
  - split; [exact H1|]. split; [|exact H3].
    etransitivity; [exact H2|]. vm_compute. reflexivity.
Defined.

(** * GET DATA and PUT DATA: what they leave alone *)

Section Responses.
Context {C : Collaborators}.

Lemma set_res_p_id s : set_res_p (res_p s) s = s.
Proof. by destruct s. Qed.

Lemma appends_id : appends (fun s => s).
Proof. intros pre s. simpl. by rewrite app_nil_r. Qed.

Lemma appends_comp f g : appends f -> appends g -> appends (fun s => g (f s)).
Proof.
  intros Hf Hg pre s.
  rewrite (Hf pre s), (Hg _ s), (Hf [] s), (Hg (_ ++ _) s). simpl.
  by rewrite app_assoc.
Qed.

Lemma appends_res_put_bytes (h : state -> list Z) :
  (forall pre s, h (set_res_p pre s) = h s) ->
  appends (fun s => res_put_bytes (h s) s).
Proof. intros Hh pre s. unfold res_put_bytes. rewrite !Hh. done. Qed.

Lemma appends_res_put (h : state -> Z) :
  (forall pre s, h (set_res_p pre s) = h s) ->
  appends (fun s => res_put (h s) s).
Proof. intros Hh pre s. unfold res_put. rewrite !Hh. done. Qed.

Lemma appends_copy_tag tag0 : appends (copy_tag tag0).
Proof.
  unfold copy_tag. destruct (tag0 <? 0x0100).
  - apply (appends_res_put (fun _ => _)). done.
  - apply (appends_comp (fun s => res_put _ s) (fun s => res_put _ s));
      apply (appends_res_put (fun _ => _)); done.
Qed.

Lemma appends_if (b : bool) f g :
  appends f -> appends g -> appends (fun s => if b then f s else g s).
Proof. by destruct b. Qed.

Lemma appends_three f g1 g2 g3 :
  appends f -> appends g1 -> appends g2 -> appends g3 ->
  appends (fun s => g3 (g2 (g1 (f s)))).
Proof.
  intros. apply (appends_comp (fun s => g2 (g1 (f s))) g3); [|done].
  apply (appends_comp (fun s => g1 (f s)) g2); [|done].
  by apply appends_comp.
Qed.

Lemma appends_when (c : state -> bool) f g :
  (forall pre s, c (set_res_p pre s) = c s) ->
  appends f -> appends g -> appends (fun s => if c s then f s else g s).
Proof.
  intros Hc Hf Hg pre s. rewrite !Hc. destruct (c s); [apply Hf | apply Hg].
Qed.

Lemma appends_copy_do_1 tag0 src with_tag : appends (copy_do_1 tag0 src with_tag).
Proof.
  unfold copy_do_1. destruct with_tag.
  - apply (appends_three (copy_tag tag0)
             (fun s => if src_byte s src 0 >=? 128 then res_put 0x81 s else s)
             (fun s => s)
             (fun s => res_put_bytes
                         (src_bytes s src 0 (Z.to_nat (src_byte s src 0 + 1))) s)).
    + apply appends_copy_tag.
    + apply (appends_when (fun s => src_byte s src 0 >=? 128)
               (fun s => res_put 0x81 s) (fun s => s));
        [by destruct src | apply (appends_res_put (fun _ => _)); done
        | apply appends_id].
    + apply appends_id.
    + apply appends_res_put_bytes. by destruct src.
  - apply appends_res_put_bytes. by destruct src.
Qed.

Lemma appends_res_put_do_or_zero nr size : appends (res_put_do_or_zero nr size).
Proof.
  intros pre s. unfold res_put_do_or_zero, gpg_do_read_simple. simpl.
  destruct (arr_get (do_ptr s) (nr - NR_DO__FIRST__)); done.
Qed.

Lemma appends_header (with_tag : bool) tag0 n :
  appends (fun s => if with_tag then res_put n (copy_tag tag0 s) else s).
Proof.
  apply appends_if; [|apply appends_id].
  apply (appends_comp (copy_tag tag0) (fun s => res_put n s)).
  - apply appends_copy_tag.
  - apply (appends_res_put (fun _ => n)). done.
Qed.

Lemma appends_do_fp_all tag0 w : appends (fun s => snd (do_fp_all tag0 w s)).
Proof.
  unfold do_fp_all. simpl.
  apply appends_three;
    [apply appends_header | apply appends_res_put_do_or_zero ..].
Qed.

Lemma appends_do_cafp_all tag0 w : appends (fun s => snd (do_cafp_all tag0 w s)).
Proof.
  unfold do_cafp_all. simpl.
  apply appends_three;
    [apply appends_header | apply appends_res_put_do_or_zero ..].
Qed.

Lemma appends_do_kgtime_all tag0 w :
  appends (fun s => snd (do_kgtime_all tag0 w s)).
Proof.
  unfold do_kgtime_all. simpl.
  apply appends_three;
    [apply appends_header | apply appends_res_put_do_or_zero ..].
Qed.

Lemma appends_do_ds_count tag0 w : appends (fun s => snd (do_ds_count tag0 w s)).
Proof.
  unfold do_ds_count. simpl.
  apply (appends_three _
           (fun s => res_put (Z.land (Z.shiftr (digital_signature_counter s) 16) 255) s)
           (fun s => res_put (Z.land (Z.shiftr (digital_signature_counter s) 8) 255) s)
           (fun s => res_put (Z.land (digital_signature_counter s) 255) s));
    [apply appends_header | apply appends_res_put; done ..].
Qed.

Lemma appends_do_hist_bytes tag0 w : appends (fun s => snd (do_hist_bytes tag0 w s)).
Proof. unfold do_hist_bytes. simpl. apply appends_copy_do_1. Qed.

Lemma copy_tag_bytes tag0 s : copy_tag tag0 s = res_put_bytes (tag_bytes tag0) s.
Proof.
  unfold copy_tag, tag_bytes, res_put_bytes, res_put.
  destruct (tag0 <? 256); simpl; [done|]. by rewrite <- app_assoc.
Qed.

Lemma res_put_as_bytes b s : res_put b s = res_put_bytes [u8 b] s.
Proof. reflexivity. Qed.

Lemma res_put_bytes_twice l1 l2 s :
  res_put_bytes l2 (res_put_bytes l1 s) = res_put_bytes (l1 ++ l2) s.
Proof. unfold res_put_bytes. simpl. by rewrite app_assoc. Qed.

Lemma res_put_bytes_nil s : res_put_bytes [] s = s.
Proof. unfold res_put_bytes. rewrite app_nil_r. apply set_res_p_id. Qed.

Lemma pw1_lifetime_res_put_bytes l s :
  gpg_get_pw1_lifetime (res_put_bytes l s) = gpg_get_pw1_lifetime s.
Proof. reflexivity. Qed.

Lemma pw_err_counter_res_put_bytes which l s :
  gpg_get_pw_err_counter which (res_put_bytes l s) = gpg_get_pw_err_counter which s.
Proof. reflexivity. Qed.

(** What [rw_pw_status] reads. *)
Lemma rw_pw_status_read tag0 w data s :
  snd (rw_pw_status tag0 w data false s)
  = res_put_bytes
      ((if w then tag_bytes tag0 ++ [u8 SIZE_PW_STATUS_BYTES] else [])
       ++ [u8 (gpg_get_pw1_lifetime s); u8 PW_LEN_MAX; u8 PW_LEN_MAX; u8 PW_LEN_MAX;
           u8 (PASSWORD_ERRORS_MAX - gpg_get_pw_err_counter PW_ERR_PW1 s);
           u8 (PASSWORD_ERRORS_MAX - gpg_get_pw_err_counter PW_ERR_RC s);
           u8 (PASSWORD_ERRORS_MAX - gpg_get_pw_err_counter PW_ERR_PW3 s)]) s.
Proof.
  unfold rw_pw_status. cbn [snd].
  rewrite copy_tag_bytes, !res_put_as_bytes.
  destruct w.
  - rewrite ?res_put_bytes_twice, ?pw1_lifetime_res_put_bytes,
      ?pw_err_counter_res_put_bytes, ?res_put_bytes_twice.
    by rewrite <- !app_assoc.
  - rewrite ?res_put_bytes_twice, ?pw1_lifetime_res_put_bytes,
      ?pw_err_counter_res_put_bytes, ?res_put_bytes_twice.
    done.
Qed.

Lemma appends_rw_pw_status_read tag0 w data :
  appends (fun s => snd (rw_pw_status tag0 w data false s)).
Proof.
  intros pre s. rewrite !rw_pw_status_read.
  apply (appends_res_put_bytes
           (fun s => (if w then tag_bytes tag0 ++ [u8 SIZE_PW_STATUS_BYTES] else [])
       ++ [u8 (gpg_get_pw1_lifetime s); u8 PW_LEN_MAX; u8 PW_LEN_MAX; u8 PW_LEN_MAX;
           u8 (PASSWORD_ERRORS_MAX - gpg_get_pw_err_counter PW_ERR_PW1 s);
           u8 (PASSWORD_ERRORS_MAX - gpg_get_pw_err_counter PW_ERR_RC s);
           u8 (PASSWORD_ERRORS_MAX - gpg_get_pw_err_counter PW_ERR_PW3 s)])).
  done.
Qed.

(** ** The entries of the table, one by one *)

Ltac each_entry Hin :=
  unfold gpg_do_table in Hin;
  repeat (destruct Hin as [<-|Hin]; [|]); [..|destruct Hin].

Lemma copy_do_simple_appends d e w :
  In e gpg_do_table -> is_compound e = false ->
  appends (copy_do_state (S d) (Some e) w).
Proof.
  intros Hin Hc pre s. unfold copy_do_state.
  each_entry Hin; try discriminate Hc;
    cbn [copy_do ac_check_status negb ac_read do_type_of obj tag];
    first
      [ apply appends_copy_do_1
      | apply appends_do_hist_bytes | apply appends_do_fp_all
      | apply appends_do_cafp_all | apply appends_do_kgtime_all
      | apply appends_do_ds_count
      | apply (appends_rw_pw_status_read _ _ [])
      | apply appends_id
      | idtac ].
  all: cbn [do_ptr set_res_p];
    match goal with
    | |- context [arr_get (do_ptr ?s0) ?i] =>
        destruct (arr_get (do_ptr s0) i);
        [apply appends_copy_do_1 | apply appends_id]
    end.
Qed.

Lemma copy_do_simple_code d e w s :
  In e gpg_do_table -> is_compound e = false ->
  exists r, copy_do (S d) (Some e) w s
            = Some (r, copy_do_state (S d) (Some e) w s)
            /\ (r <? 0) = negb (ac_read_always e).
Proof.
  intros Hin Hc. unfold copy_do_state.
  each_entry Hin; try discriminate Hc;
    cbn [copy_do ac_check_status negb ac_read do_type_of obj tag ac_read_always];
    try (eexists; split; reflexivity).
  all: match goal with
       | |- context [arr_get (do_ptr ?s0) ?i] =>
           destruct (arr_get (do_ptr s0) i); eexists; split; reflexivity
       end.
Qed.

Lemma copy_do_simple_depth d e w s :
  is_compound e = false ->
  copy_do (S d) (Some e) w s = copy_do 1 (Some e) w s.
Proof.
  intros Hc. destruct e as [t ty ar aw o]. unfold is_compound in Hc. simpl in Hc.
  cbn [copy_do ac_read do_type_of obj tag].
  destruct (negb _); [done|].
  destruct ty; try discriminate Hc; destruct o; reflexivity.
Qed.

Lemma get_do_entry_in e : In e gpg_do_table -> get_do_entry (tag e) = Some e.
Proof. intros Hin. each_entry Hin; reflexivity. Qed.

Lemma do_tlv_state d e s :
  In e gpg_do_table -> is_compound e = false ->
  forall pre,
    copy_do_state (S d) (Some e) true (set_res_p pre s)
    = set_res_p (pre ++ do_tlv (tag e) s) s.
Proof.
  intros Hin Hc pre.
  rewrite (copy_do_simple_appends d e true Hin Hc pre s).
  f_equal. f_equal. unfold do_tlv, copy_do_state.
  rewrite (get_do_entry_in e Hin), (copy_do_simple_depth d e) by done.
  by destruct (copy_do 1 (Some e) true (set_res_p [] s)) as [[r s']|].
Qed.

Lemma copy_components_tlv d tags s :
  plain_components tags = true ->
  forall pre,
    copy_components (copy_do (S d)) tags (set_res_p pre s)
    = Some (1, set_res_p (pre ++ concat (map (fun t => do_tlv t s) tags)) s).
Proof.
  induction tags as [|t tags IH]; intros Hall pre.
  - simpl. by rewrite app_nil_r.
  - simpl in Hall. apply andb_prop in Hall as [Ht Hall].
    destruct (get_do_entry t) as [c|] eqn:Hget; [|done].
    apply andb_prop in Ht as [Hc Hr].
    apply negb_true_iff in Hc.
    pose proof Hget as Hfind. apply find_some in Hfind as [Hin Htag].
    apply Z.eqb_eq in Htag.
    cbn [copy_components]. rewrite Hget.
    destruct (copy_do_simple_code d c true (set_res_p pre s) Hin Hc) as (r & -> & Hr').
    rewrite Hr in Hr'. simpl in Hr'. rewrite Hr'.
    rewrite (do_tlv_state d c s Hin Hc pre), Htag.
    rewrite (IH Hall). simpl. by rewrite <- app_assoc.
Qed.

Lemma table_plain_components e :
  In e gpg_do_table -> do_type_of e = DO_CMP_READ ->
  plain_components (components e) = true
  /\ ac_read e = AC_ALWAYS
  /\ get_do_entry (tag e) = Some e
  /\ exists cmp_data, obj e = OBJ_CMP cmp_data.
Proof.
  intros Hin Hty.
  each_entry Hin; try discriminate Hty;
    (split; [vm_compute; reflexivity|]); repeat split; eexists; reflexivity.
Qed.

Lemma copy_do_compound d e w s cmp_data :
  ac_read e = AC_ALWAYS -> do_type_of e = DO_CMP_READ -> obj e = OBJ_CMP cmp_data ->
  copy_do (S d) (Some e) w s
  = let s0 := res_put 0x81 (copy_tag (tag e) s) in
    let len_p := length (res_p s0) in
    match copy_components (copy_do d)
            (take (Z.to_nat (nth 0 cmp_data 0)) (drop 1 cmp_data))
            (res_put 0 s0) with
    | None => None
    | Some (r, s) =>
        if r <? 0 then Some (-1, s)
        else Some (1, set_res_p
                        (<[len_p:=u8 (Z.of_nat (length (res_p s) - len_p))]> (res_p s))
                        s)
    end.
Proof.
  intros Hac Hty Hobj. destruct e as [t ty ar aw o]. simpl in *. subst.
  reflexivity.
Qed.


Lemma res_put_bytes_set l s : res_put_bytes l (set_res_p [] s) = set_res_p l s.
Proof. reflexivity. Qed.


(** GET DATA changes nothing but the response: whatever the tag and the
    state, it returns, and the state it leaves differs from the one it found
    only in [res_p] and [res_APDU].  The flash, the pointers into it, the
    counters and the keys are as before. *)
Theorem get_data_reads_only (tag0 : Z) (s : state) :
  exists r a, gpg_do_get_data tag0 s = Some (set_res_APDU a (set_res_p r s)).
Proof.
  unfold gpg_do_get_data, COPY_DO_DEPTH.
  destruct (get_do_entry tag0) as [e|] eqn:Hget; [|by eexists _, _].
  pose proof Hget as Hfind. apply find_some in Hfind as [Hin _].
  destruct (is_compound e) eqn:Hc.
  - assert (Hty : do_type_of e = DO_CMP_READ).
    { unfold is_compound in Hc. by destruct (do_type_of e). }
    destruct (table_plain_components e Hin Hty) as (Hall & Hac & _ & cmp & Hobj).
    unfold components in Hall. rewrite Hobj in Hall.
    rewrite (copy_do_compound 1 e false _ cmp Hac Hty Hobj). cbv zeta.
    rewrite copy_tag_bytes, !res_put_as_bytes, !res_put_bytes_twice,
      res_put_bytes_set.
    rewrite (copy_components_tlv 0 _ s Hall).
    cbn [Z.ltb Z.compare]. by eexists _, _.
  - destruct (copy_do_simple_code 1 e false (set_res_p [] s) Hin Hc) as (r & -> & _).
    rewrite (copy_do_simple_appends 1 e false Hin Hc [] s).
    destruct (r <? 0); by eexists _, _.
Qed.

(** PUT DATA without the admin's authorization, or on an object whose write
    access is NEVER, changes nothing: it answers the security failure (no
    record for a tag that is not in the table) and leaves the rest of the
    state as it is, whatever the data. *)
Theorem put_data_refused (tag0 : Z) (data : list Z) (s : state) :
  auth_admin s = false
  \/ (forall e, get_do_entry tag0 = Some e -> ac_write e = AC_NEVER) ->
  gpg_do_put_data tag0 data s
  = set_res_APDU
      (RES_SW (match get_do_entry tag0 with
               | Some _ => GPG_SECURITY_FAILURE
               | None => GPG_NO_RECORD
               end)) s.
Proof.
  intros H. unfold gpg_do_put_data.
  destruct (get_do_entry tag0) as [e|] eqn:Hget; [|done].
  destruct H as [Hauth|Hnever].
  - apply find_some in Hget as [Hin _].
    each_entry Hin; cbn [ac_write ac_check_status negb]; rewrite ?Hauth; done.
  - rewrite (Hnever e eq_refl). done.
Qed.

Lemma get_data_answers_var e nr s x :
  var_entry_of e nr -> x <> [] -> get_data_answers (tag e) s x ->
  exists p, arr_get (do_ptr s) (nr - NR_DO__FIRST__) = Some p
            /\ rd_bytes (data_pool s) (p + 1) (length x) = x.
Proof.
  intros He Hx Hans. unfold get_data_answers in Hans.
  rewrite (get_data_var e nr s He) in Hans.
  injection Hans as Hans. apply app_inv_tail in Hans.
  destruct (arr_get (do_ptr s) (nr - NR_DO__FIRST__)) as [p|]; [|done].
  exists p. split; [done|].
  rewrite <- Hans at 1. by rewrite rd_bytes_length.
Qed.

Lemma res_put_do_or_zero_part e nr size s x :
  var_entry_of e nr -> part_is (tag e) nr size s x ->
  res_put_do_or_zero nr size s = res_put_bytes x s.
Proof.
  intros He [[Hnone ->]|(Hlen & Hsize & Hans)]; unfold res_put_do_or_zero.
  - by rewrite Hnone.
  - destruct (get_data_answers_var e nr s x He) as (p & Hp & Hx); [|done|].
    { intros ->. simpl in Hlen. congruence. }
    unfold gpg_do_read_simple. rewrite Hp.
    rewrite <- Nat.add_1_r, <- Hlen. by rewrite Hx.
Qed.

Lemma part_is_res_p tag0 nr size pre s x :
  part_is tag0 nr size s x -> part_is tag0 nr size (set_res_p pre s) x.
Proof. done. Qed.

Lemma var_entry_of_tag tag0 e nr :
  get_do_entry tag0 = Some e -> do_type_of e = DO_VAR ->
  do_tag_to_nr tag0 = Some nr -> var_entry_of e nr /\ tag e = tag0.
Proof.
  intros Hget Hty Hnr.
  pose proof Hget as Hfind. apply find_some in Hfind as [Hin Htag].
  apply Z.eqb_eq in Htag. split; [|done].
  destruct (var_entry e Hin Hty) as (nr' & He). subst tag0.
  destruct He as (Hnr' & He). rewrite Hnr in Hnr'. injection Hnr' as <-.
  by split.
Qed.

Lemma three_parts t1 n1 t2 n2 t3 n3 size s a b c :
  (exists e, get_do_entry t1 = Some e /\ do_type_of e = DO_VAR)
  /\ do_tag_to_nr t1 = Some n1 ->
  (exists e, get_do_entry t2 = Some e /\ do_type_of e = DO_VAR)
  /\ do_tag_to_nr t2 = Some n2 ->
  (exists e, get_do_entry t3 = Some e /\ do_type_of e = DO_VAR)
  /\ do_tag_to_nr t3 = Some n3 ->
  part_is t1 n1 size s a -> part_is t2 n2 size s b -> part_is t3 n3 size s c ->
  res_put_do_or_zero n3 size
    (res_put_do_or_zero n2 size (res_put_do_or_zero n1 size (set_res_p [] s)))
  = set_res_p (a ++ b ++ c) s.
Proof.
  intros ((e1 & Hg1 & Hy1) & Hn1) ((e2 & Hg2 & Hy2) & Hn2)
    ((e3 & Hg3 & Hy3) & Hn3) Ha Hb Hc.
  destruct (var_entry_of_tag t1 e1 n1 Hg1 Hy1 Hn1) as [He1 <-].
  destruct (var_entry_of_tag t2 e2 n2 Hg2 Hy2 Hn2) as [He2 <-].
  destruct (var_entry_of_tag t3 e3 n3 Hg3 Hy3 Hn3) as [He3 <-].
  rewrite (res_put_do_or_zero_part e1 n1 size _ a He1)
    by by apply part_is_res_p.
  rewrite (res_put_do_or_zero_part e2 n2 size _ b He2)
    by by apply (part_is_res_p _ _ _ ([] ++ a) s).
  rewrite (res_put_do_or_zero_part e3 n3 size _ c He3)
    by by apply (part_is_res_p _ _ _ (([] ++ a) ++ b) s).
  rewrite !res_put_bytes_twice, res_put_bytes_set. by rewrite <- ?app_assoc.
Qed.

(** GET DATA of the three fingerprints together (tag C5) answers the
    fingerprints of the signing, the decryption and the authentication key
    in this order: each part is what GET DATA of the single fingerprint (C7,
    C8, C9) answers when that is 20 bytes, and 20 zero bytes when the
    fingerprint is not stored. *)
Theorem get_data_fp_all (s : state) (a b c : list Z) :
  part_is GPG_DO_FP_SIG NR_DO_FP_SIG SIZE_FP s a ->
  part_is GPG_DO_FP_DEC NR_DO_FP_DEC SIZE_FP s b ->
  part_is GPG_DO_FP_AUT NR_DO_FP_AUT SIZE_FP s c ->
  get_data_answers GPG_DO_FP_ALL s (a ++ b ++ c).
Proof.
  intros Ha Hb Hc. unfold get_data_answers, gpg_do_get_data, COPY_DO_DEPTH.
  change (get_do_entry GPG_DO_FP_ALL)
    with (Some (mkEntry GPG_DO_FP_ALL DO_PROC_READ AC_ALWAYS AC_NEVER
                  (OBJ_READ do_fp_all))).
  cbn [copy_do ac_read do_type_of obj tag ac_check_status negb].
  unfold do_fp_all. cbv zeta. cbn [Z.ltb Z.compare].
  rewrite (three_parts GPG_DO_FP_SIG NR_DO_FP_SIG GPG_DO_FP_DEC NR_DO_FP_DEC
             GPG_DO_FP_AUT NR_DO_FP_AUT SIZE_FP s a b c);
    try done; try (split; [eexists; split; reflexivity | reflexivity]).
  unfold res_put. cbn [res_p set_res_p set_res_APDU res_APDU fmap option_fmap
                       option_map].
  by rewrite <- !app_assoc.
Qed.

(** GET DATA of the three key generation times together (tag CD) answers
    the times of the signing, the decryption and the authentication key in
    this order: each part is what GET DATA of the single time (CE, CF, D0)
    answers when that is 4 bytes, and 4 zero bytes when the time is not
    stored. *)
Theorem get_data_kgtime_all (s : state) (a b c : list Z) :
  part_is GPG_DO_KGTIME_SIG NR_DO_KGTIME_SIG SIZE_KGTIME s a ->
  part_is GPG_DO_KGTIME_DEC NR_DO_KGTIME_DEC SIZE_KGTIME s b ->
  part_is GPG_DO_KGTIME_AUT NR_DO_KGTIME_AUT SIZE_KGTIME s c ->
  get_data_answers GPG_DO_KGTIME_ALL s (a ++ b ++ c).
Proof.
  intros Ha Hb Hc. unfold get_data_answers, gpg_do_get_data, COPY_DO_DEPTH.
  change (get_do_entry GPG_DO_KGTIME_ALL)
    with (Some (mkEntry GPG_DO_KGTIME_ALL DO_PROC_READ AC_ALWAYS AC_NEVER
                  (OBJ_READ do_kgtime_all))).
  cbn [copy_do ac_read do_type_of obj tag ac_check_status negb].
  unfold do_kgtime_all. cbv zeta. cbn [Z.ltb Z.compare].
  rewrite (three_parts GPG_DO_KGTIME_SIG NR_DO_KGTIME_SIG GPG_DO_KGTIME_DEC
             NR_DO_KGTIME_DEC GPG_DO_KGTIME_AUT NR_DO_KGTIME_AUT SIZE_KGTIME
             s a b c);
    try done; try (split; [eexists; split; reflexivity | reflexivity]).
  unfold res_put. cbn [res_p set_res_p set_res_APDU res_APDU fmap option_fmap
                       option_map].
  by rewrite <- !app_assoc.
Qed.

Lemma get_data_pw_status s :
  get_data_answers GPG_DO_PW_STATUS s
    [gpg_get_pw1_lifetime s; PW_LEN_MAX; PW_LEN_MAX; PW_LEN_MAX;
     u8 (PASSWORD_ERRORS_MAX - gpg_get_pw_err_counter PW_ERR_PW1 s);
     u8 (PASSWORD_ERRORS_MAX - gpg_get_pw_err_counter PW_ERR_RC s);
     u8 (PASSWORD_ERRORS_MAX - gpg_get_pw_err_counter PW_ERR_PW3 s)].
Proof.
  unfold get_data_answers, gpg_do_get_data, COPY_DO_DEPTH.
  change (get_do_entry GPG_DO_PW_STATUS)
    with (Some (mkEntry GPG_DO_PW_STATUS DO_PROC_READWRITE AC_ALWAYS
                  AC_ADMIN_AUTHORIZED (OBJ_READWRITE rw_pw_status))).
  cbn [copy_do ac_read do_type_of obj tag ac_check_status negb].
  rewrite (surjective_pairing (rw_pw_status _ _ _ _ _)).
  rewrite rw_pw_status_read.
  change (fst (rw_pw_status GPG_DO_PW_STATUS false [] false (set_res_p [] s)))
    with 1.
  cbn [Z.ltb Z.compare]. rewrite !res_put_as_bytes, !res_put_bytes_twice,
    res_put_bytes_set.
  cbn [res_p set_res_p set_res_APDU res_APDU fmap option_fmap option_map app].
  do 3 f_equal.
  unfold gpg_get_pw1_lifetime. cbn [pw1_lifetime_p set_res_p].
  by destruct (pw1_lifetime_p s).
Qed.

(** PUT DATA of the PW status bytes (tag C4) by the admin looks at the
    first byte only.  Zero clears the PW1 lifetime flag and succeeds.
    Another value sets the flag on a new cell of two bytes when the pool has
    room for it, also when the flag was set already; without room the answer
    is an error and the flag is cleared, the flash being left as it was.
    GET DATA then answers the flag, three times [PW_LEN_MAX], and what is
    left of the three tries of each password. *)
Theorem put_pw_status (b : Z) (rest : list Z) (s : state) :
  auth_admin s = true ->
  let s' := gpg_do_put_data GPG_DO_PW_STATUS (b :: rest) s in
  (b = 0 ->
     res_APDU s' = RES_SW GPG_SUCCESS /\ gpg_get_pw1_lifetime s' = 0
     /\ last_p s' = last_p s)
  /\ (b <> 0 -> pool_has_room 2 s ->
        res_APDU s' = RES_SW GPG_SUCCESS /\ gpg_get_pw1_lifetime s' = 1
        /\ last_p s' = (last_p s + 2)%nat)
  /\ (b <> 0 -> ~ pool_has_room 2 s ->
        res_APDU s' = RES_SW GPG_ERROR /\ gpg_get_pw1_lifetime s' = 0
        /\ data_pool s' = data_pool s /\ last_p s' = last_p s)
  /\ get_data_answers GPG_DO_PW_STATUS s'
       [gpg_get_pw1_lifetime s'; PW_LEN_MAX; PW_LEN_MAX; PW_LEN_MAX;
        u8 (PASSWORD_ERRORS_MAX - gpg_get_pw_err_counter PW_ERR_PW1 s');
        u8 (PASSWORD_ERRORS_MAX - gpg_get_pw_err_counter PW_ERR_RC s');
        u8 (PASSWORD_ERRORS_MAX - gpg_get_pw_err_counter PW_ERR_PW3 s')].
Proof.
  intros Hauth s'.
  assert (Hs' : s' = let '(r, s1) := rw_pw_status GPG_DO_PW_STATUS false (b :: rest) true s in
                     if r =? 0 then set_res_APDU (RES_SW GPG_ERROR) s1
                     else set_res_APDU (RES_SW GPG_SUCCESS) s1).
  { unfold s', gpg_do_put_data.
    change (get_do_entry GPG_DO_PW_STATUS)
      with (Some (mkEntry GPG_DO_PW_STATUS DO_PROC_READWRITE AC_ALWAYS
                    AC_ADMIN_AUTHORIZED (OBJ_READWRITE rw_pw_status))).
    cbn [ac_write ac_check_status do_type_of obj]. rewrite Hauth. done. }
  pose proof (get_data_pw_status s') as Hget.
  split; [|split; [|split]]; [| | |exact Hget]; clear Hget;
    clearbody s'; subst s'; unfold rw_pw_status; cbn [nth].
  - intros ->. cbn [Z.eqb]. unfold flash_bool_clear_pw1_lifetime.
    destruct (pw1_lifetime_p s) eqn:Hp; simpl; rewrite ?Hp; simpl;
      unfold gpg_get_pw1_lifetime; simpl; rewrite ?Hp; done.
  - intros Hb Hroom. apply Z.eqb_neq in Hb. rewrite Hb.
    unfold flash_bool_write, flash_data_pool_allocate. cbn [Nat.odd Nat.even].
    unfold pool_has_room in Hroom. cbn [Nat.odd Nat.even] in Hroom.
    by rewrite (proj2 (Nat.leb_le _ _) Hroom).
  - intros Hb Hroom. apply Z.eqb_neq in Hb. rewrite Hb.
    unfold flash_bool_write, flash_data_pool_allocate. cbn [Nat.odd Nat.even].
    unfold pool_has_room in Hroom. cbn [Nat.odd Nat.even] in Hroom.
    by rewrite (proj2 (Nat.leb_gt _ _)) by lia.
Qed.

End Responses.


Lemma put_data_refused_witness :
  gpg_do_put_data (C:=Stub.collaborators) GPG_DO_LOGIN_DATA alice (blank_card 64 3)
  = set_res_APDU (RES_SW GPG_SECURITY_FAILURE) (blank_card 64 3).
Proof.
  apply (put_data_refused (C:=Stub.collaborators) GPG_DO_LOGIN_DATA alice
           (blank_card 64 3)).
  left. reflexivity.
Defined.

Lemma get_data_fp_all_witness :
  get_data_answers (C:=Stub.collaborators) GPG_DO_FP_ALL card_two_fp
    (replicate 20 0x11 ++ replicate 20 0 ++ replicate 20 0x33).
Proof.
  apply (get_data_fp_all (C:=Stub.collaborators) card_two_fp).
  - right. split; [reflexivity|]. split; [discriminate|]. vm_compute. reflexivity.
  - left. split; reflexivity.
  - right. split; [reflexivity|]. split; [discriminate|]. vm_compute. reflexivity.
Defined.

Lemma get_data_kgtime_all_witness :
  get_data_answers (C:=Stub.collaborators) GPG_DO_KGTIME_ALL card_one_kgtime
    (replicate 4 0 ++ [0x4d; 0x2f; 0x10; 0x01] ++ replicate 4 0).
Proof.
  apply (get_data_kgtime_all (C:=Stub.collaborators) card_one_kgtime).
  - left. split; reflexivity.
  - right. split; [reflexivity|]. split; [discriminate|]. vm_compute. reflexivity.
  - left. split; reflexivity.
Defined.

Lemma put_pw_status_witness :
  res_APDU (gpg_do_put_data (C:=Stub.collaborators) GPG_DO_PW_STATUS [1]
              (admin_card 64 3 [])) = RES_SW GPG_SUCCESS
  /\ gpg_get_pw1_lifetime
       (gpg_do_put_data (C:=Stub.collaborators) GPG_DO_PW_STATUS [1]
          (admin_card 64 3 [])) = 1
  /\ last_p (gpg_do_put_data (C:=Stub.collaborators) GPG_DO_PW_STATUS [1]
               (admin_card 64 3 [])) = 2%nat.
Proof.
  refine (proj1 (proj2 (put_pw_status (C:=Stub.collaborators) 1 []
                          (admin_card 64 3 []) _)) _ _).
  - reflexivity.
  - lia.
  - unfold pool_has_room. vm_compute. lia.
Defined.

(** * Changing the keystring of a private key *)

Lemma rd_bytes_sub m a n off k :
  (off + k <= n)%nat ->
  rd_bytes m (a + off) k = buf_read (rd_bytes m a n) off k.
Proof.
  intros H. unfold rd_bytes, buf_read.
  rewrite (read_bytes_sub _ _ a n) by done.
  rewrite (read_bytes_in_range 0) by (rewrite read_bytes_length; lia).
  done.
Qed.

Section Rekey.
Context {C : Collaborators} {Hok : CollaboratorsOk C}.

Lemma load_prvkey_open kk who keystring s p :
  arr_get (do_ptr s) (get_do_ptr_nr_for_kk kk - NR_DO__FIRST__) = Some p ->
  1 <= who <= 3 ->
  let pd := rd_bytes (data_pool s) (p + 1) SIZEOF_PRVKEY_DATA in
  let kd0 := open_record pd who keystring s in
  gpg_do_load_prvkey kk who keystring s
  = (if negb (memcmp_eq (buf_read kd0 KD_MAGIC KEY_MAGIC_LEN)
                (resize KEY_MAGIC_LEN 0 GNUK_MAGIC))
     then -1 else 1, set_kd kd0 s).
Proof.
  intros Hp Hwho pd kd0. unfold gpg_do_load_prvkey. rewrite Hp.
  assert (Hsub : forall off k, (off + k <= SIZEOF_PRVKEY_DATA)%nat ->
            rd_bytes (data_pool s) (p + 1 + off) k = buf_read pd off k).
  { intros off k Hk. by apply rd_bytes_sub. }
  pose proof (Hsub 0%nat 4%nat) as H0. rewrite Nat.add_0_r in H0.
  rewrite H0 by (unfold SIZEOF_PRVKEY_DATA; lia).
  replace (p + 5)%nat with (p + 1 + 4)%nat by lia.
  rewrite (Hsub 4%nat ADDITIONAL_DATA_SIZE)
    by (unfold SIZEOF_PRVKEY_DATA, ADDITIONAL_DATA_SIZE; lia).
  replace (Z.to_nat (Z.of_nat p + 5 + 16 * who))
    with (p + 1 + Z.to_nat (4 + 16 * who))%nat by lia.
  rewrite (Hsub (Z.to_nat (4 + 16 * who)) DATA_ENCRYPTION_KEY_SIZE)
    by (unfold SIZEOF_PRVKEY_DATA, DATA_ENCRYPTION_KEY_SIZE; lia).
  cbv zeta. fold (open_record pd who keystring s). fold kd0.
  cbn [kd set_kd]. by destruct (negb _).
Qed.

Lemma buf_read_sub_write pd off bs off' n :
  (off' + n <= off \/ off + length bs <= off')%nat ->
  buf_read (buf_write pd off bs) off' n = buf_read pd off' n.
Proof. apply buf_read_write_out. Qed.

(** [gpg_do_chks_prvkey] rewraps the DEK of a private key: when it returns
    1, the role [who_new] opens the key with the keystring [new_ks] to
    exactly what the role [who_old] opened it to with [old_ks] before (the
    same return value of [gpg_do_load_prvkey] and the same bytes in [kd]),
    and the other roles open it as before. *)
Theorem chks_prvkey_keeps_key (kk : kind_of_key) (who_old who_new : Z)
    (old_ks new_ks : list Z) (s s' : state) :
  1 <= who_old <= 3 -> 1 <= who_new <= 3 ->
  pool_wf s ->
  gpg_do_chks_prvkey kk who_old old_ks who_new new_ks s = (1, s') ->
  same_key (gpg_do_load_prvkey kk who_new new_ks s')
           (gpg_do_load_prvkey kk who_old old_ks s)
  /\ (forall who ks, 1 <= who <= 3 -> who <> who_new ->
        same_key (gpg_do_load_prvkey kk who ks s')
                 (gpg_do_load_prvkey kk who ks s)).
Proof.
  intros Hold Hnew Hwfb H.
  apply pool_wf_spec in Hwfb as (Hptrs & Hwf & _).
  unfold gpg_do_chks_prvkey in H.
  set (nr := get_do_ptr_nr_for_kk kk) in *.
  assert (Hnr : 15 <= nr <= 17)
    by (unfold nr; destruct kk; vm_compute; split; discriminate).
  destruct (arr_get (do_ptr s) (nr - NR_DO__FIRST__)) as [p|] eqn:Hp;
    [|injection H as H _; discriminate].
  destruct (negb (heap_avail s)); [injection H as H _; discriminate|].
  set (pd := rd_bytes (data_pool s) (p + 1) SIZEOF_PRVKEY_DATA) in *.
  cbv zeta in H.
  replace (Z.to_nat
             (4 + Z.of_nat ADDITIONAL_DATA_SIZE
              + Z.of_nat DATA_ENCRYPTION_KEY_SIZE * (who_old - 1)
              + Z.of_nat DATA_ENCRYPTION_KEY_SIZE * (who_new - who_old)))
    with (Z.to_nat (4 + 16 * who_new)) in H
    by (unfold ADDITIONAL_DATA_SIZE, DATA_ENCRYPTION_KEY_SIZE; lia).
  replace (Z.to_nat
             (4 + Z.of_nat ADDITIONAL_DATA_SIZE
              + Z.of_nat DATA_ENCRYPTION_KEY_SIZE * (who_old - 1)))
    with (Z.to_nat (4 + 16 * who_old)) in H
    by (unfold ADDITIONAL_DATA_SIZE, DATA_ENCRYPTION_KEY_SIZE; lia).
  set (dek := encrypt new_ks
                (decrypt old_ks
                   (buf_read pd (Z.to_nat (4 + 16 * who_old))
                      DATA_ENCRYPTION_KEY_SIZE))) in H.
  assert (Hdek : length dek = DATA_ENCRYPTION_KEY_SIZE).
  { unfold dek. by rewrite length_encrypt, length_decrypt, buf_read_length. }
  set (pd' := buf_write pd (Z.to_nat (4 + 16 * who_new)) dek) in H.
  assert (Hpd : length pd = SIZEOF_PRVKEY_DATA) by apply rd_bytes_length.
  assert (Hpd' : length pd' = SIZEOF_PRVKEY_DATA)
    by (unfold pd'; by rewrite length_buf_write).
  unfold flash_do_write, flash_data_pool_allocate in H. rewrite Hpd' in H.
  change (Nat.odd (2 + SIZEOF_PRVKEY_DATA)) with false in H. cbv iota in H.
  destruct (Nat.leb_spec (last_p s + (2 + SIZEOF_PRVKEY_DATA)) (length (data_pool s)))
    as [Hroom|]; [|injection H as H _; discriminate].
  cbv beta iota zeta in H. injection H as <-.
  set (t := last_p s) in *.
  pose proof (Hwf _ _ Hp) as Hpt. fold t in Hpt.
  (* the state after *)
  assert (Hp' : arr_get (do_ptr (flash_do_release p
                  (set_do_ptr (arr_set (do_ptr s) (nr - NR_DO__FIRST__) (Some (S t)))
                     (set_data_pool (flash_do_write_internal (data_pool s) t nr pd')
                        (set_last_p (t + (2 + SIZEOF_PRVKEY_DATA)) s)))))
                 (nr - NR_DO__FIRST__) = Some (S t)).
  { cbn [flash_do_release do_ptr set_data_pool set_do_ptr].
    apply arr_get_set_eq; [unfold NR_DO__FIRST__; lia|].
    rewrite Hptrs. unfold NR_DO__FIRST__, NR_DO__LAST__. lia. }
  set (s' := flash_do_release p _) in *.
  assert (Hcl : length (do_cell nr pd') = 70%nat)
    by (rewrite length_do_cell, Hpd'; reflexivity).
  assert (Hrec : rd_bytes (data_pool s') (S t + 1) SIZEOF_PRVKEY_DATA = pd').
  { unfold s'. cbn [flash_do_release data_pool set_data_pool set_do_ptr set_last_p].
    unfold flash_put_data_internal, flash_do_write_internal.
    rewrite rd_bytes_flash_program_out by (simpl; lia).
    replace (S t + 1)%nat with (t + 2)%nat by lia.
    rewrite rd_bytes_flash_program_in
      by (rewrite Hcl; unfold SIZEOF_PRVKEY_DATA in *; lia).
    unfold do_cell. cbn [app drop]. rewrite drop_0, take_app_length'; done. }
  assert (Hks : keystore s' = keystore s) by reflexivity.
  assert (Hopen : forall who ks pd1,
            open_record pd1 who ks s' = open_record pd1 who ks s).
  { intros. unfold open_record. by rewrite (key_read_frame s s'). }
  assert (Hlow : forall off n, (off + n <= 20)%nat ->
            buf_read pd' off n = buf_read pd off n).
  { intros off n Hn. unfold pd'. apply buf_read_write_out. lia. }
  assert (Hrest : forall who ks, 1 <= who <= 3 -> who <> who_new ->
            open_record pd' who ks s = open_record pd who ks s).
  { intros who ks Hw Hne. unfold open_record, PD_KEY_ADDR, PD_CRM_ENCRYPTED,
      ADDITIONAL_DATA_SIZE.
    rewrite (Hlow 0%nat 4%nat), (Hlow 4%nat 16%nat) by lia. do 2 f_equal. unfold pd'.
    apply buf_read_write_out. rewrite Hdek.
    unfold DATA_ENCRYPTION_KEY_SIZE. lia. }
  assert (Hsame : open_record pd' who_new new_ks s = open_record pd who_old old_ks s).
  { unfold open_record, PD_KEY_ADDR, PD_CRM_ENCRYPTED, ADDITIONAL_DATA_SIZE.
    rewrite (Hlow 0%nat 4%nat), (Hlow 4%nat 16%nat) by lia. f_equal. unfold pd'.
    rewrite <- Hdek at 1.
    rewrite buf_read_write
      by (rewrite Hdek, Hpd; unfold DATA_ENCRYPTION_KEY_SIZE, SIZEOF_PRVKEY_DATA; lia).
    unfold dek. by rewrite decrypt_encrypt. }
  split.
  - unfold same_key.
    rewrite (load_prvkey_open kk who_new new_ks s' (S t) Hp' Hnew).
    rewrite (load_prvkey_open kk who_old old_ks s p Hp Hold).
    cbv zeta. fold pd. rewrite Hrec, Hopen, Hsame. done.
  - intros who ks Hw Hne. unfold same_key.
    rewrite (load_prvkey_open kk who ks s' (S t) Hp' Hw).
    rewrite (load_prvkey_open kk who ks s p Hp Hw).
    cbv zeta. fold pd. rewrite Hrec, Hopen, Hrest by done. done.
Qed.

End Rekey.

(** * Deleting a private key that is there *)

Section KeyDelete.
Context {C : Collaborators}.

(** A key import of at most 22 bytes for a role that holds a private key
    deletes the key: the import succeeds, the role has no key any more
    ([gpg_do_load_prvkey] returns 0 and changes nothing, whoever asks), the
    slot of the key in the key store is free again, [num_prv_keys] is one
    less, the keys of the other roles are where they were, and when the
    key was the last one ([num_prv_keys] was 1) the keystrings of PW1 and
    of the resetting code are erased. *)
Theorem key_import_deletes_key (kk : kind_of_key) (data : list Z) (s : state)
    (p : nat) :
  nth 4 data 0 = kk_byte kk ->
  (length data <= 22)%nat ->
  arr_get (do_ptr s) (get_do_ptr_nr_for_kk kk - NR_DO__FIRST__) = Some p ->
  let key_addr := Z.to_nat (le32_value (rd_bytes (data_pool s) (p + 1) 4)) in
  let s' := snd (proc_key_import data s) in
  fst (proc_key_import data s) = 1
  /\ (forall who ks, gpg_do_load_prvkey kk who ks s' = (0, s'))
  /\ keystore s' = match key_slot_of key_addr with
                   | Some i => <[i:=None]> (keystore s)
                   | None => keystore s
                   end
  /\ num_prv_keys s' = i8 (num_prv_keys s - 1)
  /\ (forall kk', kk' <> kk ->
        arr_get (do_ptr s') (get_do_ptr_nr_for_kk kk' - NR_DO__FIRST__)
        = arr_get (do_ptr s) (get_do_ptr_nr_for_kk kk' - NR_DO__FIRST__))
  /\ (num_prv_keys s = 1 ->
        gpg_do_read_simple NR_DO_KEYSTRING_PW1 s' = None
        /\ gpg_do_read_simple NR_DO_KEYSTRING_RC s' = None).
Proof.
  intros Hbyte Hlen Hp key_addr s'.
  assert (Hkk : (if nth 4 data 0 =? 0xb6 then GPG_KEY_FOR_SIGNING
                 else if nth 4 data 0 =? 0xb8 then GPG_KEY_FOR_DECRYPTION
                 else GPG_KEY_FOR_AUTHENTICATION) = kk)
    by (rewrite Hbyte; destruct kk; reflexivity).
  set (nr := get_do_ptr_nr_for_kk kk) in *.
  set (s0 := flash_do_release p (flash_key_release key_addr s)).
  assert (Hn0 : num_prv_keys s0 = num_prv_keys s).
  { unfold s0, flash_do_release, flash_key_release.
    by destruct (key_slot_of key_addr). }
  set (s1 := set_num_prv_keys (i8 (num_prv_keys s0 - 1))
               (set_do_ptr (arr_set (do_ptr s0) (nr - NR_DO__FIRST__) None) s0)).
  assert (Hs' : s' = if num_prv_keys s1 =? 0
                     then gpg_do_write_simple NR_DO_KEYSTRING_RC None
                            (gpg_do_write_simple NR_DO_KEYSTRING_PW1 None s1)
                     else s1).
  { unfold s', proc_key_import. rewrite Hkk, (proj2 (Nat.leb_le _ _)) by done.
    fold nr. rewrite Hp. reflexivity. }
  assert (Hp0 : do_ptr s0 = do_ptr s).
  { unfold s0, flash_do_release, flash_key_release.
    by destruct (key_slot_of key_addr). }
  assert (Hk0 : keystore s0 = match key_slot_of key_addr with
                              | Some i => <[i:=None]> (keystore s)
                              | None => keystore s
                              end).
  { unfold s0, flash_do_release, flash_key_release.
    by destruct (key_slot_of key_addr). }
  set (s2 := gpg_do_write_simple NR_DO_KEYSTRING_PW1 None s1) in *.
  set (s3 := gpg_do_write_simple NR_DO_KEYSTRING_RC None s2) in *.
  destruct (write_simple_null_fields NR_DO_KEYSTRING_PW1 s1) as [Hp2 Hn2].
  destruct (write_simple_null_fields NR_DO_KEYSTRING_RC s2) as [Hp3 Hn3].
  destruct (write_simple_null_frame NR_DO_KEYSTRING_PW1 s1) as (_ & _ & Hk2 & _).
  destruct (write_simple_null_frame NR_DO_KEYSTRING_RC s2) as (_ & _ & Hk3 & _).
  fold s2 in Hp2, Hn2, Hk2. fold s3 in Hp3, Hn3, Hk3.
  assert (Hnr : 15 <= nr <= 17)
    by (unfold nr; destruct kk; vm_compute; split; discriminate).
  assert (Hptr1 : forall j, arr_get (do_ptr s1) j
                            = if decide (j = nr - NR_DO__FIRST__) then None
                              else arr_get (do_ptr s) j).
  { intros j. unfold s1. cbn [do_ptr set_num_prv_keys set_do_ptr]. rewrite Hp0.
    destruct (decide _) as [->|Hne]; [apply arr_get_set_None|].
    by apply arr_get_set_ne. }
  assert (Hptr' : forall j, 14 <= j <= 16 ->
            arr_get (do_ptr s') j
            = if decide (j = nr - NR_DO__FIRST__) then None
              else arr_get (do_ptr s) j).
  { intros j Hj. rewrite Hs'. destruct (num_prv_keys s1 =? 0); [|apply Hptr1].
    rewrite Hp3, arr_get_set_ne by (unfold NR_DO_KEYSTRING_RC, NR_DO__FIRST__; lia).
    rewrite Hp2, arr_get_set_ne by (unfold NR_DO_KEYSTRING_PW1, NR_DO__FIRST__; lia).
    apply Hptr1. }
  split; [|split; [|split; [|split; [|split]]]].
  - unfold proc_key_import. by rewrite (proj2 (Nat.leb_le _ _)) by done.
  - intros who ks. unfold gpg_do_load_prvkey. fold nr.
    rewrite Hptr' by (unfold NR_DO__FIRST__; lia).
    by rewrite decide_True.
  - rewrite Hs'. destruct (num_prv_keys s1 =? 0); [|exact Hk0].
    by rewrite Hk3, Hk2.
  - rewrite <- Hn0. rewrite Hs'. destruct (num_prv_keys s1 =? 0); [|done].
    by rewrite Hn3, Hn2.
  - intros kk' Hne.
    rewrite Hptr' by (destruct kk'; vm_compute; split; discriminate).
    rewrite decide_False; [done|].
    unfold nr. destruct kk, kk'; try done; vm_compute; discriminate.
  - intros H1. rewrite Hs'.
    change (num_prv_keys s1) with (i8 (num_prv_keys s0 - 1)). rewrite Hn0, H1.
    change (i8 (1 - 1) =? 0) with true. cbv iota.
    unfold gpg_do_read_simple. rewrite Hp3.
    rewrite arr_get_set_None, arr_get_set_ne by discriminate.
    rewrite Hp2, arr_get_set_None. done.
Qed.

End KeyDelete.

(** * A new key opens for the user *)

Section UserKey.
Context {C : Collaborators} {Hok : CollaboratorsOk C}.

#[local] Arguments gpg_do_write_simple : simpl never.
#[local] Arguments flash_do_release : simpl never.
#[local] Arguments flash_key_release : simpl never.

Lemma write_prvkey_dek_slot1 do_data s pd dek ks_pw1 ks_rc s1 :
  write_prvkey_dek do_data s = (pd, dek, ks_pw1, ks_rc, s1) ->
  buf_read pd PD_DEK_ENCRYPTED_1 DATA_ENCRYPTION_KEY_SIZE = dek
  /\ length dek = DATA_ENCRYPTION_KEY_SIZE
  /\ match do_data with
     | Some _ => ks_pw1 = None
     | None => ks_pw1 = gpg_do_read_simple NR_DO_KEYSTRING_PW1 s
               /\ data_pool s1 = data_pool s
     end.
Proof.
  intros H. unfold write_prvkey_dek in H.
  destruct do_data as [do_data|].
  - injection H as <- <- <- <- <-.
    set (pd0 := rd_bytes (data_pool s) (do_data + 1) SIZEOF_PRVKEY_DATA).
    set (d := decrypt (keystring_md_pw3 s)
                (buf_read pd0 PD_DEK_ENCRYPTED_3 DATA_ENCRYPTION_KEY_SIZE)).
    assert (Hd : length d = DATA_ENCRYPTION_KEY_SIZE).
    { unfold d. by rewrite length_decrypt, buf_read_length. }
    assert (Hpd0 : length pd0 = SIZEOF_PRVKEY_DATA) by apply rd_bytes_length.
    set (pd1 := buf_write pd0 PD_DEK_ENCRYPTED_3 d).
    assert (Hd1 : buf_read pd1 PD_DEK_ENCRYPTED_3 DATA_ENCRYPTION_KEY_SIZE = d).
    { unfold pd1. rewrite <- Hd at 1. apply buf_read_write.
      rewrite Hd, Hpd0. vm_compute. lia. }
    rewrite Hd1. split; [|by split].
    rewrite buf_read_write_out by (vm_compute; lia).
    rewrite <- Hd at 1. apply buf_read_write.
    unfold pd1. rewrite length_buf_write, Hd, Hpd0. vm_compute. lia.
  - unfold random_bytes_get, random_take in H.
    injection H as <- <- <- <- <-.
    set (dek := resize DATA_ENCRYPTION_KEY_SIZE 0 (random_bytes s)).
    assert (Hd : length dek = DATA_ENCRYPTION_KEY_SIZE) by apply length_resize.
    split; [|by split].
    rewrite !buf_read_write_out by (rewrite Hd; vm_compute; lia).
    rewrite <- Hd at 1. apply buf_read_write.
    rewrite Hd. vm_compute. lia.
Qed.

Lemma write_prvkey_record_slot1 pd dek key_addr ks_pw1 ks_rc keystring s :
  length pd = SIZEOF_PRVKEY_DATA ->
  length dek = DATA_ENCRYPTION_KEY_SIZE ->
  buf_read pd PD_DEK_ENCRYPTED_1 DATA_ENCRYPTION_KEY_SIZE = dek ->
  buf_read (write_prvkey_record pd key_addr ks_pw1 ks_rc keystring s)
    PD_DEK_ENCRYPTED_1 DATA_ENCRYPTION_KEY_SIZE
  = encrypt (match ks_pw1 with
             | Some ks_pw1 => rd_bytes (data_pool s) (ks_pw1 + 1) 16
             | None => sha1 OPENPGP_CARD_INITIAL_PW1
             end) dek.
Proof.
  intros Hlen Hd Hdek. unfold write_prvkey_record.
  set (pd1 := buf_write pd PD_KEY_ADDR (le32_bytes (Z.of_nat key_addr))).
  set (pd2 := buf_write pd1 PD_CRM_ENCRYPTED
                (buf_read (kd s) KD_CHECK ADDITIONAL_DATA_SIZE)).
  assert (H2 : length pd2 = SIZEOF_PRVKEY_DATA)
    by (unfold pd2, pd1; by rewrite !length_buf_write).
  assert (Hd2 : buf_read pd2 PD_DEK_ENCRYPTED_1 DATA_ENCRYPTION_KEY_SIZE = dek).
  { unfold pd2, pd1. rewrite !buf_read_write_out; [done| |];
      rewrite ?buf_read_length, ?length_le32_bytes; vm_compute; lia. }
  rewrite Hd2.
  set (k1 := match ks_pw1 with
             | Some q => rd_bytes (data_pool s) (q + 1) 16
             | None => sha1 OPENPGP_CARD_INITIAL_PW1
             end).
  set (pd3 := match ks_pw1 with
              | Some q => buf_write pd2 PD_DEK_ENCRYPTED_1 _
              | None => buf_write pd2 PD_DEK_ENCRYPTED_1 _
              end).
  assert (He : length (encrypt k1 dek) = DATA_ENCRYPTION_KEY_SIZE)
    by (by rewrite length_encrypt).
  assert (H3 : pd3 = buf_write pd2 PD_DEK_ENCRYPTED_1 (encrypt k1 dek)).
  { unfold pd3, k1. by destruct ks_pw1. }
  assert (Hd3 : buf_read pd3 PD_DEK_ENCRYPTED_1 DATA_ENCRYPTION_KEY_SIZE
                = encrypt k1 dek).
  { rewrite H3. rewrite <- He at 1. apply buf_read_write.
    rewrite He, H2. vm_compute. lia. }
  clearbody pd3.
  rewrite buf_read_write_out
    by (rewrite length_encrypt, buf_read_length; vm_compute; lia).
  destruct ks_rc;
    (rewrite buf_read_write_out; [exact Hd3|]);
    rewrite ?length_encrypt, ?buf_read_length, ?length_replicate;
    vm_compute; lia.
Qed.

Lemma encrypt_take key_str data : encrypt (take 16 key_str) data = encrypt key_str data.
Proof. unfold encrypt. by rewrite take_take. Qed.

Lemma rd_bytes_take m a n k : (k <= n)%nat -> take k (rd_bytes m a n) = rd_bytes m a k.
Proof.
  intros Hk. unfold rd_bytes, read_bytes.
  rewrite firstn_map, take_seq. by rewrite Nat.min_l.
Qed.

(** What [gpg_do_write_prvkey] leaves when it returns 0: the record of the
    key in a new cell, with the address of the key, the encrypted check,
    random and magic, and the DEK wrapped for the user; the encrypted key
    in the key store. *)
Lemma write_prvkey_sealed kk key_data keystring s s' :
  length key_data = KEY_CONTENT_LEN ->
  pool_wf s ->
  gpg_do_write_prvkey kk key_data keystring s = (0, s') ->
  exists t pd' key_addr dek kd0,
    sealed s' (get_do_ptr_nr_for_kk kk) t pd' key_addr (encrypt dek kd0)
    /\ length pd' = SIZEOF_PRVKEY_DATA
    /\ buf_read pd' PD_KEY_ADDR 4 = le32_bytes (Z.of_nat key_addr)
    /\ Z.of_nat key_addr < 2 ^ 32
    /\ buf_read pd' PD_CRM_ENCRYPTED ADDITIONAL_DATA_SIZE
       = buf_read (encrypt dek kd0) KD_CHECK ADDITIONAL_DATA_SIZE
    /\ buf_read pd' PD_DEK_ENCRYPTED_1 DATA_ENCRYPTION_KEY_SIZE
       = encrypt (user_keystring kk s) dek
    /\ length kd0 = SIZEOF_KEY_DATA
    /\ take KEY_CONTENT_LEN kd0 = key_data
    /\ buf_read kd0 KD_MAGIC KEY_MAGIC_LEN = resize KEY_MAGIC_LEN 0 GNUK_MAGIC.
Proof.
  intros Hlen Hwfb H. apply pool_wf_spec in Hwfb as (Hptrs & Hwf & Hslots).
  unfold gpg_do_write_prvkey in H.
  set (nr := get_do_ptr_nr_for_kk kk) in *.
  assert (Hnr : 15 <= nr <= 17)
    by (unfold nr; destruct kk; vm_compute; split; discriminate).
  destruct (negb (heap_avail s)); [discriminate|].
  destruct (modulus_calc key_data) as [modulus|]; [|discriminate].
  destruct (flash_key_alloc s) as [key_addr|]; [|discriminate].
  unfold get_random, random_take in H. cbv beta iota zeta in H.
  set (random := le32_value (resize 4 0 (random_bytes s))) in H.
  set (s0 := set_random_bytes (drop 4 (random_bytes s)) s) in H.
  set (kd0 := resize KEY_CONTENT_LEN 0 key_data
              ++ le32_bytes (calc_check32 key_data KEY_CONTENT_LEN)
              ++ le32_bytes random ++ resize KEY_MAGIC_LEN 0 GNUK_MAGIC) in H.
  destruct (kd_plain_spec key_data (calc_check32 key_data KEY_CONTENT_LEN) random Hlen)
    as (Hkd0 & Hdata & Hmagic). fold kd0 in Hkd0, Hdata, Hmagic.
  destruct (write_prvkey_dek _ (set_kd kd0 s0))
    as [[[[pd dek] ks_pw1] ks_rc] s1] eqn:Hdek.
  pose proof (write_prvkey_dek_slot1 _ _ _ _ _ _ _ Hdek) as (Hslot1 & Hdlen & Hks).
  apply write_prvkey_dek_spec in Hdek
    as (Hpd & Hpd_dek & Hkd1 & Hl1 & Hm1 & Hk1 & Hp1 & Hn1 & Hnew).
  simpl in Hkd1, Hl1, Hm1, Hk1, Hp1, Hn1, Hnew.
  set (kd_enc := encrypt dek (kd s1)) in H.
  assert (Hkd_enc : kd_enc = encrypt dek kd0) by (unfold kd_enc; by rewrite Hkd1).
  change (kd (set_kd kd_enc s1)) with kd_enc in H.
  destruct (flash_key_write key_addr kd_enc modulus (set_kd kd_enc s1))
    as [r s3] eqn:Hkw.
  destruct (Z.ltb_spec r 0) as [Hr|Hr]; [injection H as -> _; lia|].
  apply flash_key_write_ok in Hkw as (-> & -> & Hslot & Hidx & Haddr); [|done].
  simpl in Hidx, Haddr.
  set (s4 := ac_reset_pso_cds _) in H.
  destruct (write_prvkey_record_spec pd dek key_addr ks_pw1 ks_rc keystring s4 Hpd Hpd_dek)
    as (Hpd' & Haddr' & Hcrm' & Hdek').
  pose proof (write_prvkey_record_slot1 pd dek key_addr ks_pw1 ks_rc keystring s4
                Hpd Hdlen Hslot1) as Hslot1'.
  set (pd' := write_prvkey_record pd key_addr ks_pw1 ks_rc keystring s4) in *.
  change (kd s4) with kd_enc in Hcrm'.
  change (data_pool s4) with (data_pool s1) in Hslot1'.
  assert (Huser : buf_read pd' PD_DEK_ENCRYPTED_1 DATA_ENCRYPTION_KEY_SIZE
                  = encrypt (user_keystring kk s) dek).
  { rewrite Hslot1'. unfold user_keystring. fold nr.
    destruct (arr_get (do_ptr s) (nr - NR_DO__FIRST__)) as [old|].
    - by rewrite Hks.
    - destruct Hks as [-> Hpool]. rewrite Hpool.
      change (gpg_do_read_simple NR_DO_KEYSTRING_PW1 (set_kd kd0 s0))
        with (gpg_do_read_simple NR_DO_KEYSTRING_PW1 s).
      change (data_pool (set_kd kd0 s0)) with (data_pool s).
      destruct (gpg_do_read_simple NR_DO_KEYSTRING_PW1 s) as [q|]; [|done].
      rewrite <- (encrypt_take (rd_bytes _ _ KEYSTRING_MD_SIZE)).
      by rewrite rd_bytes_take by (vm_compute; lia). }
  unfold flash_do_write, flash_data_pool_allocate in H.
  change (last_p s4) with (last_p s1) in H.
  change (data_pool s4) with (data_pool s1) in H.
  rewrite Hpd' in H.
  change (Nat.odd (2 + SIZEOF_PRVKEY_DATA)) with false in H. cbv iota in H.
  destruct (Nat.leb_spec (last_p s1 + (2 + SIZEOF_PRVKEY_DATA)) (length (data_pool s1)))
    as [Hroom|]; [|discriminate].
  cbv beta iota zeta in H.
  set (t := last_p s1) in *.
  set (s6 := set_do_ptr _ _) in H.
  assert (Hcl : length (do_cell nr pd') = 70%nat)
    by (rewrite length_do_cell, Hpd'; reflexivity).
  assert (Hsealed : sealed s6 nr t pd' key_addr kd_enc).
  { unfold sealed, s6. simpl. split; [|split; [|split]].
    - apply arr_get_set_eq; [unfold NR_DO__FIRST__; lia|].
      rewrite Hp1, Hptrs. unfold NR_DO__FIRST__, NR_DO__LAST__. lia.
    - unfold cell_at, flash_do_write_internal.
      apply rd_bytes_flash_program.
      unfold SIZEOF_PRVKEY_DATA in Hroom. lia.
    - rewrite length_app, Hpd'. simpl. unfold SIZEOF_PRVKEY_DATA. lia.
    - apply (key_read_written _ (key_addr / KEY_SLOT_SIZE)%nat _ _ modulus);
        [done| |].
      + simpl. by rewrite list_lookup_insert_eq.
      + rewrite Hkd_enc, length_encrypt, Hkd0. vm_compute. lia. }
  assert (Hdone : forall sf, sealed sf nr t pd' key_addr kd_enc ->
            sealed sf nr t pd' key_addr (encrypt dek kd0)
            /\ length pd' = SIZEOF_PRVKEY_DATA
            /\ buf_read pd' PD_KEY_ADDR 4 = le32_bytes (Z.of_nat key_addr)
            /\ Z.of_nat key_addr < 2 ^ 32
            /\ buf_read pd' PD_CRM_ENCRYPTED ADDITIONAL_DATA_SIZE
               = buf_read (encrypt dek kd0) KD_CHECK ADDITIONAL_DATA_SIZE
            /\ buf_read pd' PD_DEK_ENCRYPTED_1 DATA_ENCRYPTION_KEY_SIZE
               = encrypt (user_keystring kk s) dek
            /\ length kd0 = SIZEOF_KEY_DATA
            /\ take KEY_CONTENT_LEN kd0 = key_data
            /\ buf_read kd0 KD_MAGIC KEY_MAGIC_LEN = resize KEY_MAGIC_LEN 0 GNUK_MAGIC).
  { intros sf Hsf. rewrite <- Hkd_enc. repeat split; try done.
    - by destruct Hsf as (? & ? & ? & ?).
    - by destruct Hsf as (? & ? & ? & ?).
    - by destruct Hsf as (? & ? & ? & ?).
    - by destruct Hsf as (? & ? & ? & ?).
    - rewrite Hk1 in Haddr. simpl in Haddr. lia. }
  exists t, pd', key_addr, dek, kd0.
  destruct (arr_get (do_ptr s) (nr - NR_DO__FIRST__)) as [old|] eqn:Hold.
  - injection H as <-. by apply Hdone.
  - specialize (Hnew eq_refl).
    set (s7 := set_num_prv_keys _ s6) in H.
    assert (Hs7 : sealed s7 nr t pd' key_addr kd_enc) by exact Hsealed.
    assert (Hq : forall j q, j <> nr - NR_DO__FIRST__ ->
              arr_get (do_ptr s7) j = Some q -> (1 <= q < t)%nat).
    { intros j q Hj Hq. unfold s7, s6 in Hq. simpl in Hq.
      rewrite arr_get_set_ne in Hq by done. rewrite Hnew in Hq.
      apply Hwf in Hq. rewrite Hl1. done. }
    destruct (num_prv_keys s7 =? NUM_ALL_PRV_KEYS).
    + injection H as <-. apply Hdone.
      apply sealed_trim_keystrings; try done.
      * unfold NR_DO_KEYSTRING_PW1. lia.
      * unfold NR_DO_KEYSTRING_RC. lia.
      * intros q. apply Hq. unfold NR_DO_KEYSTRING_PW1, NR_DO__FIRST__. lia.
      * intros q. apply Hq. unfold NR_DO_KEYSTRING_RC, NR_DO__FIRST__. lia.
    + injection H as <-. by apply Hdone.
Qed.

(** A private key that [gpg_do_write_prvkey] has written (it returned 0)
    opens for the user: [gpg_do_load_prvkey] with the role of the user and
    the keystring of PW1 (the stored one, or the digest of the initial PW1
    when none is stored or the role held a key before) returns 1 and leaves
    the key in [kd]. *)
Theorem import_opens_for_user (kk : kind_of_key) (key_data keystring : list Z)
    (s s' : state) :
  length key_data = KEY_CONTENT_LEN ->
  pool_wf s ->
  gpg_do_write_prvkey kk key_data keystring s = (0, s') ->
  exists s'',
    gpg_do_load_prvkey kk BY_USER (user_keystring kk s) s' = (1, s'')
    /\ take KEY_CONTENT_LEN (kd s'') = key_data.
Proof.
  intros Hlen Hwf H.
  destruct (write_prvkey_sealed kk key_data keystring s s' Hlen Hwf H)
    as (t & pd' & key_addr & dek & kd0 & (Hptr & Hcell & Htail & Hkey)
        & Hpd' & Haddr & Hlt & Hcrm & Huser & Hkd0 & Hdata & Hmagic).
  set (nr := get_do_ptr_nr_for_kk kk) in *.
  assert (Hcl : length (do_cell nr pd') = 70%nat)
    by (rewrite length_do_cell, Hpd'; reflexivity).
  assert (Hrec : rd_bytes (data_pool s') (S t + 1) SIZEOF_PRVKEY_DATA = pd').
  { replace (S t + 1)%nat with (t + 2)%nat by lia.
    rewrite (rd_bytes_sub _ t 70) by (unfold SIZEOF_PRVKEY_DATA; lia).
    unfold cell_at in Hcell. rewrite Hcl in Hcell. rewrite Hcell.
    unfold buf_read. rewrite read_bytes_in_range by (rewrite Hcl; vm_compute; lia).
    unfold do_cell. cbn [app drop]. rewrite drop_0, take_app_length'; done. }
  assert (Hwho : 1 <= BY_USER <= 3) by (unfold BY_USER; lia).
  rewrite (load_prvkey_open kk BY_USER _ s' (S t) Hptr Hwho). cbv zeta.
  rewrite Hrec.
  assert (Hopen : open_record pd' BY_USER (user_keystring kk s) s' = kd0).
  { unfold open_record.
    change (Z.to_nat (4 + 16 * BY_USER)) with PD_DEK_ENCRYPTED_1.
    rewrite Huser, decrypt_encrypt, Haddr, le32_value_bytes by lia.
    rewrite Nat2Z.id, Hkey, Hcrm.
    assert (Hke : length (encrypt dek kd0) = SIZEOF_KEY_DATA)
      by (by rewrite length_encrypt).
    assert (Hwhole : take KEY_CONTENT_LEN (encrypt dek kd0)
                     ++ buf_read (encrypt dek kd0) KD_CHECK ADDITIONAL_DATA_SIZE
                     = encrypt dek kd0).
    { unfold buf_read. rewrite read_bytes_in_range by (rewrite Hke; done).
      rewrite (take_ge (drop _ _)) by (rewrite length_drop, Hke; done).
      apply take_drop. }
    by rewrite Hwhole, decrypt_encrypt. }
  rewrite Hopen, Hmagic, memcmp_eq_refl. cbn [negb].
  eexists. split; [reflexivity|]. done.
Qed.

End UserKey.

(** * Setting the resetting code *)

Section ResettingCode.
Context {C : Collaborators}.

Lemma change_keystring_no_key who_old old_ks who_new new_ks s :
  (forall kk, arr_get (do_ptr s) (get_do_ptr_nr_for_kk kk - NR_DO__FIRST__) = None) ->
  gpg_change_keystring who_old old_ks who_new new_ks s = (0, s).
Proof.
  intros Hno. unfold gpg_change_keystring, gpg_do_load_prvkey, gpg_do_chks_prvkey.
  repeat (rewrite Hno; cbn [Z.ltb Z.compare orb]). reflexivity.
Qed.

Lemma reset_pw_err_counter_frame which s :
  do_ptr (gpg_reset_pw_err_counter which s) = do_ptr s
  /\ data_pool (gpg_reset_pw_err_counter which s)
     = match arr_get (pw_err_counter_p s) which with
       | Some p => flash_put_data_internal (data_pool s) (p - 2) 0
       | None => data_pool s
       end.
Proof.
  unfold gpg_reset_pw_err_counter, flash_cnt123_clear.
  destruct (arr_get (pw_err_counter_p s) which) as [p|] eqn:Hp.
  - cbn [pw_err_counter_p set_pw_err_counter_p set_data_pool].
    by destruct (arr_get (arr_set _ _ _) _).
  - by rewrite Hp.
Qed.

(** PUT DATA of a resetting code (tag D3) by the admin on a card without
    private key stores the keystring of the code, which is the length of
    the code in one byte and its SHA-1 digest, resets the error counter of
    the resetting code and succeeds, when the pool has room for the cell of
    the keystring. *)
Theorem put_resetting_code (data : list Z) (s : state) :
  auth_admin s = true ->
  pool_wf s ->
  (forall kk, arr_get (do_ptr s) (get_do_ptr_nr_for_kk kk - NR_DO__FIRST__) = None) ->
  (forall q, arr_get (pw_err_counter_p s) PW_ERR_RC = Some q ->
     (2 <= q <= last_p s)%nat) ->
  pool_has_room (2 + KEYSTRING_SIZE_RC) s ->
  let s' := gpg_do_put_data GPG_DO_RESETTING_CODE data s in
  res_APDU s' = RES_SW GPG_SUCCESS
  /\ (exists q, gpg_do_read_simple NR_DO_KEYSTRING_RC s' = Some q
                /\ rd_bytes (data_pool s') q KEYSTRING_SIZE_RC
                   = u8 (Z.of_nat (length data))
                     :: resize KEYSTRING_MD_SIZE 0 (sha1 data))
  /\ gpg_get_pw_err_counter PW_ERR_RC s' = 0.
Proof.
  intros Hauth Hwfb Hno Hcnt Hroom s'.
  apply pool_wf_spec in Hwfb as (Hptrs & Hwf & _).
  set (ks0 := u8 (Z.of_nat (length data)) :: resize KEYSTRING_MD_SIZE 0 (sha1 data)).
  assert (Hks0 : length ks0 = KEYSTRING_SIZE_RC).
  { unfold ks0. cbn [length]. by rewrite length_resize. }
  set (s2 := gpg_do_write_simple NR_DO_KEYSTRING_RC (Some ks0) s).
  assert (Hs' : s' = set_res_APDU (RES_SW GPG_SUCCESS)
                       (gpg_reset_pw_err_counter PW_ERR_RC s2)).
  { unfold s', gpg_do_put_data.
    change (get_do_entry GPG_DO_RESETTING_CODE)
      with (Some (mkEntry GPG_DO_RESETTING_CODE DO_PROC_WRITE AC_NEVER
                    AC_ADMIN_AUTHORIZED (OBJ_WRITE proc_resetting_code))).
    cbn [ac_write ac_check_status do_type_of obj]. rewrite Hauth. cbn [negb].
    unfold proc_resetting_code. rewrite change_keystring_no_key by done.
    cbn [Z.ltb Z.eqb Z.compare].
    replace (take KEYSTRING_SIZE_RC
               (u8 (Z.of_nat (length data)) :: resize KEYSTRING_MD_SIZE 0 (sha1 data)))
      with ks0 by (symmetry; apply take_ge; rewrite Hks0; done).
    reflexivity. }
  (* the keystring cell *)
  set (s1 := match arr_get (do_ptr s) (NR_DO_KEYSTRING_RC - NR_DO__FIRST__) with
             | Some p => flash_do_release p s
             | None => s
             end).
  assert (Hs1 : do_ptr s1 = do_ptr s /\ last_p s1 = last_p s
                /\ length (data_pool s1) = length (data_pool s)
                /\ pw_err_counter_p s1 = pw_err_counter_p s).
  { unfold s1.
    destruct (arr_get (do_ptr s) (NR_DO_KEYSTRING_RC - NR_DO__FIRST__)); [|done].
    unfold flash_do_release, flash_put_data_internal. simpl.
    by rewrite length_flash_program. }
  destruct Hs1 as (Hp1 & Hl1 & Hm1 & Hc1).
  assert (Hroom1 : pool_has_room (2 + length ks0) s1).
  { unfold pool_has_room in *. by rewrite Hks0, Hl1, Hm1. }
  assert (Hs2 : s2 = set_do_ptr
                       (arr_set (do_ptr s) (NR_DO_KEYSTRING_RC - NR_DO__FIRST__)
                          (Some (S (last_p s))))
                       (set_data_pool
                          (flash_program (data_pool s1) (last_p s)
                             (do_cell NR_DO_KEYSTRING_RC ks0))
                          (set_last_p (last_p s + length (do_cell NR_DO_KEYSTRING_RC ks0)) s1))).
  { unfold s2, gpg_do_write_simple. fold s1.
    rewrite (flash_do_write_room _ _ s1 Hroom1). cbv zeta.
    cbn [do_ptr set_data_pool set_last_p]. by rewrite Hp1, Hl1. }
  assert (Hfit : (last_p s + length (do_cell NR_DO_KEYSTRING_RC ks0)
                  <= length (data_pool s1))%nat).
  { rewrite length_do_cell. unfold pool_has_room in Hroom1.
    by rewrite Hl1 in Hroom1. }
  assert (Hcell : rd_bytes (data_pool s2) (S (S (last_p s))) KEYSTRING_SIZE_RC = ks0).
  { rewrite Hs2. cbn [data_pool set_do_ptr set_data_pool].
    rewrite <- Hks0.
    replace (S (S (last_p s))) with (S (last_p s) + 1)%nat by lia.
    by apply rd_do_cell_data. }
  assert (Hptr2 : gpg_do_read_simple NR_DO_KEYSTRING_RC s2 = Some (S (S (last_p s)))).
  { unfold gpg_do_read_simple. rewrite Hs2. cbn [do_ptr set_do_ptr].
    rewrite arr_get_set_eq; [done|unfold NR_DO_KEYSTRING_RC, NR_DO__FIRST__; lia|].
    rewrite Hptrs. vm_compute. lia. }
  assert (Hc2 : pw_err_counter_p s2 = pw_err_counter_p s).
  { rewrite Hs2. cbn [pw_err_counter_p set_do_ptr set_data_pool set_last_p]. done. }
  assert (Hl2 : (last_p s + 2 <= last_p s2)%nat).
  { rewrite Hs2. cbn [last_p set_do_ptr set_data_pool set_last_p].
    rewrite length_do_cell, Hks0. unfold KEYSTRING_SIZE_RC. simpl. lia. }
  destruct (reset_pw_err_counter_frame PW_ERR_RC s2) as [Hp3 Hm3].
  split; [by rewrite Hs'|split].
  - exists (S (S (last_p s))). rewrite Hs'. split.
    + unfold gpg_do_read_simple in *.
      cbn [do_ptr set_res_APDU]. by rewrite Hp3.
    + cbn [data_pool set_res_APDU]. rewrite Hm3, Hc2.
      destruct (arr_get (pw_err_counter_p s) PW_ERR_RC) as [cq|] eqn:Hcq;
        [|exact Hcell].
      specialize (Hcnt cq eq_refl). unfold flash_put_data_internal.
      rewrite rd_bytes_flash_program_out by (simpl; lia). exact Hcell.
  - rewrite Hs'.
    change (gpg_get_pw_err_counter PW_ERR_RC (set_res_APDU _ ?x))
      with (gpg_get_pw_err_counter PW_ERR_RC x).
    apply pw_err_counter_reset.
Qed.

End ResettingCode.

(** ** Witnesses on the card with a signing key *)

Lemma chks_prvkey_keeps_key_witness :
  same_key
    (gpg_do_load_prvkey (C:=Stub.collaborators) GPG_KEY_FOR_SIGNING BY_RESETCODE
       new_keystring
       (snd (gpg_do_chks_prvkey (C:=Stub.collaborators) GPG_KEY_FOR_SIGNING
               BY_ADMIN sample_keystring BY_RESETCODE new_keystring
               (snd card_sig_key))))
    (gpg_do_load_prvkey (C:=Stub.collaborators) GPG_KEY_FOR_SIGNING BY_ADMIN
       sample_keystring (snd card_sig_key)).
Proof.
  refine (proj1 (chks_prvkey_keeps_key (C:=Stub.collaborators)
                   (Hok:=stub_collaborators_ok) GPG_KEY_FOR_SIGNING
                   BY_ADMIN BY_RESETCODE sample_keystring new_keystring
                   (snd card_sig_key) _ _ _ _ _)).
  - unfold BY_ADMIN. lia.
  - unfold BY_RESETCODE. lia.
  - vm_compute. reflexivity.
  - vm_compute. reflexivity.
Defined.

Lemma key_import_deletes_key_witness :
  fst (proc_key_import (C:=Stub.collaborators)
         (key_delete_data GPG_KEY_FOR_SIGNING) (snd card_sig_key)) = 1
  /\ forall who ks,
       gpg_do_load_prvkey (C:=Stub.collaborators) GPG_KEY_FOR_SIGNING who ks
         (snd (proc_key_import (C:=Stub.collaborators)
                 (key_delete_data GPG_KEY_FOR_SIGNING) (snd card_sig_key)))
       = (0, snd (proc_key_import (C:=Stub.collaborators)
                    (key_delete_data GPG_KEY_FOR_SIGNING) (snd card_sig_key))).
Proof.
  pose proof (key_import_deletes_key (C:=Stub.collaborators) GPG_KEY_FOR_SIGNING
                (key_delete_data GPG_KEY_FOR_SIGNING) (snd card_sig_key) 1%nat)
    as H.
  destruct H as (H1 & H2 & _).
  - reflexivity.
  - vm_compute. lia.
  - vm_compute. reflexivity.
  - split; [exact H1|exact H2].
Defined.

Lemma import_opens_for_user_witness :
  exists s'',
    gpg_do_load_prvkey (C:=Stub.collaborators) GPG_KEY_FOR_SIGNING BY_USER
      (user_keystring (C:=Stub.collaborators) GPG_KEY_FOR_SIGNING
         (admin_card 256 3 sample_keystring)) (snd card_sig_key) = (1, s'')
    /\ take KEY_CONTENT_LEN (kd s'') = sample_key.
Proof.
  apply (import_opens_for_user (C:=Stub.collaborators)
           (Hok:=stub_collaborators_ok)
           GPG_KEY_FOR_SIGNING sample_key sample_keystring
           (admin_card 256 3 sample_keystring)).
  - reflexivity.
  - vm_compute. reflexivity.
  - vm_compute. reflexivity.
Defined.

Lemma put_resetting_code_witness :
  res_APDU (gpg_do_put_data (C:=Stub.collaborators) GPG_DO_RESETTING_CODE
              [0x31; 0x32; 0x33; 0x34; 0x35; 0x36; 0x37; 0x38]
              (admin_card 64 3 [])) = RES_SW GPG_SUCCESS.
Proof.
  refine (proj1 (put_resetting_code (C:=Stub.collaborators)
                   [0x31; 0x32; 0x33; 0x34; 0x35; 0x36; 0x37; 0x38]
                   (admin_card 64 3 []) _ _ _ _ _)).
  - reflexivity.
  - vm_compute. reflexivity.
  - intros kk. destruct kk; reflexivity.
  - intros q Hq. vm_compute in Hq. discriminate.
  - unfold pool_has_room. vm_compute. lia.
Defined.

(** * SHA-256: hashing in pieces *)

Lemma flash_program_cons (m : list Z) a x xs :
  flash_program m a (x :: xs) = flash_program (<[a:=x]> m) (S a) xs.
Proof. reflexivity. Qed.

Lemma flash_program_nil (m : list Z) a : flash_program m a [] = m.
Proof. reflexivity. Qed.

Lemma buf_write_app buf off a b :
  buf_write buf off (a ++ b) = buf_write (buf_write buf off a) (off + length a) b.
Proof.
  unfold buf_write. revert buf off. induction a as [|x a IH]; intros buf off.
  - cbn [app length]. by rewrite flash_program_nil, Nat.add_0_r.
  - cbn [app length]. rewrite !flash_program_cons, IH. f_equal. lia.
Qed.

Lemma buf_write_nil buf off : buf_write buf off [] = buf.
Proof. reflexivity. Qed.

Lemma u32_cases x :
  0 <= x < 2 ^ 33 ->
  (x < 2 ^ 32 /\ u32 x = x) \/ (2 ^ 32 <= x /\ u32 x = x - 2 ^ 32).
Proof.
  intros Hx. unfold u32. destruct (Z.lt_ge_cases x (2 ^ 32)) as [Hlt|Hge].
  - left. split; [done|]. apply Z.mod_small. lia.
  - right. split; [done|].
    rewrite <- (Z.mod_small (x - 2 ^ 32) (2 ^ 32)) by lia.
    replace x with (x - 2 ^ 32 + 1 * 2 ^ 32) at 1 by lia.
    apply Z.mod_add. lia.
Qed.

Section Sha256Update.
Import Sha256.
Variable sha_cpool : list Z.

Lemma total_process ctx : total (sha256_process sha_cpool ctx) = total ctx.
Proof. unfold sha256_process. by destruct (fold_left _ _ _). Qed.

Lemma update_loop_fuel fuel fuel' ctx input left :
  (left < SHA256_BLOCK_SIZE)%nat ->
  (length input <= fuel)%nat -> (length input <= fuel')%nat ->
  update_loop sha_cpool fuel ctx input left
  = update_loop sha_cpool fuel' ctx input left.
Proof.
  revert fuel' ctx input left.
  induction fuel as [|fuel IH]; intros fuel' ctx input left Hleft Hf Hf'.
  - destruct input; [|simpl in Hf; lia].
    destruct fuel'; cbn [update_loop length];
      rewrite (proj2 (Nat.leb_gt _ _)) by lia; done.
  - destruct fuel' as [|fuel'].
    + destruct input; [|simpl in Hf'; lia].
      cbn [update_loop length]. rewrite (proj2 (Nat.leb_gt _ _)) by lia. done.
    + cbn [update_loop].
      destruct (Nat.leb_spec (SHA256_BLOCK_SIZE - left) (length input)); [|done].
      apply IH; [unfold SHA256_BLOCK_SIZE; lia| |];
        rewrite length_drop; lia.
Qed.

Lemma update_loop_app fuel1 fuel2 fuel a b ctx left :
  (left < SHA256_BLOCK_SIZE)%nat ->
  (length a <= fuel1)%nat -> (length b <= fuel2)%nat ->
  (length a + length b <= fuel)%nat ->
  update_loop sha_cpool fuel ctx (a ++ b) left
  = update_loop sha_cpool fuel2 (update_loop sha_cpool fuel1 ctx a left) b
      ((left + length a) mod SHA256_BLOCK_SIZE).
Proof.
  revert fuel2 fuel a ctx left.
  induction fuel1 as [|fuel1 IH]; intros fuel2 fuel a ctx left Hleft H1 H2 H.
  - destruct a; [|simpl in H1; lia].
    cbn [app length update_loop]. rewrite (proj2 (Nat.leb_gt _ _)) by lia.
    rewrite Nat.add_0_r, Nat.mod_small by done.
    rewrite buf_write_nil.
    replace (set_wbuf (wbuf ctx) ctx) with ctx by (by destruct ctx).
    by apply update_loop_fuel.
  - cbn [update_loop].
    destruct (Nat.leb_spec (SHA256_BLOCK_SIZE - left) (length a)) as [Hge|Hlt].
    + (* the first block is within [a] *)
      destruct fuel as [|fuel]; [lia|]. cbn [update_loop].
      rewrite length_app, (proj2 (Nat.leb_le _ _)) by lia.
      rewrite take_app_le, drop_app_le by lia.
      rewrite (IH fuel2 fuel); [|unfold SHA256_BLOCK_SIZE; lia| | |];
        rewrite ?length_drop; try lia.
      f_equal. cbn [Nat.add].
      replace (left + length a)%nat
        with (length a - (SHA256_BLOCK_SIZE - left) + 1 * SHA256_BLOCK_SIZE)%nat
        by (unfold SHA256_BLOCK_SIZE in *; lia).
      by rewrite Nat.Div0.mod_add.
    + (* [a] does not fill the block *)
      rewrite Nat.mod_small by (unfold SHA256_BLOCK_SIZE in *; lia).
      destruct fuel2 as [|fuel2].
      * destruct b; [|simpl in H2; lia].
        rewrite app_nil_r. cbn [update_loop length].
        rewrite (proj2 (Nat.leb_gt _ _)) by (unfold SHA256_BLOCK_SIZE in *; lia).
        cbn [wbuf set_wbuf]. rewrite buf_write_nil.
        replace (set_wbuf _ (set_wbuf _ ctx))
          with (set_wbuf (buf_write (wbuf ctx) left a) ctx) by (by destruct ctx).
        destruct fuel; cbn [update_loop];
          rewrite (proj2 (Nat.leb_gt _ _)) by lia; done.
      * destruct fuel as [|fuel].
        { destruct a, b; simpl in H; try lia.
          cbn [app length update_loop].
          rewrite (proj2 (Nat.leb_gt _ _)) by (unfold SHA256_BLOCK_SIZE in *; lia).
          rewrite (proj2 (Nat.leb_gt _ _)) by (unfold SHA256_BLOCK_SIZE in *; lia).
          done. }
        cbn [update_loop wbuf set_wbuf]. rewrite length_app.
        replace (SHA256_BLOCK_SIZE - (left + length a))%nat
          with (SHA256_BLOCK_SIZE - left - length a)%nat by lia.
        destruct (Nat.leb_spec (SHA256_BLOCK_SIZE - left) (length a + length b))
          as [Hfull|Hpart].
        -- rewrite (proj2 (Nat.leb_le _ _)) by lia.
           rewrite take_app_ge, drop_app_ge by lia.
           rewrite buf_write_app.
           replace (set_wbuf _ (set_wbuf _ ctx))
             with (set_wbuf
                     (buf_write (buf_write (wbuf ctx) left a) (left + length a)
                        (take (SHA256_BLOCK_SIZE - left - length a) b)) ctx)
             by (by destruct ctx).
           apply update_loop_fuel; [unfold SHA256_BLOCK_SIZE; lia| |];
             rewrite length_drop; lia.
        -- rewrite (proj2 (Nat.leb_gt _ _)) by lia.
           rewrite buf_write_app. by destruct ctx.
Qed.

Lemma process_set_total t ctx :
  sha256_process sha_cpool (set_total t ctx)
  = set_total t (sha256_process sha_cpool ctx).
Proof.
  unfold sha256_process. cbn [wbuf state total set_total].
  by destruct (fold_left _ _ _).
Qed.

Lemma update_loop_set_total fuel t ctx input left :
  update_loop sha_cpool fuel (set_total t ctx) input left
  = set_total t (update_loop sha_cpool fuel ctx input left).
Proof.
  revert ctx input left. induction fuel as [|fuel IH]; intros ctx input left.
  - cbn [update_loop]. by destruct (_ <=? _)%nat.
  - cbn [update_loop]. destruct (_ <=? _)%nat; [|done].
    change (set_wbuf ?w (set_total t ctx)) with (set_total t (set_wbuf w ctx)).
    by rewrite process_set_total, IH.
Qed.

Lemma total_update_loop fuel ctx input left :
  total (update_loop sha_cpool fuel ctx input left) = total ctx.
Proof.
  revert ctx input left. induction fuel as [|fuel IH]; intros ctx input left.
  - cbn [update_loop]. by destruct (_ <=? _)%nat.
  - cbn [update_loop]. destruct (_ <=? _)%nat; [|done].
    by rewrite IH, total_process.
Qed.

(** Hashing a message in two pieces is hashing it in one: two calls of
    [sha256_update], with [a] and then with [b], leave the context that one
    call with [a ++ b] leaves, the byte count, the chaining state and the
    buffer alike, when the two lengths together fit the [unsigned int] of
    [ilen]. *)
Theorem sha256_update_app (ctx : sha256_context) (a b : list Z) :
  context256_ok ctx ->
  Z.of_nat (length a) + Z.of_nat (length b) < 2 ^ 32 ->
  sha256_update sha_cpool (sha256_update sha_cpool ctx a) b
  = sha256_update sha_cpool ctx (a ++ b).
Proof.
  intros Hok Hlen. unfold context256_ok in Hok. unfold sha256_update.
  rewrite !update_loop_set_total. cbn [total set_total nth].
  rewrite ?total_update_loop.
  set (t0 := nth 0 (total ctx) 0) in *. set (t1 := nth 1 (total ctx) 0).
  set (la := Z.of_nat (length a)) in *. set (lb := Z.of_nat (length b)) in *.
  rewrite length_app, Nat2Z.inj_add. fold la lb.
  assert (Hmask : forall x, 0 <= x -> Z.to_nat (Z.land x SHA256_MASK)
                                       = (Z.to_nat x mod SHA256_BLOCK_SIZE)%nat).
  { intros x Hx. change SHA256_MASK with (Z.ones 6).
    rewrite Z.land_ones by lia. change (2 ^ 6) with (Z.of_nat SHA256_BLOCK_SIZE).
    rewrite <- (Z2Nat.id x) at 1 by done.
    rewrite <- Nat2Z.inj_mod. apply Nat2Z.id. }
  assert (Hleft : (Z.to_nat (Z.land t0 SHA256_MASK) < SHA256_BLOCK_SIZE)%nat).
  { rewrite Hmask by lia. apply Nat.mod_upper_bound. done. }
  rewrite (update_loop_app (length a) (length b) (length a + length b))
    by (try done; lia).
  assert (Hl2 : Z.to_nat (Z.land (u32 (t0 + la)) SHA256_MASK)
                = ((Z.to_nat (Z.land t0 SHA256_MASK) + length a)
                   mod SHA256_BLOCK_SIZE)%nat).
  { apply Nat2Z.inj.
    rewrite Nat2Z.inj_mod, Nat2Z.inj_add, !Z2Nat.id
      by (apply Z.land_nonneg; right; done).
    change SHA256_MASK with (Z.ones 6). rewrite !Z.land_ones by lia.
    change (2 ^ 6) with 64. change (Z.of_nat SHA256_BLOCK_SIZE) with 64.
    fold la. rewrite Zplus_mod_idemp_l. unfold u32.
    apply Z.mod_mod_divide. exists (2 ^ 26). reflexivity. }
  rewrite Hl2.
  change (set_total ?x (set_total ?y ?c)) with (set_total x c). f_equal.
  assert (H0 : u32 (u32 (t0 + la) + lb) = u32 (t0 + (la + lb))).
  { unfold u32. rewrite Zplus_mod_idemp_l. f_equal. lia. }
  rewrite H0. f_equal. f_equal.
  assert (Hla : 0 <= la) by (unfold la; lia).
  assert (Hlb : 0 <= lb) by (unfold lb; lia).
  destruct (u32_cases (t0 + la)) as [[Ha Ea]|[Ha Ea]]; [lia| |];
    destruct (u32_cases (t0 + (la + lb))) as [[Hab Eab]|[Hab Eab]]; try lia;
    rewrite Ea, Eab;
    repeat match goal with
           | |- context [?x <? ?y] => destruct (Z.ltb_spec x y); try lia
           end; try done.
Qed.

End Sha256Update.

Lemma sha256_update_app_witness :
  Sha256.sha256_update fips_cpool
    (Sha256.sha256_update fips_cpool (Sha256.sha256_start junk_context256)
       test_abcdbcde)
    test_abc
  = Sha256.sha256_update fips_cpool (Sha256.sha256_start junk_context256)
      (test_abcdbcde ++ test_abc).
Proof.
  apply (sha256_update_app fips_cpool (Sha256.sha256_start junk_context256)
           test_abcdbcde test_abc).
  - unfold context256_ok. simpl. lia.
  - simpl. lia.
Defined.

(** The three vectors of [sha256_test] in sha_test.c: with the constants of
    FIPS 180-4 as the pool, [sha256] gives the digests that the test
    compares with, here from a context on the stack that holds other
    values. *)
Example sha256_test_vectors :
  Sha256.sha256 fips_cpool junk_context256 []
  = [0xe3; 0xb0; 0xc4; 0x42; 0x98; 0xfc; 0x1c; 0x14; 0x9a; 0xfb; 0xf4; 0xc8;
     0x99; 0x6f; 0xb9; 0x24; 0x27; 0xae; 0x41; 0xe4; 0x64; 0x9b; 0x93; 0x4c;
     0xa4; 0x95; 0x99; 0x1b; 0x78; 0x52; 0xb8; 0x55]
  /\ Sha256.sha256 fips_cpool junk_context256 test_abc
     = [0xBA; 0x78; 0x16; 0xBF; 0x8F; 0x01; 0xCF; 0xEA; 0x41; 0x41; 0x40; 0xDE;
        0x5D; 0xAE; 0x22; 0x23; 0xB0; 0x03; 0x61; 0xA3; 0x96; 0x17; 0x7A; 0x9C;
        0xB4; 0x10; 0xFF; 0x61; 0xF2; 0x00; 0x15; 0xAD]
  /\ Sha256.sha256 fips_cpool junk_context256 test_abcdbcde
     = [0x24; 0x8D; 0x6A; 0x61; 0xD2; 0x06; 0x38; 0xB8; 0xE5; 0xC0; 0x26; 0x93;
        0x0C; 0x3E; 0x60; 0x39; 0xA3; 0x3C; 0xE4; 0x59; 0x64; 0xFF; 0x21; 0x67;
        0xF6; 0xEC; 0xED; 0xD4; 0x19; 0xDB; 0x06; 0xC1].
Proof. repeat split; vm_compute; reflexivity. Qed.

(** * The scan of a run of cells *)

Lemma flash_program_app m a bs1 bs2 :
  flash_program m a (bs1 ++ bs2)
  = flash_program (flash_program m a bs1) (a + length bs1) bs2.
Proof. apply buf_write_app. Qed.

Lemma rd_bytes_lookup m a n i :
  (i < n)%nat -> rd_bytes m a n !! i = Some (rd m (a + i)).
Proof.
  intros Hi. unfold rd_bytes. rewrite read_bytes_lookup.
  by rewrite decide_True by done.
Qed.

Lemma rd_of_rd_bytes m a bs i b :
  rd_bytes m a (length bs) = bs -> bs !! i = Some b -> rd m (a + i) = b.
Proof.
  intros Hm Hb. apply lookup_lt_Some in Hb as Hi.
  pose proof (rd_bytes_lookup m a (length bs) i Hi) as H.
  rewrite Hm, Hb in H. by injection H.
Qed.

Lemma rd_bytes_app_inv m a bs1 bs2 :
  rd_bytes m a (length (bs1 ++ bs2)) = bs1 ++ bs2 ->
  rd_bytes m a (length bs1) = bs1
  /\ rd_bytes m (a + length bs1) (length bs2) = bs2.
Proof.
  intros H. split.
  - replace a with (a + 0)%nat by lia.
    unfold rd_bytes in *.
    rewrite (read_bytes_sub _ _ _ (length (bs1 ++ bs2))) by (rewrite length_app; lia).
    rewrite H, drop_0. by rewrite take_app_length.
  - unfold rd_bytes in *.
    rewrite (read_bytes_sub _ _ _ (length (bs1 ++ bs2))) by (rewrite length_app; lia).
    rewrite H. rewrite drop_app_length. by rewrite firstn_all.
Qed.

Lemma length_cell_bytes_even c : Nat.even (length (cell_bytes c)) = true.
Proof.
  destruct c as [nr data| | | |]; try reflexivity.
  unfold cell_bytes. rewrite length_do_cell.
  destruct (Nat.odd (2 + length data)) eqn:Hodd.
  - by rewrite Nat.even_succ.
  - by rewrite <- Nat.negb_odd, Hodd.
Qed.

Lemma length_cell_bytes_pos c : (2 <= length (cell_bytes c))%nat.
Proof.
  destruct c as [nr data| | | |]; unfold cell_bytes; simpl length; lia.
Qed.

Lemma sv_p_scan_cell v c :
  sv_p (scan_cell v c) = (sv_p v + length (cell_bytes c))%nat.
Proof. by destruct c. Qed.

Lemma scan_body_cell m v c :
  Nat.even (sv_p v) = true -> cell_ok c ->
  rd_bytes m (sv_p v) (length (cell_bytes c)) = cell_bytes c ->
  scan_body m v = Some (scan_cell v c).
Proof.
  intros Heven Hok Hm.
  assert (H0 : forall b, cell_bytes c !! 0%nat = Some b -> rd m (sv_p v) = b).
  { intros b Hb. rewrite <- (Nat.add_0_r (sv_p v)).
    by apply (rd_of_rd_bytes m (sv_p v) (cell_bytes c)). }
  assert (H1 : forall b, cell_bytes c !! 1%nat = Some b -> rd m (S (sv_p v)) = b).
  { intros b Hb. replace (S (sv_p v)) with (sv_p v + 1)%nat by lia.
    by apply (rd_of_rd_bytes m (sv_p v) (cell_bytes c)). }
  assert (Hodd : Nat.odd (sv_p v) = false) by (by rewrite <- Nat.negb_even, Heven).
  destruct c as [nr data|hw|hw| |which w]; simpl in Hok;
    [unfold scan_body| |unfold scan_body..].
  - destruct Hok as [Hnr Hlen].
    rewrite (H0 (u8 nr) eq_refl), (H1 (u8 (Z.of_nat (length data))) eq_refl).
    rewrite !u8_small by lia.
    unfold NR_EMPTY, NR_DO__FIRST__.
    destruct (Z.eqb_spec nr 0xff); [lia|].
    destruct (Z.eqb_spec nr 0); [lia|]. cbn [andb].
    destruct (Z.ltb_spec nr 0x80); [|lia].
    unfold scan_cell. rewrite Nat2Z.id, length_do_cell.
    change (Nat.odd (2 + length data)) with (Nat.odd (length data)).
    replace (Nat.odd (S (sv_p v) + length data + 1))
      with (Nat.odd (length data)).
    2:{ replace (S (sv_p v) + length data + 1)%nat
          with (sv_p v + S (S (length data)))%nat by lia.
        rewrite Nat.odd_add, Hodd. done. }
    unfold NR_DO__FIRST__.
    destruct (Nat.odd (length data)); do 2 f_equal; lia.
  - rewrite scan_body_h14 by (by rewrite (H0 (u8 hw) eq_refl)).
    unfold scan_cell. rewrite ?Nat.sub_0_r. do 2 f_equal; lia.
  - rewrite (H0 (u8 hw) eq_refl).
    generalize (rd m (S (sv_p v))). intros b1. revert Hok.
    generalize (u8 hw). intros b0 Hb0.
    unfold NR_EMPTY, NR_BOOL_PW1_LIFETIME, NR_COUNTER_123.
    scan_tests; simpl; try lia; unfold scan_cell; rewrite ?Nat.sub_0_r;
      do 2 f_equal; lia.
  - rewrite (H0 _ eq_refl), (H1 _ eq_refl). vm_compute u8.
    simpl. unfold scan_cell. rewrite ?Nat.sub_0_r. do 2 f_equal; lia.
  - rewrite (H0 _ eq_refl), (H1 _ eq_refl). rewrite (u8_small which) by (unfold PW_ERR_PW3 in Hok; lia).
    change (u8 NR_COUNTER_123) with 0xfe.
    unfold NR_EMPTY, NR_BOOL_PW1_LIFETIME, NR_COUNTER_123.
    change (0xfe =? 0xff) with false. cbv iota.
    change (0xfe =? 0) with false. cbv iota. simpl andb.
    change (0xfe <? 0x80) with false. cbv iota.
    change (0xfe >=? 0x80) with true. change (0xfe <=? 0xbf) with false.
    simpl andb. cbv iota.
    change (0xfe >=? 0xc0) with true. change (0xfe <=? 0xc3) with false.
    simpl andb. cbv iota.
    change (0xfe =? 0xf0) with false. cbv iota.
    change (0xfe =? 0xfe) with true. cbv iota.
    destruct (Z.leb_spec which PW_ERR_PW3); [|lia].
    unfold scan_cell. replace (sv_p v + 2)%nat with (S (S (sv_p v))) by lia.
    do 2 f_equal; lia.
Qed.

Lemma cells_bytes_cons c cs : cells_bytes (c :: cs) = cell_bytes c ++ cells_bytes cs.
Proof. reflexivity. Qed.


Lemma scan_body_empty m v : rd m (sv_p v) = NR_EMPTY -> scan_body m v = None.
Proof. intros H. unfold scan_body. by rewrite H. Qed.

Lemma scan_loop_cells cs : forall fuel m v,
  Nat.even (sv_p v) = true -> Forall cell_ok cs ->
  rd_bytes m (sv_p v) (length (cells_bytes cs)) = cells_bytes cs ->
  rd m (sv_p v + length (cells_bytes cs)) = NR_EMPTY ->
  (length cs < fuel)%nat ->
  scan_loop fuel m v = fold_left scan_cell cs v.
Proof.
  induction cs as [|c cs IH]; intros fuel m v Heven Hok Hm Hend Hfuel.
  - destruct fuel as [|fuel]; [simpl in Hfuel; lia|].
    simpl in *. rewrite Nat.add_0_r in Hend. by rewrite scan_body_empty.
  - destruct fuel as [|fuel]; [simpl in Hfuel; lia|].
    apply Forall_cons in Hok as [Hc Hok].
    rewrite cells_bytes_cons in Hm, Hend.
    apply rd_bytes_app_inv in Hm as [Hm1 Hm2].
    cbn [scan_loop fold_left]. rewrite (scan_body_cell m v c) by done.
    apply IH.
    + rewrite sv_p_scan_cell, Nat.even_add, Heven, length_cell_bytes_even. done.
    + done.
    + by rewrite sv_p_scan_cell.
    + rewrite sv_p_scan_cell. rewrite length_app in Hend.
      by rewrite <- Nat.add_assoc.
    + simpl in Hfuel. lia.
Qed.


Lemma length_cells_bytes cs : (2 * length cs <= length (cells_bytes cs))%nat.
Proof.
  induction cs as [|c cs IH]; simpl; [lia|].
  rewrite cells_bytes_cons, length_app.
  pose proof (length_cell_bytes_pos c). lia.
Qed.











(** * The steps of the copy *)

Lemma same_ptrs_refl v : same_ptrs v v.
Proof. by unfold same_ptrs. Qed.
































(** * The cells of the copy, as the scan reads them *)

Lemma dsc_l10_cell dsc :
  0 <= dsc < 1024 ->
  0xc0 <= u8 (dsc_hw_l10 dsc) <= 0xc3
  /\ u32 (Z.lor (Z.shiftl 0 10)
            (Z.lor (Z.shiftl (u8 (dsc_hw_l10 dsc) - 0xc0) 8)
                   (u8 (Z.shiftr (dsc_hw_l10 dsc) 8)))) = dsc.
Proof.
  intros Hrange.
  assert (Hall : forall_from
            (fun d =>
               let hw1 := dsc_hw_l10 d in
               (0xc0 <=? u8 hw1) && (u8 hw1 <=? 0xc3)
               && (u32 (Z.lor (Z.shiftl 0 10)
                          (Z.lor (Z.shiftl (u8 hw1 - 0xc0) 8)
                                 (u8 (Z.shiftr hw1 8)))) =? d))
            (Z.to_nat 1024) 0 = true) by (vm_compute; reflexivity).
  apply (forall_from_spec _ _ _ dsc) in Hall; [|lia].
  cbv beta zeta in Hall.
  apply andb_prop in Hall as [Hin H3]. apply andb_prop in Hin as [H1 H2].
  apply Z.leb_le in H1, H2. apply Z.eqb_eq in H3. done.
Qed.



























(** * What is written is found by the next scan *)





(** The scan of a pool to which cells were appended: it goes through the
    turns of the scan of the pool as it was, then through the new cells. *)
Lemma scan_after_append m m' v0 cs :
  let w := scan_loop (S (length m)) m v0 in
  (forall j, (j < sv_p w)%nat -> m' !! j = m !! j) ->
  length m' = length m ->
  Nat.even (sv_p w) = true -> Forall cell_ok cs ->
  (sv_p w + length (cells_bytes cs) <= length m)%nat ->
  rd_bytes m' (sv_p w) (length (cells_bytes cs)) = cells_bytes cs ->
  rd m' (sv_p w + length (cells_bytes cs)) = NR_EMPTY ->
  scan_loop (S (length m')) m' v0 = fold_left scan_cell cs w.
Proof.
  intros w Hagree Hlen Heven Hok Hfit Hmem Hstop.
  destruct (scan_loop_prefix (S (length m)) m m' v0 Hagree) as (n & Hn & Hk).
  fold w in Hn, Hk.
  pose proof (length_cells_bytes cs) as Hcs.
  replace (S (length m')) with (n + (S (length m) - n))%nat by lia.
  rewrite Hk. apply scan_loop_cells; try done. lia.
Qed.

Section PutThenScan.
Context {C : Collaborators}.


End PutThenScan.


(** * The signature counter after the next scan *)

Lemma pool_bytes_rd s a : pool_bytes s = true -> 0 <= rd (data_pool s) a <= 255.
Proof.
  unfold pool_bytes, rd. intros H. rewrite forallb_forall in H.
  destruct (data_pool s !! a) as [b|] eqn:Hb; simpl; [|unfold NR_EMPTY; lia].
  apply (list_elem_of_lookup_2 (data_pool s)) in Hb.
  apply list_elem_of_In, H in Hb. apply andb_prop in Hb as [H0 H1].
  apply Z.leb_le in H0, H1. lia.
Qed.

(** The pointers to the cells of the counter point at such cells, below
    [p]. *)
Lemma scan_body_dsc_ptrs m v v' :
  scan_body m v = Some v' ->
  (forall q, sv_dsc_h14_p v = Some q -> (S q < sv_p v)%nat /\ 0x80 <= rd m q <= 0xbf) ->
  (forall q, sv_dsc_l10_p v = Some q -> (S q < sv_p v)%nat /\ 0xc0 <= rd m q <= 0xc3) ->
  (forall q, sv_dsc_h14_p v' = Some q -> (S q < sv_p v')%nat /\ 0x80 <= rd m q <= 0xbf)
  /\ (forall q, sv_dsc_l10_p v' = Some q -> (S q < sv_p v')%nat /\ 0xc0 <= rd m q <= 0xc3).
Proof.
  intros H Hh Hl.
  scan_cases H; subst v'; simpl; rewrite ?Nat.sub_0_r; split; intros q Hq;
    try (injection Hq as <-; split; lia);
    try (destruct (Hh q Hq); split; [lia|done]);
    try (destruct (Hl q Hq); split; [lia|done]).
Qed.

Lemma scan_loop_dsc_ptrs fuel m : forall v,
  (forall q, sv_dsc_h14_p v = Some q -> (S q < sv_p v)%nat /\ 0x80 <= rd m q <= 0xbf) ->
  (forall q, sv_dsc_l10_p v = Some q -> (S q < sv_p v)%nat /\ 0xc0 <= rd m q <= 0xc3) ->
  let w := scan_loop fuel m v in
  (forall q, sv_dsc_h14_p w = Some q -> (S q < sv_p w)%nat /\ 0x80 <= rd m q <= 0xbf)
  /\ (forall q, sv_dsc_l10_p w = Some q -> (S q < sv_p w)%nat /\ 0xc0 <= rd m q <= 0xc3).
Proof.
  induction fuel as [|fuel IH]; intros v Hh Hl; [done|].
  simpl. destruct (scan_body m v) as [v1|] eqn:Hb; [|done].
  destruct (scan_body_dsc_ptrs m v v1 Hb Hh Hl) as [Hh1 Hl1].
  by apply IH.
Qed.

Lemma lor_shiftl_add H L k :
  0 <= k -> 0 <= L < 2 ^ k -> Z.lor (Z.shiftl H k) L = H * 2 ^ k + L.
Proof.
  intros Hk HL. rewrite <- Z.shiftl_mul_pow2 by lia.
  assert (Hland : Z.land (Z.shiftl H k) L = 0).
  { apply Z.bits_inj'. intros n Hn.
    rewrite Z.land_spec, Z.bits_0, Z.shiftl_spec by lia.
    destruct (Z.ltb_spec n k).
    + by rewrite Z.testbit_neg_r by lia.
    + rewrite <- (Z.mod_small L (2 ^ k)) by lia.
      rewrite Z.mod_pow2_bits_high by lia. apply andb_false_r. }
  pose proof (Z.add_lor_land (Z.shiftl H k) L) as Hadd.
  rewrite Hland in Hadd. lia.
Qed.

(** The two halves of the counter as [gpg_data_scan] reads them from their
    cells. *)
Lemma dsc_halves b0 b1 c0 c1 :
  0xc0 <= b0 <= 0xc3 -> 0 <= b1 <= 255 -> 0x80 <= c0 <= 0xbf -> 0 <= c1 <= 255 ->
  0 <= Z.lor (Z.shiftl (b0 - 0xc0) 8) b1 < 1024
  /\ 0 <= Z.lor (Z.shiftl (c0 - 0x80) 8) c1 < 2 ^ 14.
Proof.
  intros Hb0 Hb1 Hc0 Hc1.
  rewrite !(lor_shiftl_add _ _ 8) by lia. change (2 ^ 8) with 256. lia.
Qed.

Lemma dsc_l10_low d :
  Z.lor (Z.shiftl (u8 (dsc_hw_l10 d) - 0xc0) 8) (u8 (Z.shiftr (dsc_hw_l10 d) 8))
  = d mod 1024
  /\ 0xc0 <= u8 (dsc_hw_l10 d) <= 0xc3.
Proof.
  assert (Heq : dsc_hw_l10 d = dsc_hw_l10 (d mod 1024)).
  { unfold dsc_hw_l10.
    assert (Hl : forall M, Z.land M 0x3ff = M -> Z.land (d mod 1024) M = Z.land d M).
    { intros M HM. change 1024 with (2 ^ 10). rewrite <- Z.land_ones by lia.
      rewrite <- Z.land_assoc. change (Z.ones 10) with 0x3ff.
      by rewrite (Z.land_comm 0x3ff), HM. }
    by rewrite !Hl by done. }
  rewrite Heq.
  assert (Hr : 0 <= d mod 1024 < 1024) by (apply Z.mod_pos_bound; lia).
  destruct (dsc_l10_cell _ Hr) as [Hb Hv].
  split; [|done].
  rewrite Z.shiftl_0_l, Z.lor_0_l in Hv. unfold u32 in Hv.
  rewrite Z.mod_small in Hv; [done|].
  assert (Hu : 0 <= u8 (Z.shiftr (dsc_hw_l10 (d mod 1024)) 8) <= 255).
  { rewrite u8_mod. pose proof (Z.mod_pos_bound (Z.shiftr (dsc_hw_l10 (d mod 1024)) 8) 256).
    lia. }
  destruct (dsc_halves _ _ 0x80 0 Hb Hu) as [Hh _]; [lia|lia|]. lia.
Qed.

Lemma flash_put_data_room hw s :
  (last_p s + 2 <= length (data_pool s))%nat ->
  flash_put_data hw s
  = set_data_pool (flash_program (data_pool s) (last_p s) (hw_bytes hw))
      (set_last_p (last_p s + 2) s).
Proof.
  intros Hroom. unfold flash_put_data, flash_data_pool_allocate. simpl.
  by rewrite (proj2 (Nat.leb_le _ _)) by done.
Qed.

(** The counter that the scan rebuilds when a cell of lower bits follows
    what it has found so far. *)
Lemma scan_dsc_new_l10 m m' t h l d d1 :
  (forall j, (j < t)%nat -> rd m' j = rd m j) ->
  (forall a, 0 <= rd m a <= 255) ->
  (forall q, h = Some q -> (S q < t)%nat /\ 0x80 <= rd m q <= 0xbf) ->
  (forall q, l = Some q -> (S q < t)%nat /\ 0xc0 <= rd m q <= 0xc3) ->
  scan_dsc m h l = d ->
  d1 = (d + 1) mod 2 ^ 24 -> d1 mod 1024 <> 0 ->
  rd m' t = u8 (dsc_hw_l10 d1) -> rd m' (S t) = u8 (Z.shiftr (dsc_hw_l10 d1) 8) ->
  scan_dsc m' h (Some t) = d1.
Proof.
  intros Hagree Hbytes Hh Hl Hd Hd1 Hnc Hr0 Hr1.
  assert (Hmod : d1 mod 1024 = (d + 1) mod 1024).
  { rewrite Hd1. apply Z.mod_mod_divide. exists (2 ^ 14). reflexivity. }
  rewrite Hmod in Hnc.
  assert (Hnew : Z.lor (Z.shiftl (rd m' t - 0xc0) 8) (rd m' (S t)) = (d + 1) mod 1024).
  { rewrite Hr0, Hr1, <- Hmod. apply dsc_l10_low. }
  assert (Hlold : forall q, l = Some q ->
                    0 <= Z.lor (Z.shiftl (rd m q - 0xc0) 8) (rd m (S q)) < 1024).
  { intros q Hq. destruct (Hl q Hq) as [_ Hb].
    apply (dsc_halves _ _ 0x80 0); try done; try lia; apply Hbytes. }
  unfold scan_dsc in *. rewrite Hnew.
  destruct h as [hh|].
  - destruct (Hh hh eq_refl) as [Hlt Hb].
    rewrite (proj2 (Nat.ltb_ge _ _)) by lia.
    rewrite !Hagree by lia.
    set (H := Z.lor (Z.shiftl (rd m hh - 0x80) 8) (rd m (S hh))) in *.
    assert (HH : 0 <= H < 2 ^ 14).
    { apply (dsc_halves 0xc0 0); try done; try lia; apply Hbytes. }
    assert (Hold : exists l', 0 <= l' < 1024 /\ d = H * 1024 + l').
    { destruct l as [q|].
      - destruct (q <? hh)%nat.
        + exists 0. split; [lia|]. rewrite <- Hd.
          rewrite (lor_shiftl_add _ _ 10) by lia. unfold u32.
          rewrite Z.mod_small; lia.
        + exists (Z.lor (Z.shiftl (rd m q - 0xc0) 8) (rd m (S q))).
          pose proof (Hlold q eq_refl). split; [done|]. rewrite <- Hd.
          rewrite (lor_shiftl_add _ _ 10) by lia. unfold u32.
          rewrite Z.mod_small; lia.
      - exists 0. split; [lia|]. rewrite <- Hd.
        rewrite (lor_shiftl_add _ _ 10) by lia. unfold u32.
        rewrite Z.mod_small; lia. }
    destruct Hold as (l' & Hl' & Hdl).
    assert (Hm1 : (d + 1) mod 1024 = (l' + 1) mod 1024).
    { rewrite Hdl. replace (H * 1024 + l' + 1) with (l' + 1 + H * 1024) by lia.
      apply Z.mod_add. lia. }
    assert (Hl1 : l' + 1 < 1024).
    { destruct (decide (l' + 1 = 1024)) as [E|]; [|lia].
      rewrite Hm1, E in Hnc. by rewrite Z.mod_same in Hnc. }
    rewrite Hm1, Z.mod_small by lia.
    rewrite (lor_shiftl_add _ _ 10) by lia. unfold u32.
    rewrite Z.mod_small by lia.
    rewrite Hd1, Z.mod_small; lia.
  - assert (Hold : 0 <= d < 1024).
    { destruct l as [q|].
      - pose proof (Hlold q eq_refl). rewrite <- Hd.
        rewrite Z.shiftl_0_l, Z.lor_0_l. unfold u32. rewrite Z.mod_small; lia.
      - rewrite <- Hd. done. }
    assert (Hl1 : d + 1 < 1024).
    { destruct (decide (d + 1 = 1024)) as [E|]; [|lia].
      rewrite E in Hnc. by rewrite Z.mod_same in Hnc. }
    rewrite (Z.mod_small (d + 1) 1024) by lia.
    rewrite Z.shiftl_0_l, Z.lor_0_l. unfold u32. rewrite Z.mod_small by lia.
    rewrite Hd1, Z.mod_small; lia.
Qed.

(** The increment of the signature counter, then a power cycle: on a card
    whose pool holds bytes and is read by the scan up to an even tail with
    four erased bytes of room, and whose counter is the one that the scan
    of its pool rebuilds, the [gpg_data_scan] after
    [gpg_increment_digital_signature_counter] rebuilds the counter plus one,
    modulo 2^24. *)
Theorem dsc_increment_survives_scan (s : state) :
  pool_bytes s = true ->
  digital_signature_counter (gpg_data_scan 0 s) = digital_signature_counter s ->
  scan_end 0 s = last_p s ->
  Nat.even (last_p s) = true ->
  (last_p s + 4 <= length (data_pool s))%nat ->
  rd (data_pool s) (last_p s + 2) = NR_EMPTY ->
  rd (data_pool s) (last_p s + 4) = NR_EMPTY ->
  digital_signature_counter
    (gpg_data_scan 0 (gpg_increment_digital_signature_counter s))
  = (digital_signature_counter s + 1) mod 2 ^ 24.
Proof.
  intros Hbytes Hcons Htail Heven Hroom He2 He4.
  set (d := digital_signature_counter s) in *.
  set (d1 := Z.land (d + 1) 0x00ffffff).
  assert (Hd1 : d1 = (d + 1) mod 2 ^ 24) by apply land_ffffff.
  assert (Hrange : 0 <= d1 < 2 ^ 24) by (rewrite Hd1; apply Z.mod_pos_bound; lia).
  rewrite <- Hd1.
  set (m := data_pool s) in *. set (t := last_p s) in *.
  set (w := scan_loop (S (length m)) m (scan_start 0 s)).
  assert (Hw : sv_p w = t) by exact Htail.
  destruct (scan_loop_dsc_ptrs (S (length m)) m (scan_start 0 s)) as [Hh Hl];
    [done|done|]. fold w in Hh, Hl. rewrite Hw in Hh, Hl.
  rewrite gpg_data_scan_dsc in Hcons. fold m w in Hcons.
  rewrite gpg_data_scan_dsc.
  unfold gpg_increment_digital_signature_counter. fold d d1.
  destruct (Z.eqb_spec (Z.land d1 0x03ff) 0) as [Hc|Hc].
  - (* carry occurs from l10 to h14 *)
    rewrite (flash_put_data_room (dsc_hw_h14 d1) s) by (fold t m; lia).
    rewrite flash_put_data_room
      by (cbn [last_p data_pool set_data_pool set_last_p];
          rewrite length_flash_program; fold t m; lia).
    cbn [last_p data_pool set_data_pool set_last_p set_digital_signature_counter
         scan_start pw_err_counter_p do_ptr].
    fold t m. rewrite <- flash_program_app.
    set (cs := [CellH14 (dsc_hw_h14 d1); CellL10 NR_COUNTER_DS_LSB]).
    change (hw_bytes (dsc_hw_h14 d1) ++ hw_bytes NR_COUNTER_DS_LSB)
      with (cells_bytes cs).
    set (m' := flash_program m t (cells_bytes cs)).
    change (scan_start 0 (set_digital_signature_counter d1 ?x))
      with (scan_start 0 s).
    destruct (dsc_h14_cell d1 Hrange Hc) as [Hb Hv].
    assert (Hmem : rd_bytes m' t (length (cells_bytes cs)) = cells_bytes cs)
      by (apply rd_bytes_flash_program; simpl; lia).
    rewrite (scan_after_append m m' (scan_start 0 s) cs); fold w; rewrite ?Hw.
    + cbn [cs fold_left scan_cell sv_dsc_h14_p sv_dsc_l10_p sv_p]. rewrite Hw.
      unfold scan_dsc. rewrite (proj2 (Nat.ltb_ge _ _)) by lia.
      rewrite <- (Nat.add_0_r t) at 1.
      rewrite (rd_of_rd_bytes m' t _ 0 (u8 (dsc_hw_h14 d1)) Hmem) by done.
      replace (S t) with (t + 1)%nat by lia.
      rewrite (rd_of_rd_bytes m' t _ 1 (u8 (Z.shiftr (dsc_hw_h14 d1) 8)) Hmem) by done.
      rewrite (rd_of_rd_bytes m' t _ 2 (u8 NR_COUNTER_DS_LSB) Hmem) by done.
      replace (S (t + 2)) with (t + 3)%nat by lia.
      rewrite (rd_of_rd_bytes m' t _ 3 (u8 (Z.shiftr NR_COUNTER_DS_LSB 8)) Hmem) by done.
      exact Hv.
    + intros j Hj. unfold m'. rewrite flash_program_lookup.
      by rewrite decide_False by lia.
    + apply length_flash_program.
    + done.
    + apply List.Forall_cons; [done|].
      apply List.Forall_cons; [|apply List.Forall_nil].
      vm_compute. split; discriminate.
    + simpl. lia.
    + done.
    + unfold m'. rewrite rd_flash_program_out by (simpl; lia). exact He4.
  - rewrite (flash_put_data_room (dsc_hw_l10 d1) s) by (fold t m; lia).
    cbn [last_p data_pool set_data_pool set_last_p set_digital_signature_counter
         scan_start pw_err_counter_p do_ptr].
    fold t m.
    set (cs := [CellL10 (dsc_hw_l10 d1)]).
    replace (hw_bytes (dsc_hw_l10 d1)) with (cells_bytes cs)
      by (unfold cs, cells_bytes; cbn [map concat cell_bytes]; apply app_nil_r).
    set (m' := flash_program m t (cells_bytes cs)).
    change (scan_start 0 (set_digital_signature_counter d1 ?x))
      with (scan_start 0 s).
    assert (Hmem : rd_bytes m' t (length (cells_bytes cs)) = cells_bytes cs)
      by (apply rd_bytes_flash_program; simpl; lia).
    assert (Hagree : forall j, (j < t)%nat -> m' !! j = m !! j).
    { intros j Hj. unfold m'. rewrite flash_program_lookup.
      by rewrite decide_False by lia. }
    rewrite (scan_after_append m m' (scan_start 0 s) cs); fold w; rewrite ?Hw;
      try done.
    + cbn [cs fold_left scan_cell sv_dsc_h14_p sv_dsc_l10_p sv_p]. rewrite Hw.
      apply (scan_dsc_new_l10 m m' t _ (sv_dsc_l10_p w) d d1); try done.
      * intros j Hj. by apply rd_lookup_eq, Hagree.
      * intros a. by apply pool_bytes_rd.
      * change 0x03ff with (Z.ones 10) in Hc. rewrite Z.land_ones in Hc by lia.
        exact Hc.
      * rewrite <- (Nat.add_0_r t).
        by rewrite (rd_of_rd_bytes m' t _ 0 (u8 (dsc_hw_l10 d1)) Hmem).
      * replace (S t) with (t + 1)%nat by lia.
        by rewrite (rd_of_rd_bytes m' t _ 1 (u8 (Z.shiftr (dsc_hw_l10 d1) 8)) Hmem).
    + apply length_flash_program.
    + apply List.Forall_cons; [|apply List.Forall_nil]. apply dsc_l10_low.
    + simpl. lia.
    + unfold m'. rewrite rd_flash_program_out by (simpl; lia). exact He2.
Qed.

Lemma dsc_increment_survives_scan_witness :
  digital_signature_counter
    (gpg_data_scan 0 (gpg_increment_digital_signature_counter card_five_signatures))
  = 6.
Proof.
  apply (dsc_increment_survives_scan card_five_signatures).
  - vm_compute. reflexivity.
  - vm_compute. reflexivity.
  - vm_compute. reflexivity.
  - vm_compute. reflexivity.
  - vm_compute. lia.
  - vm_compute. reflexivity.
  - vm_compute. reflexivity.
Defined.

(** * A pool without room for the record of a private key *)

Section PoolFull.
Context {C : Collaborators}.

#[local] Arguments gpg_do_write_simple : simpl never.
#[local] Arguments flash_do_release : simpl never.
#[local] Arguments flash_key_release : simpl never.

Lemma flash_do_write_full nr data s :
  ~ pool_has_room (2 + length data) s -> flash_do_write nr data s = (None, s).
Proof.
  intros Hroom. unfold flash_do_write, flash_data_pool_allocate.
  unfold pool_has_room in Hroom.
  by rewrite (proj2 (Nat.leb_gt _ _)) by lia.
Qed.

Lemma load_prvkey_no_key kk who ks s :
  arr_get (do_ptr s) (get_do_ptr_nr_for_kk kk - NR_DO__FIRST__) = None ->
  gpg_do_load_prvkey kk who ks s = (0, s).
Proof. intros H. unfold gpg_do_load_prvkey. by rewrite H. Qed.

Lemma first_unused_spec slots : forall i j,
  first_unused slots i = Some j ->
  (i <= j)%nat /\ slots !! (j - i)%nat = Some None.
Proof.
  induction slots as [|[b|] slots IH]; intros i j H; simpl in H; [done| |].
  - apply IH in H as [Hle Hl]. split; [lia|].
    replace (j - i)%nat with (S (j - S i)) by lia. done.
  - injection H as <-. split; [lia|]. by rewrite Nat.sub_diag.
Qed.

Lemma flash_key_alloc_slot s key_addr :
  flash_key_alloc s = Some key_addr ->
  exists i, key_addr = (i * KEY_SLOT_SIZE)%nat
            /\ key_slot_of key_addr = Some i
            /\ (i < length (keystore s))%nat.
Proof.
  unfold flash_key_alloc. destruct (first_unused (keystore s) 0) as [i|] eqn:Hi; [|done].
  intros [= <-]. exists i. split; [done|].
  apply first_unused_spec in Hi as [_ Hl]. rewrite Nat.sub_0_r in Hl.
  apply lookup_lt_Some in Hl. split; [|done].
  unfold key_slot_of. rewrite Nat.Div0.mod_mul, Nat.eqb_refl.
  by rewrite Nat.div_mul by (unfold KEY_SLOT_SIZE; lia).
Qed.

Lemma flash_key_alloc_taken s key_addr i bytes :
  key_slot_of key_addr = Some i ->
  keystore s !! i = Some (Some bytes) ->
  flash_key_alloc s <> Some key_addr.
Proof.
  intros Hslot Hl. unfold flash_key_alloc.
  destruct (first_unused (keystore s) 0) as [j|] eqn:Hj; [|done].
  intros [= Heq]. apply first_unused_spec in Hj as [_ Hn].
  rewrite Nat.sub_0_r in Hn.
  unfold key_slot_of in Hslot. rewrite <- Heq in Hslot.
  rewrite Nat.Div0.mod_mul, Nat.eqb_refl in Hslot.
  rewrite Nat.div_mul in Hslot by (unfold KEY_SLOT_SIZE; lia).
  injection Hslot as <-. congruence.
Qed.

Lemma write_prvkey_dek_keystrings p s pd dek ks_pw1 ks_rc s1 :
  write_prvkey_dek (Some p) s = (pd, dek, ks_pw1, ks_rc, s1) ->
  do_ptr s1
  = arr_set (arr_set (do_ptr s) (NR_DO_KEYSTRING_PW1 - NR_DO__FIRST__) None)
      (NR_DO_KEYSTRING_RC - NR_DO__FIRST__) None.
Proof.
  intros H. unfold write_prvkey_dek in H. injection H as _ _ _ _ <-.
  unfold flash_do_release, flash_key_release.
  destruct (key_slot_of _); cbn [do_ptr set_data_pool set_keystore];
    destruct (write_simple_null_fields NR_DO_KEYSTRING_RC
                (gpg_do_write_simple NR_DO_KEYSTRING_PW1 None s)) as [-> _];
    by destruct (write_simple_null_fields NR_DO_KEYSTRING_PW1 s) as [-> _].
Qed.

Lemma write_prvkey_dek_frame do_data s pd dek ks_pw1 ks_rc s1 :
  write_prvkey_dek do_data s = (pd, dek, ks_pw1, ks_rc, s1) ->
  length pd = SIZEOF_PRVKEY_DATA
  /\ last_p s1 = last_p s
  /\ length (data_pool s1) = length (data_pool s)
  /\ length (keystore s1) = length (keystore s)
  /\ length (do_ptr s1) = length (do_ptr s).
Proof.
  intros H. unfold write_prvkey_dek in H.
  destruct do_data as [do_data|].
  - injection H as <- <- <- <- <-.
    split; [by rewrite !length_buf_write, rd_bytes_length|].
    set (s2 := gpg_do_write_simple NR_DO_KEYSTRING_PW1 None s).
    set (s3 := gpg_do_write_simple NR_DO_KEYSTRING_RC None s2).
    destruct (write_simple_null_frame NR_DO_KEYSTRING_PW1 s)
      as (Ha1 & Ha2 & Ha3 & Ha4 & _).
    destruct (write_simple_null_frame NR_DO_KEYSTRING_RC s2)
      as (Hb1 & Hb2 & Hb3 & Hb4 & _).
    fold s2 in Ha1, Ha2, Ha3, Ha4. fold s3 in Hb1, Hb2, Hb3, Hb4.
    clearbody s2 s3.
    unfold flash_do_release, flash_key_release, flash_put_data_internal.
    destruct (key_slot_of _); simpl;
      rewrite ?length_flash_program, ?length_insert;
      repeat split; congruence.
  - unfold random_bytes_get, random_take in H.
    injection H as <- <- <- <- <-.
    split; [by rewrite !length_buf_write|]. done.
Qed.

Lemma length_write_prvkey_record pd key_addr ks_pw1 ks_rc keystring s :
  length (write_prvkey_record pd key_addr ks_pw1 ks_rc keystring s) = length pd.
Proof.
  unfold write_prvkey_record.
  destruct ks_pw1, ks_rc; by rewrite !length_buf_write.
Qed.

(** A key import that finds no room in the pool for the record of the key
    is not undone: when the heap, the modulus and a free slot of the key
    store are there but the pool has no room for the record,
    [gpg_do_write_prvkey] returns -1, yet the role has no private key
    afterwards, also when it had one before ([gpg_do_load_prvkey] returns 0
    whoever asks), the keystrings of PW1 and of the resetting code are
    erased when it had one, and the slot of the key store that the new key
    was written to is no longer free. *)
Theorem write_prvkey_pool_full (kk : kind_of_key) (key_data keystring : list Z)
    (s : state) (key_addr : nat) :
  heap_avail s = true ->
  is_Some (modulus_calc key_data) ->
  flash_key_alloc s = Some key_addr ->
  ~ pool_has_room (2 + SIZEOF_PRVKEY_DATA) s ->
  length (do_ptr s) = Z.to_nat NR_DO__LAST__ ->
  let r := gpg_do_write_prvkey kk key_data keystring s in
  fst r = -1
  /\ (forall who ks, gpg_do_load_prvkey kk who ks (snd r) = (0, snd r))
  /\ (is_Some (arr_get (do_ptr s) (get_do_ptr_nr_for_kk kk - NR_DO__FIRST__)) ->
        gpg_do_read_simple NR_DO_KEYSTRING_PW1 (snd r) = None
        /\ gpg_do_read_simple NR_DO_KEYSTRING_RC (snd r) = None)
  /\ flash_key_alloc (snd r) <> Some key_addr.
Proof.
  intros Hheap [modulus Hmod] Halloc Hroom Hlen r.
  destruct (flash_key_alloc_slot s key_addr Halloc) as (i & Haddr & Hslot & Hi).
  unfold r, gpg_do_write_prvkey. rewrite Hheap, Hmod, Halloc. cbn [negb].
  unfold get_random, random_take. cbv zeta.
  set (nr := get_do_ptr_nr_for_kk kk).
  set (s0 := set_kd _ _).
  destruct (write_prvkey_dek (arr_get (do_ptr s) (nr - NR_DO__FIRST__)) s0)
    as [[[[pd dek] ks_pw1] ks_rc] s1] eqn:Hdek.
  destruct (write_prvkey_dek_frame _ _ _ _ _ _ _ Hdek)
    as (Hpd & Hlast & Hpool & Hks & Hptrs).
  unfold flash_key_write. rewrite Hslot.
  cbn [keystore set_kd]. rewrite (proj2 (Nat.ltb_lt _ _)) by (rewrite Hks; exact Hi).
  cbn [Z.ltb Z.compare]. cbv iota.
  set (s2 := ac_reset_pso_cds _).
  set (pd' := write_prvkey_record pd key_addr ks_pw1 ks_rc keystring s2).
  assert (Hpd' : length pd' = SIZEOF_PRVKEY_DATA)
    by (unfold pd'; by rewrite length_write_prvkey_record).
  rewrite flash_do_write_full
    by (rewrite Hpd'; unfold pool_has_room in *; cbn; rewrite Hlast, Hpool; exact Hroom).
  cbn [fst snd].
  assert (Hidx : 0 <= nr - NR_DO__FIRST__
                 /\ (Z.to_nat (nr - NR_DO__FIRST__) < length (do_ptr s2))%nat).
  { cbn. rewrite Hptrs. cbn. rewrite Hlen.
    unfold nr. destruct kk; vm_compute; split; (discriminate || lia). }
  split; [done|]. split; [|split].
  - intros who ks. apply load_prvkey_no_key. cbn [do_ptr set_do_ptr]. fold nr.
    apply arr_get_set_None.
  - intros [p Hp]. rewrite Hp in Hdek.
    apply write_prvkey_dek_keystrings in Hdek.
    unfold gpg_do_read_simple. cbn [do_ptr set_do_ptr].
    change (do_ptr s2) with (do_ptr s1). rewrite Hdek.
    split.
    + rewrite arr_get_set_ne by (unfold nr; destruct kk; vm_compute; discriminate).
      rewrite arr_get_set_ne by (vm_compute; discriminate).
      by rewrite arr_get_set_None.
    + rewrite arr_get_set_ne by (unfold nr; destruct kk; vm_compute; discriminate).
      by rewrite arr_get_set_None.
  - apply (flash_key_alloc_taken _ key_addr i
             (resize KEY_CONTENT_LEN 0 (encrypt dek (kd s1)) ++ modulus)); [done|].
    cbn [keystore set_do_ptr]. unfold s2, ac_reset_pso_cds. cbn [keystore].
    apply list_lookup_insert_eq. rewrite Hks. exact Hi.
Qed.

(** A change of keystring that finds no room in the pool loses the key:
    when the role holds a private key, the heap is there and the pool has no
    room for the rewritten record, [gpg_do_chks_prvkey] returns -1 and the
    role has no private key afterwards ([gpg_do_load_prvkey] returns 0
    whoever asks), while the key store is as it was. *)
Theorem chks_prvkey_pool_full (kk : kind_of_key) (who_old who_new : Z)
    (old_ks new_ks : list Z) (s : state) :
  is_Some (arr_get (do_ptr s) (get_do_ptr_nr_for_kk kk - NR_DO__FIRST__)) ->
  heap_avail s = true ->
  ~ pool_has_room (2 + SIZEOF_PRVKEY_DATA) s ->
  let r := gpg_do_chks_prvkey kk who_old old_ks who_new new_ks s in
  fst r = -1
  /\ (forall who ks, gpg_do_load_prvkey kk who ks (snd r) = (0, snd r))
  /\ keystore (snd r) = keystore s.
Proof.
  intros [p Hp] Hheap Hroom r. unfold r, gpg_do_chks_prvkey.
  rewrite Hp, Hheap. cbn [negb]. cbv zeta.
  rewrite flash_do_write_full
    by (by rewrite length_buf_write, rd_bytes_length).
  cbn [fst snd]. split; [done|]. split; [|done].
  intros who ks. apply load_prvkey_no_key.
  unfold flash_do_release. cbn [do_ptr set_do_ptr set_data_pool].
  apply arr_get_set_None.
Qed.

(** PUT DATA on a pool without room: when the admin puts 1 to 255 bytes
    into a data object of kind VAR and the pool has no room for the cell,
    PUT DATA answers the memory failure and the object has no value
    afterwards, also when it had one: GET DATA of the tag answers 90 00
    alone. *)
Theorem put_data_pool_full (e : do_table_entry) (x : list Z) (s : state) :
  In e gpg_do_table -> do_type_of e = DO_VAR ->
  (1 <= length x <= 255)%nat ->
  auth_admin s = true ->
  ~ pool_has_room (2 + length x) s ->
  let s' := gpg_do_put_data (tag e) x s in
  res_APDU s' = RES_SW GPG_MEMORY_FAILURE
  /\ res_APDU <$> gpg_do_get_data (tag e) s' = Some (RES_DATA [0x90; 0x00]).
Proof.
  intros Hin Hty Hlen Hauth Hroom s'.
  destruct (var_entry e Hin Hty) as (nr & He).
  rewrite (get_data_var e nr) by done.
  unfold s'. rewrite (put_data_var e nr) by done. cbv zeta.
  set (s1 := match arr_get (do_ptr s) (nr - NR_DO__FIRST__) with
             | Some do_data => flash_do_release do_data s
             | None => s
             end).
  assert (Hs1 : last_p s1 = last_p s
                /\ length (data_pool s1) = length (data_pool s)).
  { unfold s1. destruct (arr_get _ _) as [q|]; [|done].
    pose proof (flash_do_release_fields q s). tauto. }
  rewrite (proj2 (Nat.eqb_neq _ _)) by lia.
  rewrite (proj2 (Nat.ltb_ge _ _)) by lia.
  rewrite flash_do_write_full
    by (unfold pool_has_room in *; destruct Hs1 as [-> ->]; exact Hroom).
  cbn [res_APDU set_res_APDU do_ptr set_do_ptr data_pool].
  split; [done|]. by rewrite arr_get_set_None.
Qed.

End PoolFull.

Lemma put_data_pool_full_witness :
  let s' := gpg_do_put_data (C:=Stub.collaborators) GPG_DO_LOGIN_DATA long_name
              card_login_alice in
  res_APDU s' = RES_SW GPG_MEMORY_FAILURE
  /\ res_APDU <$> gpg_do_get_data (C:=Stub.collaborators) GPG_DO_LOGIN_DATA s'
     = Some (RES_DATA [0x90; 0x00]).
Proof.
  apply (put_data_pool_full (C:=Stub.collaborators) entry_login_data long_name
           card_login_alice).
  - unfold gpg_do_table. simpl. tauto.
  - reflexivity.
  - vm_compute. lia.
  - reflexivity.
  - unfold pool_has_room. vm_compute. lia.
Defined.

Lemma write_prvkey_pool_full_witness :
  let r := gpg_do_write_prvkey (C:=Stub.collaborators) GPG_KEY_FOR_SIGNING
             sample_key sample_keystring card_sig_key_full in
  fst r = -1
  /\ (forall who ks,
        gpg_do_load_prvkey (C:=Stub.collaborators) GPG_KEY_FOR_SIGNING who ks (snd r)
        = (0, snd r))
  /\ (is_Some (arr_get (do_ptr card_sig_key_full)
                 (get_do_ptr_nr_for_kk GPG_KEY_FOR_SIGNING - NR_DO__FIRST__)) ->
        gpg_do_read_simple NR_DO_KEYSTRING_PW1 (snd r) = None
        /\ gpg_do_read_simple NR_DO_KEYSTRING_RC (snd r) = None)
  /\ flash_key_alloc (snd r) <> Some 384%nat.
Proof.
  apply (write_prvkey_pool_full (C:=Stub.collaborators) GPG_KEY_FOR_SIGNING
           sample_key sample_keystring card_sig_key_full 384).
  - reflexivity.
  - vm_compute. eexists. reflexivity.
  - vm_compute. reflexivity.
  - unfold pool_has_room. vm_compute. lia.
  - vm_compute. reflexivity.
Defined.

Lemma chks_prvkey_pool_full_witness :
  let r := gpg_do_chks_prvkey (C:=Stub.collaborators) GPG_KEY_FOR_SIGNING
             BY_ADMIN sample_keystring BY_USER sample_keystring
             card_sig_key_full in
  fst r = -1
  /\ (forall who ks,
        gpg_do_load_prvkey (C:=Stub.collaborators) GPG_KEY_FOR_SIGNING who ks (snd r)
        = (0, snd r))
  /\ keystore (snd r) = keystore card_sig_key_full.
Proof.
  apply (chks_prvkey_pool_full (C:=Stub.collaborators) GPG_KEY_FOR_SIGNING
           BY_ADMIN BY_USER sample_keystring sample_keystring card_sig_key_full).
  - vm_compute. eexists. reflexivity.
  - reflexivity.
  - unfold pool_has_room. vm_compute. lia.
Defined.
